(** * HR administration platform: request workflow, attendance recorder and
      ZenHR connector

    A shallow embedding of
      - [src/lib/zenhr.ts]                 (the external HR connector),
      - [src/app/api/hr-request/route.ts]  (POST / GET / PATCH handlers),
      - [src/app/api/attendance/route.ts]  (POST handler),
      - the relational schema of the initial migration (tables, foreign keys
        and the unique index on Attendance),
    together with the properties of the workflow that the specification
    states about them.

    Handlers are written in a state-and-exception monad over a [World]
    holding the database, the list of HTTP requests sent to the provider and
    the positions reached in the clock and id oracles.  The state survives an
    exception: the handlers open no transaction, so what was written before a
    throw stays written. *)

From Stdlib Require Import ZArith List String Ascii Bool Lia DecimalString.
From Stdlib Require Import Sorted Permutation.
Import ListNotations.
Local Open Scope list_scope.
Local Open Scope string_scope.

Set Implicit Arguments.
Set Warnings "-register-all".

(* ------------------------------------------------------------------ *)
(** ** JavaScript values *)

(** What [request.json()] can yield and what the connector passes around
    under the type [any].  Numbers are integers here: no handler computes
    with them, only their truthiness and their decimal rendering are used. *)
Inductive json : Type :=
| JUndefined
| JNull
| JBool (b : bool)
| JNum (n : Z)
| JStr (s : string)
| JArr (items : list json)
| JObj (fields : list (string * json)).

(** [!!v] *)
Definition truthy (v : json) : bool :=
  match v with
  | JUndefined | JNull => false
  | JBool b => b
  | JNum n => negb (Z.eqb n 0)
  | JStr s => negb (String.eqb s "")
  | JArr _ | JObj _ => true
  end.

(** [a || b] *)
Definition js_or (a b : json) : json := if truthy a then a else b.

(** Property read [o.k] on an object given as its list of own fields. *)
Fixpoint lookup (k : string) (fs : list (string * json)) : json :=
  match fs with
  | [] => JUndefined
  | (k', v) :: rest => if String.eqb k k' then v else lookup k rest
  end.

(** [{ ...o, k: v }] on field lists: an own key keeps its position and takes
    the new value, a new key goes last. *)
Fixpoint obj_set (k : string) (v : json) (fs : list (string * json))
  : list (string * json) :=
  match fs with
  | [] => [(k, v)]
  | (k', v') :: rest =>
      if String.eqb k k' then (k, v) :: rest else (k', v') :: obj_set k v rest
  end.

(** [...o] inside an object literal; the connector's callers pass objects. *)
Definition spread (o : json) : list (string * json) :=
  match o with
  | JObj fs => fs
  | _ => []
  end.

(** Decimal rendering of a number, as in [`${n}`]. *)
Definition decimal (n : Z) : string := NilZero.string_of_int (Z.to_int n).

(** The parts of the JavaScript runtime that the code calls and that are not
    re-implemented here.  Theorems hold for every runtime. *)
Record Runtime : Type := {
  toUpperCase : string -> string;      (* String.prototype.toUpperCase *)
  toLowerCase : string -> string;      (* String.prototype.toLowerCase *)
  newDate : json -> option Z;          (* new Date(v); None is Invalid Date *)
  toISOString : Z -> string;           (* Date.prototype.toISOString *)
  stringify : json -> string;          (* JSON.stringify *)
  objectToString : json -> string      (* String(v) for arrays and objects *)
}.

(** [`${v}`] *)
Definition template (rt : Runtime) (v : json) : string :=
  match v with
  | JUndefined => "undefined"
  | JNull => "null"
  | JBool true => "true"
  | JBool false => "false"
  | JNum n => decimal n
  | JStr s => s
  | JArr _ | JObj _ => objectToString rt v
  end.

(** [s] occurs in [t]. *)
Definition contains (s t : string) : Prop :=
  exists pre post, t = pre ++ s ++ post.

(* ------------------------------------------------------------------ *)
(** ** Persistent store: the tables of the migration *)

Module User.
Record t : Type := {
  id : string;
  name : option string;
  email : string;
  role : string;                     (* TEXT NOT NULL DEFAULT 'EMPLOYEE' *)
  companyId : option string;
  employeeId : option string;
  department : option string;
  position : option string
}.
End User.

Module Company.
Record t : Type := {
  id : string;
  name : string
}.
End Company.

Module HRRequest.
Record t : Type := {
  id : string;
  type : string;
  title : string;
  description : option string;
  status : string;                   (* DEFAULT 'PENDING' *)
  priority : string;                 (* DEFAULT 'MEDIUM' *)
  startDate : option Z;
  endDate : option Z;
  documents : option string;
  comments : option string;
  createdAt : Z;                     (* DEFAULT CURRENT_TIMESTAMP *)
  employeeId : string;
  managerId : option string;
  companyId : string
}.
End HRRequest.

Module RequestApproval.
Record t : Type := {
  id : string;
  status : string;
  comments : option string;
  createdAt : Z;
  requestId : string;
  approverId : string
}.
End RequestApproval.

Module Attendance.
Record t : Type := {
  id : string;
  date : Z;
  checkIn : option Z;
  checkOut : option Z;
  status : string;                   (* DEFAULT 'PRESENT' *)
  notes : option string;
  location : option string;
  createdAt : Z;
  employeeId : string
}.
End Attendance.

Module Notification.
Record t : Type := {
  id : string;
  title : string;
  message : string;
  type : string;
  isRead : bool;                     (* DEFAULT false *)
  createdAt : Z;
  userId : string
}.
End Notification.

(** Rows are kept in the order the engine scans them. *)
Record DB : Type := {
  users : list User.t;
  companies : list Company.t;
  hRRequests : list HRRequest.t;
  requestApprovals : list RequestApproval.t;
  attendances : list Attendance.t;
  notifications : list Notification.t
}.

(* ------------------------------------------------------------------ *)
(** ** The world a handler runs in *)

(** A call of [fetch]. *)
Record FetchReq : Type := {
  url : string;
  method : string;                     (* "GET" when no method is given *)
  authorization : string;
  payload : option string
}.

(** What [fetch] followed by [response.json()] can do. *)
Inductive FetchResult : Type :=
| TransportFailure                     (* fetch rejects *)
| Responded (ok : bool) (statusLine : string) (parsed : option json).

(** The connector object: [new ZenHRAPI()]. *)
Record ZenHRAPI : Type := {
  baseURL : string;
  apiKey : string
}.

(** Everything outside the program.  The oracles are indexed by how many
    times they were consulted, so that two readings of the clock or two calls
    to the provider may differ. *)
Record Env : Type := {
  zenhrAPI : ZenHRAPI;
  network : nat -> FetchReq -> FetchResult;
  clock : nat -> Z;                    (* milliseconds since the epoch *)
  cuid : nat -> string                 (* primary keys drawn by the client *)
}.

Record World : Type := {
  db : DB;
  sent : list FetchReq;                (* network calls made, oldest first *)
  ticks : nat;                         (* clock readings so far *)
  minted : nat                         (* primary keys drawn so far *)
}.

(** Exceptions that reach a handler's [catch]. *)
Inductive Exn : Type :=
| TypeError                            (* method call on a non-string, ... *)
| SyntaxError                          (* response.json() on a malformed body *)
| FetchFailed                          (* fetch rejected *)
| Error (msg : string)                 (* throw new Error(msg) *)
| PrismaValidationError                (* argument of the wrong type *)
| UniqueConstraintViolation            (* P2002 *)
| ForeignKeyViolation                  (* P2003 *)
| RecordNotFound.                      (* P2025 *)

Inductive Outcome (A : Type) : Type :=
| Threw (e : Exn)
| Returned (a : A).
Arguments Threw {A} e.
Arguments Returned {A} a.

Definition M (A : Type) : Type := World -> Outcome A * World.

Definition ret {A} (a : A) : M A := fun w => (Returned a, w).

Definition throw {A} (e : Exn) : M A := fun w => (Threw e, w).

Definition bind {A B} (m : M A) (k : A -> M B) : M B :=
  fun w =>
    match m w with
    | (Returned a, w') => k a w'
    | (Threw e, w') => (Threw e, w')
    end.

Notation "x <- m ;; k" := (bind m (fun x => k))
  (at level 61, m at next level, right associativity).
Notation "m ;;; k" := (bind m (fun _ => k))
  (at level 61, right associativity).

(** [try { m } catch (error) { h error }] *)
Definition try_catch {A} (m : M A) (h : Exn -> M A) : M A :=
  fun w =>
    match m w with
    | (Returned a, w') => (Returned a, w')
    | (Threw e, w') => h e w'
    end.

Definition getDB : M DB := fun w => (Returned (db w), w).

Definition putDB (d : DB) : M unit :=
  fun w => (Returned tt,
            {| db := d; sent := sent w; ticks := ticks w; minted := minted w |}).

(** [Date.now()] and [new Date()]: one reading of the clock. *)
Definition now (env : Env) : M Z :=
  fun w => (Returned (clock env (ticks w)),
            {| db := db w; sent := sent w; ticks := S (ticks w);
               minted := minted w |}).

(** A primary key drawn for a new row. *)
Definition freshId (env : Env) : M string :=
  fun w => (Returned (cuid env (minted w)),
            {| db := db w; sent := sent w; ticks := ticks w;
               minted := S (minted w) |}).

(** [fetch(url, ...)] then the [ok] test and [response.json()]. *)
Definition fetch (env : Env) (req : FetchReq) : M json :=
  fun w =>
    let w' := {| db := db w; sent := (sent w ++ [req])%list; ticks := ticks w;
                 minted := minted w |} in
    match network env (List.length (sent w)) req with
    | TransportFailure => (Threw FetchFailed, w')
    | Responded false line _ => (Threw (Error ("ZenHR API Error: " ++ line)), w')
    | Responded true _ None => (Threw SyntaxError, w')
    | Responded true _ (Some v) => (Returned v, w')
    end.

(* ------------------------------------------------------------------ *)
(** ** src/lib/zenhr.ts *)

Module ZenHR.
Section Connector.
Context (rt : Runtime) (env : Env).

Definition this : ZenHRAPI := zenhrAPI env.

(** [!this.apiKey] *)
Definition noApiKey : bool := String.eqb (apiKey this) "".

(** The inner [catch] logs and rethrows the error it caught. *)
Definition makeRequest (endpoint meth : string) (body : option string)
  : M json :=
  try_catch
    (fetch env {| url := baseURL this ++ endpoint;
                  method := meth;
                  authorization := "Bearer " ++ apiKey this;
                  payload := body |})
    (fun error => throw error).

(** *** Mock implementations for development/testing *)

Definition mockEmployeeData (employeeId : string) : json :=
  JObj [("id", JStr employeeId);
        ("name", JStr ("Employee " ++ employeeId));
        ("email", JStr ("employee" ++ employeeId ++ "@company.com"));
        ("department", JStr "Engineering");
        ("position", JStr "Software Developer");
        ("hireDate", JStr "2023-01-15");
        ("status", JStr "active")].

Definition mockEmployeesList : json :=
  JArr [JObj [("id", JStr "1");
              ("name", JStr "John Doe");
              ("email", JStr "john.doe@company.com");
              ("department", JStr "Engineering");
              ("position", JStr "Senior Developer");
              ("hireDate", JStr "2022-03-15");
              ("status", JStr "active")];
        JObj [("id", JStr "2");
              ("name", JStr "Jane Smith");
              ("email", JStr "jane.smith@company.com");
              ("department", JStr "HR");
              ("position", JStr "HR Manager");
              ("hireDate", JStr "2021-08-20");
              ("status", JStr "active")]].

Definition mockAttendanceResponse (attendanceData : json) : M json :=
  millis <- now env ;;
  date <- now env ;;
  ret (JObj [("success", JBool true);
             ("message", JStr "Attendance marked successfully");
             ("data", JObj (obj_set "timestamp" (JStr (toISOString rt date))
                           (obj_set "id" (JStr ("att_" ++ decimal millis))
                           (spread attendanceData))))]).

Definition mockHRRequestResponse (requestData : json) : M json :=
  millis <- now env ;;
  date <- now env ;;
  ret (JObj [("success", JBool true);
             ("message", JStr "HR request submitted successfully");
             ("data", JObj (obj_set "createdAt" (JStr (toISOString rt date))
                           (obj_set "status" (JStr "pending")
                           (obj_set "id" (JStr ("req_" ++ decimal millis))
                           (spread requestData)))))]).

Definition mockHRRequestsList (employeeId : option string) : json :=
  let who := match employeeId with
             | Some e => if String.eqb e "" then "1" else e
             | None => "1"
             end in
  JArr [JObj [("id", JStr "req_1");
              ("employeeId", JStr who);
              ("type", JStr "leave");
              ("title", JStr "Annual Leave Request");
              ("description", JStr "Requesting 5 days annual leave");
              ("startDate", JStr "2024-02-15");
              ("endDate", JStr "2024-02-19");
              ("status", JStr "pending")];
        JObj [("id", JStr "req_2");
              ("employeeId", JStr who);
              ("type", JStr "document_request");
              ("title", JStr "Salary Certificate");
              ("description", JStr "Need salary certificate for bank loan");
              ("status", JStr "approved")]].

Definition mockUpdateHRRequestResponse (requestId status : string) : M json :=
  date <- now env ;;
  ret (JObj [("success", JBool true);
             ("message", JStr "HR request status updated successfully");
             ("data", JObj [("id", JStr requestId);
                            ("status", JStr status);
                            ("updatedAt", JStr (toISOString rt date))])]).

(** *** Public operations *)

Definition fetchEmployeeData (employeeId : string) : M json :=
  try_catch
    (if noApiKey then ret (mockEmployeeData employeeId)
     else makeRequest ("/employees/" ++ employeeId) "GET" None)
    (fun _ => throw (Error "Unable to fetch employee data from ZenHR")).

Definition fetchAllEmployees (companyId : option string) : M json :=
  try_catch
    (if noApiKey then ret mockEmployeesList
     else
       let endpoint :=
         match companyId with
         | Some c => if String.eqb c "" then "/employees"
                     else "/companies/" ++ c ++ "/employees"
         | None => "/employees"
         end in
       makeRequest endpoint "GET" None)
    (fun _ => throw (Error "Unable to fetch employees from ZenHR")).

Definition markAttendance (attendanceData : json) : M json :=
  try_catch
    (if noApiKey then mockAttendanceResponse attendanceData
     else makeRequest "/attendance" "POST"
                      (Some (stringify rt attendanceData)))
    (fun _ => throw (Error "Unable to mark attendance in ZenHR")).

Definition submitHRRequest (requestData : json) : M json :=
  try_catch
    (if noApiKey then mockHRRequestResponse requestData
     else makeRequest "/hr-requests" "POST"
                      (Some (stringify rt requestData)))
    (fun _ => throw (Error "Unable to submit HR request to ZenHR")).

Definition fetchHRRequests (employeeId : option string) : M json :=
  try_catch
    (if noApiKey then ret (mockHRRequestsList employeeId)
     else
       let endpoint :=
         match employeeId with
         | Some e => if String.eqb e "" then "/hr-requests"
                     else "/hr-requests?employee=" ++ e
         | None => "/hr-requests"
         end in
       makeRequest endpoint "GET" None)
    (fun _ => throw (Error "Unable to fetch HR requests from ZenHR")).

Definition updateHRRequestStatus (requestId status : string)
           (comments : json) : M json :=
  try_catch
    (if noApiKey then mockUpdateHRRequestResponse requestId status
     else makeRequest ("/hr-requests/" ++ requestId) "PATCH"
            (Some (stringify rt (JObj [("status", JStr status);
                                       ("comments", comments)]))))
    (fun _ => throw (Error "Unable to update HR request status in ZenHR")).

End Connector.
End ZenHR.

(* ------------------------------------------------------------------ *)
(** ** The database client *)

(** The calls of [prisma.<model>.<operation>] that the handlers make, over
    the tables above.  Constraints are those of the migration: foreign keys
    on every reference and the unique index
    [Attendance_employeeId_date_key].  Primary keys and [createdAt] are
    supplied by the client when a row is created. *)
Module Prisma.

(** A [where] entry on a nullable column: [undefined] does not filter,
    [null] selects the rows without a value. *)
Inductive Filter (A : Type) : Type :=
| Unfiltered
| IsNull
| Equals (a : A).
Arguments Unfiltered {A}.
Arguments IsNull {A}.
Arguments Equals {A} a.

(** Entries of the [where] argument of [hRRequest.findMany]. *)
Inductive Cond : Type :=
| EmployeeId (v : string)
| ManagerId (v : string)
| CompanyId (v : string)
| Status (v : string)
| Type_ (v : string)
| OR (alternatives : list Cond).

Fixpoint holds (c : Cond) (r : HRRequest.t) : bool :=
  match c with
  | EmployeeId v => String.eqb (HRRequest.employeeId r) v
  | ManagerId v =>
      match HRRequest.managerId r with
      | Some m => String.eqb m v
      | None => false
      end
  | CompanyId v => String.eqb (HRRequest.companyId r) v
  | Status v => String.eqb (HRRequest.status r) v
  | Type_ v => String.eqb (HRRequest.type r) v
  | OR alternatives => existsb (fun a => holds a r) alternatives
  end.

(** The entries of a [where] object are taken together. *)
Definition matches (where_ : list Cond) (r : HRRequest.t) : bool :=
  forallb (fun c => holds c r) where_.

(** A request with the relations an [include] asks for; a relation that
    is not asked for is left empty. *)
Record HRRequestView : Type := {
  row : HRRequest.t;
  employee : option User.t;
  manager : option User.t;
  approvals : list (RequestApproval.t * option User.t)
}.

Record HRRequestCreateInput : Type := {
  c_type : string;
  c_title : string;
  c_description : option string;
  c_priority : string;
  c_startDate : option Z;
  c_endDate : option Z;
  c_documents : option string;
  c_employeeId : string;
  c_managerId : option string;
  c_companyId : string
}.

Record RequestApprovalCreateInput : Type := {
  a_requestId : string;
  a_approverId : string;
  a_status : string;
  a_comments : option string
}.

Record NotificationCreateInput : Type := {
  n_title : string;
  n_message : string;
  n_type : string;
  n_userId : string
}.

Record AttendanceCreateInput : Type := {
  t_employeeId : string;
  t_date : Z;
  t_checkIn : option Z;
  t_checkOut : option Z;
  t_status : string;
  t_notes : option string;
  t_location : option string
}.

Definition hasUser (d : DB) (i : string) : bool :=
  existsb (fun u => String.eqb (User.id u) i) (users d).

Definition hasCompany (d : DB) (i : string) : bool :=
  existsb (fun c => String.eqb (Company.id c) i) (companies d).

Definition hasRequest (d : DB) (i : string) : bool :=
  existsb (fun r => String.eqb (HRRequest.id r) i) (hRRequests d).

Definition findUser (d : DB) (i : string) : option User.t :=
  find (fun u => String.eqb (User.id u) i) (users d).

(** The key of [Attendance_employeeId_date_key]. *)
Definition sameDay (employeeId : string) (date : Z) (a : Attendance.t) : bool :=
  String.eqb (Attendance.employeeId a) employeeId
  && Z.eqb (Attendance.date a) date.

Definition set_hRRequests (d : DB) (l : list HRRequest.t) : DB :=
  {| users := users d; companies := companies d; hRRequests := l;
     requestApprovals := requestApprovals d; attendances := attendances d;
     notifications := notifications d |}.

Definition set_requestApprovals (d : DB) (l : list RequestApproval.t) : DB :=
  {| users := users d; companies := companies d; hRRequests := hRRequests d;
     requestApprovals := l; attendances := attendances d;
     notifications := notifications d |}.

Definition set_attendances (d : DB) (l : list Attendance.t) : DB :=
  {| users := users d; companies := companies d; hRRequests := hRRequests d;
     requestApprovals := requestApprovals d; attendances := l;
     notifications := notifications d |}.

Definition set_notifications (d : DB) (l : list Notification.t) : DB :=
  {| users := users d; companies := companies d; hRRequests := hRRequests d;
     requestApprovals := requestApprovals d; attendances := attendances d;
     notifications := l |}.

(** [orderBy: { createdAt: 'desc' }] *)
Fixpoint insert_desc (r : HRRequest.t) (l : list HRRequest.t)
  : list HRRequest.t :=
  match l with
  | [] => [r]
  | x :: rest =>
      if Z.leb (HRRequest.createdAt x) (HRRequest.createdAt r)
      then r :: l
      else x :: insert_desc r rest
  end.

Definition orderBy_createdAt_desc (l : list HRRequest.t) : list HRRequest.t :=
  fold_right insert_desc [] l.

(** Argument validation of the client. *)
Definition requiredString (v : json) : M string :=
  match v with
  | JStr s => ret s
  | _ => throw PrismaValidationError
  end.

Definition optionalString (v : json) : M (option string) :=
  match v with
  | JUndefined | JNull => ret None
  | JStr s => ret (Some s)
  | _ => throw PrismaValidationError
  end.

(** A [Date] argument must not be Invalid Date. *)
Definition validDate (d : option Z) : M Z :=
  match d with
  | Some t => ret t
  | None => throw PrismaValidationError
  end.

Definition optionalDate (d : option (option Z)) : M (option Z) :=
  match d with
  | None => ret None
  | Some x => t <- validDate x ;; ret (Some t)
  end.

Section Client.
Context (env : Env).

Definition user_findUnique (i : string) : M (option User.t) :=
  d <- getDB ;;
  ret (findUser d i).

(** [user.findFirst({ where: { companyId, role } })] *)
Definition user_findFirst (companyId : Filter string) (role : string)
  : M (option User.t) :=
  d <- getDB ;;
  ret (find (fun u =>
               match companyId with
               | Unfiltered => true
               | IsNull => match User.companyId u with
                           | None => true
                           | Some _ => false
                           end
               | Equals c => match User.companyId u with
                             | Some c' => String.eqb c' c
                             | None => false
                             end
               end && String.eqb (User.role u) role)
            (users d)).

Definition hRRequest_create (data : HRRequestCreateInput) : M HRRequest.t :=
  i <- freshId env ;;
  t <- now env ;;
  d <- getDB ;;
  if hasUser d (c_employeeId data)
     && match c_managerId data with
        | Some m => hasUser d m
        | None => true
        end
     && hasCompany d (c_companyId data)
  then
    let r := {| HRRequest.id := i;
                HRRequest.type := c_type data;
                HRRequest.title := c_title data;
                HRRequest.description := c_description data;
                HRRequest.status := "PENDING";
                HRRequest.priority := c_priority data;
                HRRequest.startDate := c_startDate data;
                HRRequest.endDate := c_endDate data;
                HRRequest.documents := c_documents data;
                HRRequest.comments := None;
                HRRequest.createdAt := t;
                HRRequest.employeeId := c_employeeId data;
                HRRequest.managerId := c_managerId data;
                HRRequest.companyId := c_companyId data |} in
    putDB (set_hRRequests d (hRRequests d ++ [r])%list) ;;;
    ret r
  else throw ForeignKeyViolation.

(** The row after [data: { status, comments }]; a [comments] that is
    [undefined] leaves the column as it is. *)
Definition patched (status : string) (comments : option (option string))
           (r : HRRequest.t) : HRRequest.t :=
  {| HRRequest.id := HRRequest.id r;
     HRRequest.type := HRRequest.type r;
     HRRequest.title := HRRequest.title r;
     HRRequest.description := HRRequest.description r;
     HRRequest.status := status;
     HRRequest.priority := HRRequest.priority r;
     HRRequest.startDate := HRRequest.startDate r;
     HRRequest.endDate := HRRequest.endDate r;
     HRRequest.documents := HRRequest.documents r;
     HRRequest.comments := match comments with
                           | Some c => c
                           | None => HRRequest.comments r
                           end;
     HRRequest.createdAt := HRRequest.createdAt r;
     HRRequest.employeeId := HRRequest.employeeId r;
     HRRequest.managerId := HRRequest.managerId r;
     HRRequest.companyId := HRRequest.companyId r |}.

(** [hRRequest.update({ where: { id }, data: { status, comments } })] *)
Definition hRRequest_update (i : string) (status : string)
           (comments : option (option string)) : M HRRequest.t :=
  d <- getDB ;;
  match find (fun r => String.eqb (HRRequest.id r) i) (hRRequests d) with
  | None => throw RecordNotFound
  | Some r =>
      putDB (set_hRRequests d
               (map (fun x => if String.eqb (HRRequest.id x) i
                              then patched status comments x else x)
                    (hRRequests d))) ;;;
      ret (patched status comments r)
  end.

Definition hRRequest_findMany (where_ : list Cond) : M (list HRRequest.t) :=
  d <- getDB ;;
  ret (orderBy_createdAt_desc (filter (matches where_) (hRRequests d))).

Definition requestApproval_create (data : RequestApprovalCreateInput)
  : M RequestApproval.t :=
  i <- freshId env ;;
  t <- now env ;;
  d <- getDB ;;
  if hasRequest d (a_requestId data) && hasUser d (a_approverId data)
  then
    let a := {| RequestApproval.id := i;
                RequestApproval.status := a_status data;
                RequestApproval.comments := a_comments data;
                RequestApproval.createdAt := t;
                RequestApproval.requestId := a_requestId data;
                RequestApproval.approverId := a_approverId data |} in
    putDB (set_requestApprovals d (requestApprovals d ++ [a])%list) ;;;
    ret a
  else throw ForeignKeyViolation.

Definition notification_create (data : NotificationCreateInput)
  : M Notification.t :=
  i <- freshId env ;;
  t <- now env ;;
  d <- getDB ;;
  if hasUser d (n_userId data)
  then
    let n := {| Notification.id := i;
                Notification.title := n_title data;
                Notification.message := n_message data;
                Notification.type := n_type data;
                Notification.isRead := false;
                Notification.createdAt := t;
                Notification.userId := n_userId data |} in
    putDB (set_notifications d (notifications d ++ [n])%list) ;;;
    ret n
  else throw ForeignKeyViolation.

Definition attendance_create (data : AttendanceCreateInput)
  : M Attendance.t :=
  i <- freshId env ;;
  t <- now env ;;
  d <- getDB ;;
  if existsb (sameDay (t_employeeId data) (t_date data)) (attendances d)
  then throw UniqueConstraintViolation
  else if hasUser d (t_employeeId data)
  then
    let a := {| Attendance.id := i;
                Attendance.date := t_date data;
                Attendance.checkIn := t_checkIn data;
                Attendance.checkOut := t_checkOut data;
                Attendance.status := t_status data;
                Attendance.notes := t_notes data;
                Attendance.location := t_location data;
                Attendance.createdAt := t;
                Attendance.employeeId := t_employeeId data |} in
    putDB (set_attendances d (attendances d ++ [a])%list) ;;;
    ret a
  else throw ForeignKeyViolation.

End Client.

(** [orderBy: { date: 'desc' }] *)
Fixpoint insert_date_desc (a : Attendance.t) (l : list Attendance.t)
  : list Attendance.t :=
  match l with
  | [] => [a]
  | x :: rest =>
      if Z.leb (Attendance.date x) (Attendance.date a)
      then a :: l
      else x :: insert_date_desc a rest
  end.

Definition orderBy_date_desc (l : list Attendance.t) : list Attendance.t :=
  fold_right insert_date_desc [] l.

(** [where: { employeeId, date: { gte, lte } }]; without a [date] entry
    every date passes. *)
Definition attendance_matches (employeeId : string) (range : option (Z * Z))
           (a : Attendance.t) : bool :=
  String.eqb (Attendance.employeeId a) employeeId
  && match range with
     | Some (gte, lte) => Z.leb gte (Attendance.date a)
                          && Z.leb (Attendance.date a) lte
     | None => true
     end.

Definition attendance_findMany (employeeId : string) (range : option (Z * Z))
  : M (list Attendance.t) :=
  d <- getDB ;;
  ret (orderBy_date_desc
         (filter (attendance_matches employeeId range) (attendances d))).

(** An attendance record with its [employee] relation. *)
Record AttendanceView : Type := {
  record : Attendance.t;
  record_employee : option User.t
}.

End Prisma.

(* ------------------------------------------------------------------ *)
(** ** Sessions and responses *)

(** [session.user], as the session callback of the auth route fills it. *)
Module SessionUser.
Record t : Type := {
  id : string;
  name : json;                       (* a string, null or undefined *)
  role : string;
  companyId : string;
  employeeId : string
}.
End SessionUser.

(** What [authorize] returns for a stored user and the [jwt] and [session]
    callbacks copy into the session: [user.companyId || ''] and
    [user.employeeId || '']. *)
Definition principal_of (u : User.t) : SessionUser.t :=
  {| SessionUser.id := User.id u;
     SessionUser.name := match User.name u with
                         | Some n => JStr n
                         | None => JNull
                         end;
     SessionUser.role := User.role u;
     SessionUser.companyId := match User.companyId u with
                              | Some c => c
                              | None => ""
                              end;
     SessionUser.employeeId := match User.employeeId u with
                               | Some e => e
                               | None => ""
                               end |}.

(** [NextResponse.json(payload, { status })] *)
Inductive Payload (A : Type) : Type :=
| Failure (error : string)
| Success (message : option string) (data : A).
Arguments Failure {A} error.
Arguments Success {A} message data.

Record Response (A : Type) : Type := {
  status : nat;
  payload_of : Payload A
}.

Definition respond {A} (code : nat) (p : Payload A) : M (Response A) :=
  ret {| status := code; payload_of := p |}.

(** [const { k, ... } = body]: reading a property of [null] or [undefined]
    throws, any other value has the fields it has. *)
Definition fields_of (body : json) : string -> json :=
  fun k => lookup k (spread body).

Definition destructure (body : json) : M (string -> json) :=
  match body with
  | JUndefined | JNull => throw TypeError
  | _ => ret (fields_of body)
  end.

(** [v.toUpperCase()] and [v.toLowerCase()] exist on strings only: calling
    them on any other value of the body throws.  Yields the receiver. *)
Definition string_receiver (v : json) : M string :=
  match v with
  | JStr s => ret s
  | _ => throw TypeError
  end.

(** [v ? new Date(v) : null] *)
Definition date_or_null (rt : Runtime) (v : json) : option (option Z) :=
  if truthy v then Some (newDate rt v) else None.

(** Truthiness of a query parameter, [null] when absent. *)
Definition given (p : option string) : option string :=
  match p with
  | Some s => if String.eqb s "" then None else Some s
  | None => None
  end.

(* ------------------------------------------------------------------ *)
(** ** src/app/api/hr-request/route.ts *)

Module HRRequestRoute.
Import Prisma.
Section Handlers.
Context (rt : Runtime) (env : Env).

(** The argument of [zenhrAPI.submitHRRequest] in [POST]. *)
Definition requestData (user : SessionUser.t) (f : string -> json) : json :=
  JObj [("employeeId", JStr (SessionUser.employeeId user));
        ("type", f "type");
        ("title", f "title");
        ("description", f "description");
        ("startDate", f "startDate");
        ("endDate", f "endDate")].

(** [priority = 'MEDIUM'] in the destructuring pattern. *)
Definition priority_of (f : string -> json) : json :=
  match f "priority" with
  | JUndefined => JStr "MEDIUM"
  | v => v
  end.

(** [employee?.companyId] as a [where] entry. *)
Definition company_filter (employee : option User.t) : Filter string :=
  match employee with
  | None => Unfiltered
  | Some e => match User.companyId e with
              | None => IsNull
              | Some c => Equals c
              end
  end.

Definition POST_try (session : option SessionUser.t) (body : json)
  : M (Response (HRRequestView * json)) :=
  match session with
  | None => respond 401 (Failure "Unauthorized")
  | Some user =>
      f <- destructure body ;;
      if negb (truthy (f "type")) || negb (truthy (f "title"))
         || negb (truthy (f "description"))
      then respond 400 (Failure "Type, title, and description are required")
      else
        (* Submit request to ZenHR *)
        zenhrResponse <- ZenHR.submitHRRequest rt env (requestData user f) ;;
        (* Find manager for approval workflow *)
        employee <- user_findUnique (SessionUser.id user) ;;
        manager <- user_findFirst (company_filter employee) "MANAGER" ;;
        (* Create HR request in local database *)
        type_ <- string_receiver (f "type") ;;
        title <- requiredString (f "title") ;;
        description <- optionalString (f "description") ;;
        priority <- requiredString (priority_of f) ;;
        startDate <- optionalDate (date_or_null rt (f "startDate")) ;;
        endDate <- optionalDate (date_or_null rt (f "endDate")) ;;
        hrRequest <- hRRequest_create env
          {| c_type := toUpperCase rt type_;
             c_title := title;
             c_description := description;
             c_priority := priority;
             c_startDate := startDate;
             c_endDate := endDate;
             c_documents := if truthy (f "documents")
                            then Some (stringify rt (f "documents"))
                            else None;
             c_employeeId := SessionUser.id user;
             c_managerId := option_map User.id manager;
             c_companyId := SessionUser.companyId user |} ;;
        d <- getDB ;;
        let view := {| row := hrRequest;
                       employee := findUser d (HRRequest.employeeId hrRequest);
                       manager := match HRRequest.managerId hrRequest with
                                  | Some m => findUser d m
                                  | None => None
                                  end;
                       approvals := [] |} in
        (* Create notification for manager *)
        match manager with
        | Some m =>
            notification_create env
              {| n_title := "New HR Request";
                 n_message := template rt (SessionUser.name user)
                              ++ " has submitted a " ++ template rt (f "type")
                              ++ " request: " ++ template rt (f "title");
                 n_type := "HR_REQUEST";
                 n_userId := User.id m |} ;;;
            ret tt
        | None => ret tt
        end ;;;
        respond 200 (Success (Some "HR request submitted successfully")
                             (view, zenhrResponse))
  end.

Definition POST (session : option SessionUser.t) (body : json)
  : M (Response (HRRequestView * json)) :=
  try_catch (POST_try session body)
            (fun _ => respond 500 (Failure "Failed to submit HR request")).

(** Role-based filtering, then the additional filters. *)
Definition whereClause (user : SessionUser.t)
           (status type_ employeeId : option string) : list Cond :=
  (if String.eqb (SessionUser.role user) "EMPLOYEE"
   then [EmployeeId (SessionUser.id user)]
   else if String.eqb (SessionUser.role user) "MANAGER"
   then match given employeeId with
        | Some e => [EmployeeId e]
        | None => [OR [EmployeeId (SessionUser.id user);
                       ManagerId (SessionUser.id user)]]
        end
   else if String.eqb (SessionUser.role user) "ADMIN"
   then CompanyId (SessionUser.companyId user)
        :: match given employeeId with
           | Some e => [EmployeeId e]
           | None => []
           end
   else [])
  ++ match given status with
     | Some s => [Status (toUpperCase rt s)]
     | None => []
     end
  ++ match given type_ with
     | Some t => [Type_ (toUpperCase rt t)]
     | None => []
     end.

Definition with_relations (d : DB) (r : HRRequest.t) : HRRequestView :=
  {| row := r;
     employee := findUser d (HRRequest.employeeId r);
     manager := match HRRequest.managerId r with
                | Some m => findUser d m
                | None => None
                end;
     approvals :=
       map (fun a => (a, findUser d (RequestApproval.approverId a)))
           (filter (fun a => String.eqb (RequestApproval.requestId a)
                                        (HRRequest.id r))
                   (requestApprovals d)) |}.

Definition GET_try (session : option SessionUser.t)
           (status type_ employeeId : option string)
  : M (Response (list HRRequestView)) :=
  match session with
  | None => respond 401 (Failure "Unauthorized")
  | Some user =>
      hrRequests <- hRRequest_findMany
                      (whereClause user status type_ employeeId) ;;
      d <- getDB ;;
      respond 200 (Success None (map (with_relations d) hrRequests))
  end.

Definition GET (session : option SessionUser.t)
           (status type_ employeeId : option string)
  : M (Response (list HRRequestView)) :=
  try_catch (GET_try session status type_ employeeId)
            (fun _ => respond 500 (Failure "Failed to fetch HR requests")).

(** [!session?.user || (role !== 'MANAGER' && role !== 'ADMIN')] *)
Definition may_update (session : option SessionUser.t) : bool :=
  match session with
  | None => false
  | Some user => String.eqb (SessionUser.role user) "MANAGER"
                 || String.eqb (SessionUser.role user) "ADMIN"
  end.

(** [comments] as the [data] of an update takes it. *)
Definition comments_update (v : json) : M (option (option string)) :=
  match v with
  | JUndefined => ret None
  | JNull => ret (Some None)
  | JStr s => ret (Some (Some s))
  | _ => throw PrismaValidationError
  end.

Definition PATCH_try (session : option SessionUser.t) (body : json)
  : M (Response HRRequestView) :=
  match session with
  | None => respond 401 (Failure "Unauthorized")
  | Some user =>
      if negb (may_update session)
      then respond 401 (Failure "Unauthorized")
      else
        f <- destructure body ;;
        if negb (truthy (f "requestId")) || negb (truthy (f "status"))
        then respond 400 (Failure "Request ID and status are required")
        else
          (* Update request status *)
          status_ <- string_receiver (f "status") ;;
          requestId <- requiredString (f "requestId") ;;
          comments <- comments_update (f "comments") ;;
          updatedRequest <- hRRequest_update requestId (toUpperCase rt status_)
                                             comments ;;
          d <- getDB ;;
          let view := {| row := updatedRequest;
                         employee :=
                           findUser d (HRRequest.employeeId updatedRequest);
                         manager := None;
                         approvals := [] |} in
          (* Create approval record *)
          comments' <- optionalString (f "comments") ;;
          requestApproval_create env
            {| a_requestId := requestId;
               a_approverId := SessionUser.id user;
               a_status := toUpperCase rt status_;
               a_comments := comments' |} ;;;
          (* Update status in ZenHR *)
          ZenHR.updateHRRequestStatus rt env requestId status_
                                      (f "comments") ;;;
          (* Create notification for employee *)
          notification_create env
            {| n_title := "HR Request Update";
               n_message := "Your " ++ HRRequest.type updatedRequest
                            ++ " request has been "
                            ++ toLowerCase rt status_;
               n_type := "HR_REQUEST";
               n_userId := HRRequest.employeeId updatedRequest |} ;;;
          respond 200 (Success (Some "HR request status updated successfully")
                               view)
  end.

Definition PATCH (session : option SessionUser.t) (body : json)
  : M (Response HRRequestView) :=
  try_catch (PATCH_try session body)
            (fun _ => respond 500 (Failure "Failed to update HR request")).

End Handlers.
End HRRequestRoute.

(* ------------------------------------------------------------------ *)
(** ** src/app/api/attendance/route.ts *)

Module AttendanceRoute.
Import Prisma.
Section Handlers.
Context (rt : Runtime) (env : Env).

(** The argument of [zenhrAPI.markAttendance] in [POST]. *)
Definition attendanceData (user : SessionUser.t) (f : string -> json) : json :=
  JObj [("employeeId", JStr (SessionUser.employeeId user));
        ("date", f "date");
        ("checkIn", f "checkIn");
        ("checkOut", f "checkOut");
        ("status", js_or (f "status") (JStr "present"))].

(** [new Date(`${date}T${time}`)] *)
Definition at_time (date time : json) : option Z :=
  newDate rt (JStr (template rt date ++ "T" ++ template rt time)).

(** The [data] of [prisma.attendance.create]: the object literal is
    evaluated, then the client checks its arguments. *)
Definition create_data (user : SessionUser.t) (f : string -> json)
  : M AttendanceCreateInput :=
  checkIn <- (if truthy (f "checkIn")
              then ret (at_time (f "date") (f "checkIn"))
              else t <- now env ;; ret (Some t)) ;;
  let checkOut := if truthy (f "checkOut")
                  then Some (at_time (f "date") (f "checkOut"))
                  else None in
  date <- validDate (newDate rt (f "date")) ;;
  checkIn' <- validDate checkIn ;;
  checkOut' <- optionalDate checkOut ;;
  status_ <- requiredString (js_or (f "status") (JStr "PRESENT")) ;;
  notes <- optionalString (f "notes") ;;
  location <- optionalString (f "location") ;;
  ret {| t_employeeId := SessionUser.id user;
         t_date := date;
         t_checkIn := Some checkIn';
         t_checkOut := checkOut';
         t_status := status_;
         t_notes := notes;
         t_location := location |}.

Definition POST_try (session : option SessionUser.t) (body : json)
  : M (Response (Attendance.t * json)) :=
  match session with
  | None => respond 401 (Failure "Unauthorized")
  | Some user =>
      f <- destructure body ;;
      if negb (truthy (f "date"))
      then respond 400 (Failure "Date is required")
      else
        (* Mark attendance in ZenHR *)
        zenhrResponse <- ZenHR.markAttendance rt env (attendanceData user f) ;;
        (* Save attendance record in local database *)
        data <- create_data user f ;;
        attendance <- attendance_create env data ;;
        respond 200 (Success (Some "Attendance marked successfully")
                             (attendance, zenhrResponse))
  end.

Definition POST (session : option SessionUser.t) (body : json)
  : M (Response (Attendance.t * json)) :=
  try_catch (POST_try session body)
            (fun _ => respond 500 (Failure "Failed to mark attendance")).

(** [employeeId && (role === 'MANAGER' || role === 'ADMIN')
      ? employeeId : session.user.id] *)
Definition targetEmployeeId (user : SessionUser.t) (employeeId : option string)
  : string :=
  match given employeeId with
  | Some e =>
      if String.eqb (SessionUser.role user) "MANAGER"
         || String.eqb (SessionUser.role user) "ADMIN"
      then e
      else SessionUser.id user
  | None => SessionUser.id user
  end.

(** [if (startDate && endDate) whereClause.date = { gte: new Date(startDate),
    lte: new Date(endDate) }]; the client refuses an Invalid Date. *)
Definition date_filter (startDate endDate : option string)
  : M (option (Z * Z)) :=
  match given startDate, given endDate with
  | Some s, Some e =>
      gte <- validDate (newDate rt (JStr s)) ;;
      lte <- validDate (newDate rt (JStr e)) ;;
      ret (Some (gte, lte))
  | _, _ => ret None
  end.

Definition GET_try (session : option SessionUser.t)
           (startDate endDate employeeId : option string)
  : M (Response (list AttendanceView)) :=
  match session with
  | None => respond 401 (Failure "Unauthorized")
  | Some user =>
      range <- date_filter startDate endDate ;;
      attendanceRecords <-
        attendance_findMany (targetEmployeeId user employeeId) range ;;
      d <- getDB ;;
      respond 200
        (Success None
           (map (fun a => {| record := a;
                             record_employee :=
                               findUser d (Attendance.employeeId a) |})
                attendanceRecords))
  end.

Definition GET (session : option SessionUser.t)
           (startDate endDate employeeId : option string)
  : M (Response (list AttendanceView)) :=
  try_catch (GET_try session startDate endDate employeeId)
            (fun _ => respond 500 (Failure "Failed to fetch attendance records")).

End Handlers.
End AttendanceRoute.

(* ------------------------------------------------------------------ *)
(** ** src/app/api/auth/[...nextauth]/route.ts *)

(** The credentials provider and the two callbacks.  The [password] column
    of User is not among the fields of [User.t]; it is read through
    [password].  [compare] is [bcrypt.compare]. *)
Module AuthRoute.

Record Credentials : Type := {
  cred_email : option string;
  cred_password : option string
}.

(** The object [authorize] returns. *)
Record AuthUser : Type := {
  id : string;
  email : string;
  name : option string;
  role : string;
  companyId : string;
  employeeId : string;
  department : string;
  position : string;
  company : string
}.

(** The fields of the JWT that the callbacks write or read. *)
Record Token : Type := {
  sub : option string;
  t_role : option string;
  t_companyId : option string;
  t_employeeId : option string;
  t_department : option string;
  t_position : option string;
  t_company : option string
}.

(** The fields the [session] callback assigns on [session.user]. *)
Record SessionFields : Type := {
  s_id : option string;
  s_role : option string;
  s_companyId : option string;
  s_employeeId : option string;
  s_department : option string;
  s_position : option string;
  s_company : option string
}.

(** [o || ''] *)
Definition or_empty (o : option string) : string :=
  match o with
  | Some s => s
  | None => ""
  end.

Section Handlers.
Context (password : User.t -> option string)
        (compare : string -> string -> bool).

(** [user.company?.name || ''] with [include: { company: true }]. *)
Definition company_name (d : DB) (u : User.t) : string :=
  match User.companyId u with
  | Some c =>
      match find (fun k => String.eqb (Company.id k) c) (companies d) with
      | Some k => Company.name k
      | None => ""
      end
  | None => ""
  end.

Definition authorize (credentials : option Credentials)
  : M (option AuthUser) :=
  match credentials with
  | None => ret None
  | Some c =>
      match given (cred_email c), given (cred_password c) with
      | Some mail, Some pass =>
          try_catch
            (d <- getDB ;;
             match find (fun u => String.eqb (User.email u) mail) (users d) with
             | None => ret None
             | Some user =>
                 match given (password user) with
                 | None => ret None
                 | Some hash =>
                     if compare pass hash
                     then ret (Some
                       {| id := User.id user;
                          email := User.email user;
                          name := User.name user;
                          role := User.role user;
                          companyId := or_empty (User.companyId user);
                          employeeId := or_empty (User.employeeId user);
                          department := or_empty (User.department user);
                          position := or_empty (User.position user);
                          company := company_name d user |})
                     else ret None
                 end
             end)
            (fun _ => ret None)
      | _, _ => ret None
      end
  end.

End Handlers.

(** [callbacks.jwt({ token, user })] *)
Definition jwt (token : Token) (user : option AuthUser) : Token :=
  match user with
  | Some u =>
      {| sub := sub token;
         t_role := Some (role u);
         t_companyId := Some (companyId u);
         t_employeeId := Some (employeeId u);
         t_department := Some (department u);
         t_position := Some (position u);
         t_company := Some (company u) |}
  | None => token
  end.

(** [callbacks.session({ session, token })] on a session that has a
    [user]. *)
Definition session (token : Token) : SessionFields :=
  {| s_id := sub token;
     s_role := t_role token;
     s_companyId := t_companyId token;
     s_employeeId := t_employeeId token;
     s_department := t_department token;
     s_position := t_position token;
     s_company := t_company token |}.

End AuthRoute.

(* ------------------------------------------------------------------ *)
(** ** A runtime, three environments and a small database for the examples *)

Module Samples.

Definition upper_char (c : ascii) : ascii :=
  let n := nat_of_ascii c in
  if Nat.leb 97 n && Nat.leb n 122 then ascii_of_nat (n - 32) else c.

Definition lower_char (c : ascii) : ascii :=
  let n := nat_of_ascii c in
  if Nat.leb 65 n && Nat.leb n 90 then ascii_of_nat (n + 32) else c.

Fixpoint map_chars (g : ascii -> ascii) (s : string) : string :=
  match s with
  | EmptyString => EmptyString
  | String c rest => String (g c) (map_chars g rest)
  end.

(** ASCII case mapping; the one date of the scenarios parses, a number is
    taken as a timestamp, anything else is Invalid Date. *)
Definition runtime : Runtime :=
  {| toUpperCase := map_chars upper_char;
     toLowerCase := map_chars lower_char;
     newDate := fun v =>
                  match v with
                  | JStr s => if String.eqb s "2024-02-15"
                              then Some 1707955200000%Z
                              else if String.eqb s "2024-02-15T09:00:00"
                              then Some 1707987600000%Z
                              else None
                  | JNum n => Some n
                  | _ => None
                  end;
     toISOString := fun t => "@" ++ decimal t;
     stringify := fun _ => "{}";
     objectToString := fun _ => "[object Object]" |}.

(** No credential configured. *)
Definition offline : Env :=
  {| zenhrAPI := {| baseURL := "https://api.zenhr.com/v1"; apiKey := "" |};
     network := fun _ _ => TransportFailure;
     clock := fun n => (1707990000000 + Z.of_nat n)%Z;
     cuid := fun n => "c" ++ decimal (Z.of_nat n) |}.

(** A credential is configured and the provider cannot be reached. *)
Definition unreachable : Env :=
  {| zenhrAPI := {| baseURL := "https://api.zenhr.com/v1";
                    apiKey := "secret" |};
     network := fun _ _ => TransportFailure;
     clock := fun n => (1707990000000 + Z.of_nat n)%Z;
     cuid := fun n => "c" ++ decimal (Z.of_nat n) |}.

(** A credential is configured; the provider answers the first call and
    is unreachable afterwards. *)
Definition flaky : Env :=
  {| zenhrAPI := {| baseURL := "https://api.zenhr.com/v1";
                    apiKey := "secret" |};
     network := fun n _ =>
                  match n with
                  | O => Responded true "200 OK" (Some (JObj []))
                  | S _ => TransportFailure
                  end;
     clock := fun n => (1707990000000 + Z.of_nat n)%Z;
     cuid := fun n => "c" ++ decimal (Z.of_nat n) |}.

Definition person (i role_ : string) (company : option string) : User.t :=
  {| User.id := i;
     User.name := Some i;
     User.email := i ++ "@company.com";
     User.role := role_;
     User.companyId := company;
     User.employeeId := Some ("emp-" ++ i);
     User.department := None;
     User.position := None |}.

Definition E : User.t := person "E" "EMPLOYEE" (Some "T").
Definition M1 : User.t := person "M" "MANAGER" (Some "T").
Definition M2 : User.t := person "N" "MANAGER" (Some "U").

(** E's leave request in tenant T, assigned to M. *)
Definition leave : HRRequest.t :=
  {| HRRequest.id := "r1";
     HRRequest.type := "LEAVE";
     HRRequest.title := "Annual Leave";
     HRRequest.description := Some "5 days";
     HRRequest.status := "PENDING";
     HRRequest.priority := "MEDIUM";
     HRRequest.startDate := None;
     HRRequest.endDate := None;
     HRRequest.documents := None;
     HRRequest.comments := None;
     HRRequest.createdAt := 1707980000000%Z;
     HRRequest.employeeId := "E";
     HRRequest.managerId := Some "M";
     HRRequest.companyId := "T" |}.

(** M's own request in tenant T, without an assigned manager. *)
Definition certificate : HRRequest.t :=
  {| HRRequest.id := "r2";
     HRRequest.type := "DOCUMENT_REQUEST";
     HRRequest.title := "Salary Certificate";
     HRRequest.description := None;
     HRRequest.status := "PENDING";
     HRRequest.priority := "LOW";
     HRRequest.startDate := None;
     HRRequest.endDate := None;
     HRRequest.documents := None;
     HRRequest.comments := None;
     HRRequest.createdAt := 1707985000000%Z;
     HRRequest.employeeId := "M";
     HRRequest.managerId := None;
     HRRequest.companyId := "T" |}.

Definition store : DB :=
  {| users := [E; M1; M2];
     companies := [{| Company.id := "T"; Company.name := "Tenant T" |};
                   {| Company.id := "U"; Company.name := "Tenant U" |}];
     hRRequests := [leave; certificate];
     requestApprovals := [];
     attendances := [];
     notifications := [] |}.

Definition start : World :=
  {| db := store; sent := []; ticks := 0; minted := 0 |}.

Definition submission : json :=
  JObj [("type", JStr "leave");
        ("title", JStr "Annual Leave");
        ("description", JStr "5 days")].

Definition untitled : json :=
  JObj [("type", JStr "leave");
        ("description", JStr "5 days")].

Definition approval : json :=
  JObj [("requestId", JStr "r1");
        ("status", JStr "approved");
        ("comments", JStr "ok")].

Definition mark : json :=
  JObj [("date", JStr "2024-02-15")].

(** A submission whose title is a number. *)
Definition numbered_title : json :=
  JObj [("type", JStr "leave");
        ("title", JNum 5);
        ("description", JStr "5 days")].

(** A status update that names no request, and one for a request that
    does not exist. *)
Definition approval_of_nothing : json :=
  JObj [("status", JStr "approved")].

Definition approval_of_r9 : json :=
  JObj [("requestId", JStr "r9");
        ("status", JStr "approved")].

(** The world after E marked attendance for 2024-02-15, offline. *)
Definition marked_once : World :=
  snd (AttendanceRoute.POST runtime offline (Some (principal_of E))
         mark start).

(** The same, with a credential and a provider that answers that call
    only. *)
Definition marked_once_flaky : World :=
  snd (AttendanceRoute.POST runtime flaky (Some (principal_of E))
         mark start).

(** The world after manager M approved E's request, offline. *)
Definition approved_by_M : World :=
  snd (HRRequestRoute.PATCH runtime offline (Some (principal_of M1))
         approval start).

(** Further principals: an administrator of tenant T and a principal whose
    role is none of the three the handlers know. *)
Definition admin_T : SessionUser.t :=
  {| SessionUser.id := "A";
     SessionUser.name := JStr "A";
     SessionUser.role := "ADMIN";
     SessionUser.companyId := "T";
     SessionUser.employeeId := "emp-A" |}.

Definition auditor : SessionUser.t :=
  {| SessionUser.id := "Q";
     SessionUser.name := JStr "Q";
     SessionUser.role := "AUDITOR";
     SessionUser.companyId := "T";
     SessionUser.employeeId := "emp-Q" |}.

(** N's request in tenant U. *)
Definition transfer : HRRequest.t :=
  {| HRRequest.id := "r3";
     HRRequest.type := "SPONSORSHIP_TRANSFER";
     HRRequest.title := "Transfer";
     HRRequest.description := None;
     HRRequest.status := "APPROVED";
     HRRequest.priority := "HIGH";
     HRRequest.startDate := None;
     HRRequest.endDate := None;
     HRRequest.documents := None;
     HRRequest.comments := None;
     HRRequest.createdAt := 1707982000000%Z;
     HRRequest.employeeId := "N";
     HRRequest.managerId := None;
     HRRequest.companyId := "U" |}.

Definition attended (i who : string) (day : Z) : Attendance.t :=
  {| Attendance.id := i;
     Attendance.date := day;
     Attendance.checkIn := Some day;
     Attendance.checkOut := None;
     Attendance.status := "PRESENT";
     Attendance.notes := None;
     Attendance.location := None;
     Attendance.createdAt := day;
     Attendance.employeeId := who |}.

(** Two tenants with requests, and attendance of E at three instants (the
    first two are the bounds of the range used below, the third is one
    millisecond late) and of M at one. *)
Definition two_tenants : World :=
  {| db := {| users := [E; M1; M2];
              companies := companies store;
              hRRequests := [leave; certificate; transfer];
              requestApprovals := [];
              attendances := [attended "a1" "E" 1707955200000;
                              attended "a2" "E" 1707987600000;
                              attended "a3" "M" 1707960000000;
                              attended "a4" "E" 1707987600001];
              notifications := [] |};
     sent := []; ticks := 0; minted := 0 |}.



(** The stored password hashes, and a comparison that accepts a password
    whose hash is the password between brackets. *)
Definition hashes (u : User.t) : option string :=
  if String.eqb (User.id u) "E" then Some "[secret]"
  else if String.eqb (User.id u) "M" then Some "[hunter2]"
  else None.

Definition bracketed (pass hash : string) : bool :=
  String.eqb ("[" ++ pass ++ "]") hash.

End Samples.

(* ------------------------------------------------------------------ *)
(** ** Reasoning about handlers *)

(** A computation that leaves the database as it found it. *)
Definition keeps_db {A} (m : M A) : Prop :=
  forall w, db (snd (m w)) = db w.

(** A computation that sends nothing to the provider. *)
Definition silent {A} (m : M A) : Prop :=
  forall w, sent (snd (m w)) = sent w.

(** A computation that leaves the HRRequest table as it found it. *)
Definition keeps_requests {A} (m : M A) : Prop :=
  forall w, hRRequests (db (snd (m w))) = hRRequests (db w).



(** A connector call that goes to the provider exactly once, with request
    [req]: the request is appended to those sent, nothing else in the world
    changes, and the call returns the provider's JSON when the response is
    ok and parses, and throws [Error failure] in every other case. *)
Definition calls_once (env : Env) (m : M json) (req : FetchReq)
           (failure : string) (w : World) : Prop :=
  snd (m w) = {| db := db w; sent := (sent w ++ [req])%list;
                 ticks := ticks w; minted := minted w |}
  /\ fst (m w)
     = match network env (List.length (sent w)) req with
       | Responded true _ (Some v) => Returned v
       | _ => Threw (Error failure)
       end.

(** The request [makeRequest] builds. *)
Definition request_to (env : Env) (endpoint meth : string)
           (body : option string) : FetchReq :=
  {| url := baseURL (zenhrAPI env) ++ endpoint;
     method := meth;
     authorization := "Bearer " ++ apiKey (zenhrAPI env);
     payload := body |}.

(** Everything of a request that a status update has no business with. *)
Definition fixed_part (r : HRRequest.t) :=
  (HRRequest.id r, HRRequest.employeeId r, HRRequest.managerId r,
   HRRequest.companyId r, HRRequest.type r, HRRequest.title r,
   HRRequest.description r, HRRequest.priority r, HRRequest.startDate r,
   HRRequest.endDate r, HRRequest.documents r, HRRequest.createdAt r).

(** [after] has the requests of [before], in the same order and with the
    same fixed part, and the same users, companies and attendance. *)
Definition same_requests (before after : DB) : Prop :=
  map fixed_part (hRRequests after) = map fixed_part (hRRequests before)
  /\ users after = users before
  /\ companies after = companies before
  /\ attendances after = attendances before.

Definition keeps_requests_fixed {A} (m : M A) : Prop :=
  forall w, same_requests (db w) (db (snd (m w))).

Create HintDb keeps.

Lemma bind_returned A B (m : M A) (k : A -> M B) w b w' :
  bind m k w = (Returned b, w') ->
  exists a w1, m w = (Returned a, w1) /\ k a w1 = (Returned b, w').
Proof.
  unfold bind. destruct (m w) as [[e | a] w1]; intros H.
  - discriminate.
  - exists a, w1. split; [reflexivity | exact H].
Qed.

Lemma bind_threw A B (m : M A) (k : A -> M B) w e w' :
  m w = (Threw e, w') -> bind m k w = (Threw e, w').
Proof. unfold bind. intros ->. reflexivity. Qed.

Lemma bind_ret A B (a : A) (k : A -> M B) w : bind (ret a) k w = k a w.
Proof. reflexivity. Qed.

Lemma bind_throw A B e (k : A -> M B) w : bind (throw e) k w = (Threw e, w).
Proof. reflexivity. Qed.

Lemma destructure_cases body :
  ((body = JUndefined \/ body = JNull)
   /\ destructure body = throw TypeError)
  \/ (body <> JUndefined /\ body <> JNull
      /\ destructure body = ret (fields_of body)).
Proof.
  destruct body; simpl; auto; right; repeat split; discriminate.
Qed.

Lemma bind_step A B (m : M A) (k : A -> M B) w a w1 :
  m w = (Returned a, w1) -> bind m k w = k a w1.
Proof. unfold bind. intros ->. reflexivity. Qed.

Lemma keeps_db_ret A (a : A) : keeps_db (ret a).
Proof. intros w. reflexivity. Qed.

Lemma keeps_db_throw A e : keeps_db (@throw A e).
Proof. intros w. reflexivity. Qed.

Lemma keeps_db_now env : keeps_db (now env).
Proof. intros w. reflexivity. Qed.

Lemma keeps_db_fetch env req : keeps_db (fetch env req).
Proof.
  intros w. unfold fetch.
  destruct (network env _ req) as [| [|] line [v|]]; reflexivity.
Qed.

Lemma keeps_db_bind A B (m : M A) (k : A -> M B) :
  keeps_db m -> (forall a, keeps_db (k a)) -> keeps_db (bind m k).
Proof.
  intros Hm Hk w. unfold bind. specialize (Hm w).
  destruct (m w) as [[e | a] w1]; simpl in *.
  - exact Hm.
  - rewrite Hk. exact Hm.
Qed.

Lemma keeps_db_try_catch A (m : M A) (h : Exn -> M A) :
  keeps_db m -> (forall e, keeps_db (h e)) -> keeps_db (try_catch m h).
Proof.
  intros Hm Hh w. unfold try_catch. specialize (Hm w).
  destruct (m w) as [[e | a] w1]; simpl in *.
  - rewrite Hh. exact Hm.
  - exact Hm.
Qed.

Lemma keeps_db_if A (b : bool) (m1 m2 : M A) :
  keeps_db m1 -> keeps_db m2 -> keeps_db (if b then m1 else m2).
Proof. destruct b; auto. Qed.

#[local] Hint Resolve keeps_db_ret keeps_db_throw keeps_db_now keeps_db_fetch
  keeps_db_bind keeps_db_try_catch keeps_db_if : keeps.

Lemma keeps_db_makeRequest env endpoint meth body :
  keeps_db (ZenHR.makeRequest env endpoint meth body).
Proof. unfold ZenHR.makeRequest. auto with keeps. Qed.

#[local] Hint Resolve keeps_db_makeRequest : keeps.

Lemma keeps_db_submitHRRequest rt env data :
  keeps_db (ZenHR.submitHRRequest rt env data).
Proof.
  unfold ZenHR.submitHRRequest, ZenHR.mockHRRequestResponse.
  auto 10 with keeps.
Qed.

Lemma keeps_db_markAttendance rt env data :
  keeps_db (ZenHR.markAttendance rt env data).
Proof.
  unfold ZenHR.markAttendance, ZenHR.mockAttendanceResponse.
  auto 10 with keeps.
Qed.

Lemma keeps_db_updateHRRequestStatus rt env i s c :
  keeps_db (ZenHR.updateHRRequestStatus rt env i s c).
Proof.
  unfold ZenHR.updateHRRequestStatus, ZenHR.mockUpdateHRRequestResponse.
  auto 10 with keeps.
Qed.

(* ------------------------------------------------------------------ *)
(** ** Submitting a request *)

(** C1.  When the connector call of a submission fails
    ([zenhrAPI.submitHRRequest] throws), the handler answers with a failure
    and the database is the one it started from: no HRRequest row and no
    Notification row is created, since the connector is called before any
    local write. *)
Theorem submit_connector_failure_writes_nothing
        rt env user body w e w1 :
  ZenHR.submitHRRequest rt env
    (HRRequestRoute.requestData user (fields_of body)) w = (Threw e, w1) ->
  exists resp w',
    HRRequestRoute.POST rt env (Some user) body w = (Returned resp, w')
    /\ status resp <> 200
    /\ hRRequests (db w') = hRRequests (db w)
    /\ notifications (db w') = notifications (db w)
    /\ db w' = db w.
Proof.
  intros Hfail.
  assert (Hdb : db w1 = db w).
  { pose proof (keeps_db_submitHRRequest rt env
                  (HRRequestRoute.requestData user (fields_of body)) w) as K.
    rewrite Hfail in K. exact K. }
  unfold HRRequestRoute.POST, try_catch, HRRequestRoute.POST_try.
  destruct (destructure_cases body) as [[_ D] | (_ & _ & D)]; rewrite D.
  - rewrite bind_throw. unfold respond, ret.
    eexists; eexists; split; [reflexivity|]. simpl.
    repeat split; auto; discriminate.
  - rewrite bind_ret.
    destruct (negb (truthy (fields_of body "type"))
              || negb (truthy (fields_of body "title"))
              || negb (truthy (fields_of body "description"))) eqn:V.
    + unfold respond, ret.
      eexists; eexists; split; [reflexivity|]. simpl.
      repeat split; auto; discriminate.
    + erewrite bind_threw by exact Hfail. unfold respond, ret.
      eexists; eexists; split; [reflexivity|]. simpl.
      rewrite Hdb. repeat split; auto; discriminate.
Qed.

(** A provider that cannot be reached while a credential is configured:
    the submission of the example fails and writes nothing. *)
Lemma submit_connector_failure_example :
  exists resp w',
    HRRequestRoute.POST Samples.runtime Samples.unreachable
      (Some (principal_of Samples.E)) Samples.submission Samples.start
    = (Returned resp, w')
    /\ status resp <> 200
    /\ hRRequests (db w') = hRRequests (db Samples.start)
    /\ notifications (db w') = notifications (db Samples.start)
    /\ db w' = db Samples.start.
Proof.
  eapply (@submit_connector_failure_writes_nothing
            Samples.runtime Samples.unreachable (principal_of Samples.E)
            Samples.submission Samples.start).
  vm_compute. reflexivity.
Defined.

(** X28.  For a body that is an object (or any JSON value other than
    null: an array, a string, a number, a boolean), a submission in which [type], [title] or [description] is absent
    (or otherwise falsy) is answered 400 with the validation message; the
    world is untouched: no row is created and the connector is not
    called. *)
Theorem submit_missing_field_is_rejected rt env user body w :
  body <> JUndefined -> body <> JNull ->
  truthy (fields_of body "type") = false
  \/ truthy (fields_of body "title") = false
  \/ truthy (fields_of body "description") = false ->
  HRRequestRoute.POST rt env (Some user) body w
  = (Returned {| status := 400;
                 payload_of :=
                   Failure "Type, title, and description are required" |},
     w).
Proof.
  intros Hu Hn Hmissing.
  assert (V : negb (truthy (fields_of body "type"))
              || negb (truthy (fields_of body "title"))
              || negb (truthy (fields_of body "description")) = true).
  { destruct Hmissing as [H | [H | H]]; rewrite H; simpl;
      repeat rewrite orb_true_r; reflexivity. }
  unfold HRRequestRoute.POST, try_catch, HRRequestRoute.POST_try.
  destruct (destructure_cases body) as [[[B | B] _] | (_ & _ & D)].
  - contradiction.
  - contradiction.
  - rewrite D, bind_ret, V. reflexivity.
Qed.

(** Scenario 4: the submission without a title. *)
Lemma submit_missing_title_example :
  HRRequestRoute.POST Samples.runtime Samples.unreachable
    (Some (principal_of Samples.E)) Samples.untitled Samples.start
  = (Returned {| status := 400;
                 payload_of :=
                   Failure "Type, title, and description are required" |},
     Samples.start).
Proof.
  apply (@submit_missing_field_is_rejected
           Samples.runtime Samples.unreachable (principal_of Samples.E)
           Samples.untitled Samples.start).
  - discriminate.
  - discriminate.
  - right. left. reflexivity.
Defined.

Lemma keeps_db_getDB : keeps_db getDB.
Proof. intros w. reflexivity. Qed.

Lemma keeps_db_freshId env : keeps_db (freshId env).
Proof. intros w. reflexivity. Qed.

Lemma keeps_db_respond A code (p : Payload A) : keeps_db (respond code p).
Proof. intros w. reflexivity. Qed.

Lemma keeps_db_destructure body : keeps_db (destructure body).
Proof. intros w. destruct body; reflexivity. Qed.

Lemma keeps_db_string_receiver v : keeps_db (string_receiver v).
Proof. intros w. destruct v; reflexivity. Qed.

Lemma keeps_db_requiredString v : keeps_db (Prisma.requiredString v).
Proof. intros w. destruct v; reflexivity. Qed.

Lemma keeps_db_optionalString v : keeps_db (Prisma.optionalString v).
Proof. intros w. destruct v; reflexivity. Qed.

Lemma keeps_db_validDate d : keeps_db (Prisma.validDate d).
Proof. intros w. destruct d; reflexivity. Qed.

Lemma keeps_db_optionalDate d : keeps_db (Prisma.optionalDate d).
Proof. intros w. destruct d as [[t|]|]; reflexivity. Qed.

Lemma keeps_db_user_findUnique i : keeps_db (Prisma.user_findUnique i).
Proof. intros w. reflexivity. Qed.

Lemma keeps_db_user_findFirst c r : keeps_db (Prisma.user_findFirst c r).
Proof. intros w. reflexivity. Qed.

#[local] Hint Resolve keeps_db_getDB keeps_db_freshId keeps_db_respond
  keeps_db_destructure keeps_db_string_receiver keeps_db_requiredString
  keeps_db_optionalString keeps_db_validDate keeps_db_optionalDate
  keeps_db_user_findUnique keeps_db_user_findFirst
  keeps_db_submitHRRequest keeps_db_markAttendance
  keeps_db_updateHRRequestStatus : keeps.

(** Every handler ends in a [catch] that answers: it never throws. *)
Lemma try_catch_returns A (m : M A) (h : Exn -> M A) w :
  (forall e w0, exists a w1, h e w0 = (Returned a, w1)) ->
  exists a w', try_catch m h w = (Returned a, w').
Proof.
  intros Hh. unfold try_catch. destruct (m w) as [[e | a] w1].
  - apply Hh.
  - eauto.
Qed.

Lemma respond_returns A code (p : Payload A) w :
  exists a w', respond code p w = (Returned a, w').
Proof. unfold respond, ret. eauto. Qed.

Lemma keeps_requests_of_keeps_db A (m : M A) : keeps_db m -> keeps_requests m.
Proof. intros K w. rewrite K. reflexivity. Qed.

Lemma keeps_requests_bind A B (m : M A) (k : A -> M B) :
  keeps_requests m -> (forall a, keeps_requests (k a)) ->
  keeps_requests (bind m k).
Proof.
  intros Hm Hk w. unfold bind. specialize (Hm w).
  destruct (m w) as [[e | a] w1]; simpl in *.
  - exact Hm.
  - rewrite Hk. exact Hm.
Qed.


(** Scenario 1: with no credential configured, E's submission creates one
    PENDING request owned by E in tenant T with [managerId] M, and one
    Notification addressed to M. *)
Example submit_scenario :
  let w' := snd (HRRequestRoute.POST Samples.runtime Samples.offline
                   (Some (principal_of Samples.E)) Samples.submission
                   Samples.start) in
  map (fun r => (HRRequest.employeeId r, HRRequest.managerId r,
                 HRRequest.companyId r, HRRequest.status r,
                 HRRequest.type r, HRRequest.priority r))
      (hRRequests (db w'))
  = [("E", Some "M", "T", "PENDING", "LEAVE", "MEDIUM");
     ("M", None, "T", "PENDING", "DOCUMENT_REQUEST", "LOW");
     ("E", Some "M", "T", "PENDING", "LEAVE", "MEDIUM")]
  /\ map (fun n => (Notification.userId n, Notification.message n))
         (notifications (db w'))
     = [("M", "E has submitted a leave request: Annual Leave")]
  /\ sent w' = [].
Proof. vm_compute. repeat split. Qed.

(* ------------------------------------------------------------------ *)
(** ** Updating the status of a request *)

(** C3.  A principal whose role is neither MANAGER nor ADMIN, an EMPLOYEE
    in particular, is answered 401 "Unauthorized" by the status update, and
    the world is untouched: no HRRequest, RequestApproval or Notification
    row changes and nothing is sent to the provider. *)
Theorem updateStatus_rejects_other_roles rt env user body w :
  SessionUser.role user <> "MANAGER" ->
  SessionUser.role user <> "ADMIN" ->
  HRRequestRoute.PATCH rt env (Some user) body w
  = (Returned {| status := 401; payload_of := Failure "Unauthorized" |}, w).
Proof.
  intros Hm Ha.
  unfold HRRequestRoute.PATCH, try_catch, HRRequestRoute.PATCH_try,
    HRRequestRoute.may_update.
  apply String.eqb_neq in Hm. apply String.eqb_neq in Ha.
  rewrite Hm, Ha. reflexivity.
Qed.

(** The employee E trying to approve their own request. *)
Lemma updateStatus_employee_example :
  HRRequestRoute.PATCH Samples.runtime Samples.offline
    (Some (principal_of Samples.E)) Samples.approval Samples.start
  = (Returned {| status := 401; payload_of := Failure "Unauthorized" |},
     Samples.start).
Proof.
  apply (@updateStatus_rejects_other_roles
           Samples.runtime Samples.offline (principal_of Samples.E)
           Samples.approval Samples.start);
    discriminate.
Defined.

Lemma append_nil_r (s : string) : s ++ "" = s.
Proof. induction s; simpl; congruence. Qed.

Lemma append_assoc (a b c : string) : (a ++ b) ++ c = a ++ b ++ c.
Proof. induction a; simpl; congruence. Qed.

Lemma contains_suffix (pre s : string) : contains s (pre ++ s).
Proof. exists pre, "". rewrite append_nil_r. reflexivity. Qed.

Lemma contains_after (pre s t : string) :
  contains s t -> contains s (pre ++ t).
Proof.
  intros (a & b & ->). exists (pre ++ a), b.
  rewrite append_assoc. reflexivity.
Qed.

Lemma string_receiver_returned v s w w1 :
  string_receiver v w = (Returned s, w1) -> v = JStr s /\ w1 = w.
Proof.
  destruct v; simpl; unfold throw, ret; intros H; inversion H; auto.
Qed.

Lemma requiredString_returned v s w w1 :
  Prisma.requiredString v w = (Returned s, w1) -> v = JStr s /\ w1 = w.
Proof.
  destruct v; simpl; unfold throw, ret; intros H; inversion H; auto.
Qed.

Lemma optionalString_returned v o w w1 :
  Prisma.optionalString v w = (Returned o, w1) -> w1 = w.
Proof.
  destruct v; simpl; unfold throw, ret; intros H; inversion H; auto.
Qed.

Lemma comments_update_returned v c w w1 :
  HRRequestRoute.comments_update v w = (Returned c, w1) -> w1 = w.
Proof.
  destruct v; simpl; unfold throw, ret; intros H; inversion H; auto.
Qed.

Lemma hRRequest_update_returned i st c w r w1 :
  Prisma.hRRequest_update i st c w = (Returned r, w1) ->
  exists r0,
    find (fun x => String.eqb (HRRequest.id x) i) (hRRequests (db w)) = Some r0
    /\ r = Prisma.patched st c r0
    /\ db w1 = Prisma.set_hRRequests (db w)
                 (map (fun x => if String.eqb (HRRequest.id x) i
                                then Prisma.patched st c x else x)
                      (hRRequests (db w))).
Proof.
  unfold Prisma.hRRequest_update, bind, getDB, putDB, ret, throw. simpl.
  destruct (find _ (hRRequests (db w))) as [r0|]; intros H; inversion H.
  exists r0. auto.
Qed.

Lemma requestApproval_create_returned env data w a w1 :
  Prisma.requestApproval_create env data w = (Returned a, w1) ->
  db w1 = Prisma.set_requestApprovals (db w)
            (requestApprovals (db w) ++ [a])%list
  /\ RequestApproval.approverId a = Prisma.a_approverId data
  /\ RequestApproval.requestId a = Prisma.a_requestId data
  /\ RequestApproval.status a = Prisma.a_status data
  /\ RequestApproval.comments a = Prisma.a_comments data.
Proof.
  unfold Prisma.requestApproval_create, bind, freshId, now, getDB, putDB,
    ret, throw. simpl.
  destruct (Prisma.hasRequest (db w) (Prisma.a_requestId data)
            && Prisma.hasUser (db w) (Prisma.a_approverId data));
    intros H; inversion H; subst; simpl; auto.
Qed.

Lemma notification_create_returned env data w n w1 :
  Prisma.notification_create env data w = (Returned n, w1) ->
  db w1 = Prisma.set_notifications (db w) (notifications (db w) ++ [n])%list
  /\ Notification.userId n = Prisma.n_userId data
  /\ Notification.message n = Prisma.n_message data
  /\ Notification.title n = Prisma.n_title data.
Proof.
  unfold Prisma.notification_create, bind, freshId, now, getDB, putDB,
    ret, throw. simpl.
  destruct (Prisma.hasUser (db w) (Prisma.n_userId data));
    intros H; inversion H; subst; simpl; auto.
Qed.

Lemma keeps_db_outcome A (m : M A) w o w1 :
  keeps_db m -> m w = (o, w1) -> db w1 = db w.
Proof. intros K E. specialize (K w). rewrite E in K. exact K. Qed.

Lemma keeps_db_returned A (m : M A) w a w1 :
  keeps_db m -> m w = (Returned a, w1) -> db w1 = db w.
Proof. intros K E. specialize (K w). rewrite E in K. exact K. Qed.

Lemma patched_rows_status i st c rows r :
  In r (map (fun x => if String.eqb (HRRequest.id x) i
                      then Prisma.patched st c x else x) rows) ->
  HRRequest.id r = i -> HRRequest.status r = st.
Proof.
  intros Hin Hid. apply in_map_iff in Hin. destruct Hin as (x & Hx & _).
  destruct (String.eqb (HRRequest.id x) i) eqn:E.
  - subst r. reflexivity.
  - subst x. rewrite Hid, String.eqb_refl in E. discriminate.
Qed.

Lemma find_patched_in i st c rows r0 :
  find (fun x => String.eqb (HRRequest.id x) i) rows = Some r0 ->
  In (Prisma.patched st c r0)
     (map (fun x => if String.eqb (HRRequest.id x) i
                    then Prisma.patched st c x else x) rows).
Proof.
  intros F. apply find_some in F. destruct F as [Hin Hid].
  apply in_map_iff. exists r0. rewrite Hid. auto.
Qed.

Ltac invert_bind H a w E :=
  apply bind_returned in H; destruct H as (a & w & E & H).

(** C4.  After a successful status update ([PATCH] answers 200) the
    request named in the body exists, its status (and that of no other
    request) is the new status in upper case, exactly one RequestApproval
    row has been appended, for that request and with the acting principal
    as approver, and exactly one Notification has been appended, addressed
    to the request's author, whose message contains the new status in
    lower case. *)
Theorem updateStatus_success rt env user body w resp w' :
  HRRequestRoute.PATCH rt env (Some user) body w = (Returned resp, w') ->
  status resp = 200 ->
  exists rid s c r0 a n,
    fields_of body "requestId" = JStr rid
    /\ fields_of body "status" = JStr s
    /\ find (fun x => String.eqb (HRRequest.id x) rid) (hRRequests (db w))
       = Some r0
    /\ hRRequests (db w')
       = map (fun x => if String.eqb (HRRequest.id x) rid
                       then Prisma.patched (toUpperCase rt s) c x else x)
             (hRRequests (db w))
    /\ In (Prisma.patched (toUpperCase rt s) c r0) (hRRequests (db w'))
    /\ (forall r, In r (hRRequests (db w')) -> HRRequest.id r = rid ->
                  HRRequest.status r = toUpperCase rt s)
    /\ requestApprovals (db w') = (requestApprovals (db w) ++ [a])%list
    /\ RequestApproval.approverId a = SessionUser.id user
    /\ RequestApproval.requestId a = rid
    /\ RequestApproval.status a = toUpperCase rt s
    /\ notifications (db w') = (notifications (db w) ++ [n])%list
    /\ Notification.userId n = HRRequest.employeeId r0
    /\ contains (toLowerCase rt s) (Notification.message n).
Proof.
  intros H Hs.
  unfold HRRequestRoute.PATCH, try_catch in H.
  destruct (HRRequestRoute.PATCH_try rt env (Some user) body w)
    as [[e | resp0] w0] eqn:T.
  { unfold respond, ret in H. inversion H; subst. discriminate Hs. }
  inversion H; subst resp0 w0; clear H.
  unfold HRRequestRoute.PATCH_try in T.
  destruct (negb (HRRequestRoute.may_update (Some user))).
  { unfold respond, ret in T. inversion T; subst. discriminate Hs. }
  invert_bind T f wf E.
  assert (Hf : f = fields_of body /\ wf = w).
  { destruct body; simpl in E; unfold throw, ret in E; inversion E; auto. }
  destruct Hf; subst f wf. clear E.
  destruct (negb (truthy (fields_of body "requestId"))
            || negb (truthy (fields_of body "status"))).
  { unfold respond, ret in T. inversion T; subst. discriminate Hs. }
  invert_bind T s w1 E.
  apply string_receiver_returned in E. destruct E as [Hst ->].
  invert_bind T rid w1 E.
  apply requiredString_returned in E. destruct E as [Hrid ->].
  invert_bind T c w1 E.
  apply comments_update_returned in E. subst w1.
  invert_bind T updated wu E.
  apply hRRequest_update_returned in E. destruct E as (r0 & Hfind & Hup & Hdbu).
  invert_bind T d w1 E.
  unfold getDB in E. inversion E; subst d w1. clear E.
  invert_bind T c' w1 E.
  apply optionalString_returned in E. subst w1.
  invert_bind T a wa E.
  apply requestApproval_create_returned in E.
  destruct E as (Hdba & Happ & Hreq & Hsta & _). simpl in Happ, Hreq, Hsta.
  invert_bind T z wz Ez.
  eapply keeps_db_returned in Ez; [| apply keeps_db_updateHRRequestStatus].
  invert_bind T n wn En.
  apply notification_create_returned in En.
  destruct En as (Hdbn & Huser & Hmsg & _). simpl in Huser, Hmsg.
  unfold respond, ret in T. inversion T; subst w' resp. clear T.
  exists rid, s, c, r0, a, n.
  rewrite Hdbn, Ez, Hdba, Hdbu. simpl.
  repeat split; auto.
  - apply find_patched_in. exact Hfind.
  - intros r Hin Hid. eapply patched_rows_status; eauto.
  - rewrite Huser, Hup. reflexivity.
  - rewrite Hmsg.
    apply (@contains_after "Your ").
    apply (@contains_after (HRRequest.type updated)).
    apply (@contains_suffix " request has been ").
Qed.

(** Scenario 2: manager M approves E's request with the comment "ok". *)
Lemma updateStatus_success_example :
  exists rid s c r0 a n,
    fields_of Samples.approval "requestId" = JStr rid
    /\ fields_of Samples.approval "status" = JStr s
    /\ find (fun x => String.eqb (HRRequest.id x) rid)
            (hRRequests (db Samples.start)) = Some r0
    /\ hRRequests (db Samples.approved_by_M)
       = map (fun x => if String.eqb (HRRequest.id x) rid
                       then Prisma.patched
                              (toUpperCase Samples.runtime s) c x
                       else x)
             (hRRequests (db Samples.start))
    /\ In (Prisma.patched (toUpperCase Samples.runtime s) c r0)
          (hRRequests (db Samples.approved_by_M))
    /\ (forall r, In r (hRRequests (db Samples.approved_by_M)) ->
                  HRRequest.id r = rid ->
                  HRRequest.status r = toUpperCase Samples.runtime s)
    /\ requestApprovals (db Samples.approved_by_M)
       = (requestApprovals (db Samples.start) ++ [a])%list
    /\ RequestApproval.approverId a
       = SessionUser.id (principal_of Samples.M1)
    /\ RequestApproval.requestId a = rid
    /\ RequestApproval.status a = toUpperCase Samples.runtime s
    /\ notifications (db Samples.approved_by_M)
       = (notifications (db Samples.start) ++ [n])%list
    /\ Notification.userId n = HRRequest.employeeId r0
    /\ contains (toLowerCase Samples.runtime s) (Notification.message n).
Proof.
  eapply (@updateStatus_success Samples.runtime Samples.offline
            (principal_of Samples.M1) Samples.approval Samples.start).
  - vm_compute. reflexivity.
  - reflexivity.
Defined.

Example updateStatus_scenario :
  map (fun r => (HRRequest.id r, HRRequest.status r, HRRequest.comments r))
      (hRRequests (db Samples.approved_by_M))
  = [("r1", "APPROVED", Some "ok"); ("r2", "PENDING", None)]
  /\ map (fun a => (RequestApproval.requestId a, RequestApproval.approverId a,
                    RequestApproval.status a))
         (requestApprovals (db Samples.approved_by_M))
     = [("r1", "M", "APPROVED")]
  /\ map (fun n => (Notification.userId n, Notification.message n))
         (notifications (db Samples.approved_by_M))
     = [("E", "Your LEAVE request has been approved")].
Proof. vm_compute. repeat split. Qed.

Lemma destructure_object body k :
  fields_of body k <> JUndefined -> destructure body = ret (fields_of body).
Proof.
  destruct body; simpl; intros H; try reflexivity;
    exfalso; apply H; reflexivity.
Qed.

Lemma truthy_nonempty s : s <> "" -> truthy (JStr s) = true.
Proof. intros H. simpl. apply String.eqb_neq in H. rewrite H. reflexivity. Qed.

Lemma hRRequest_update_found i st c w r0 :
  find (fun x => String.eqb (HRRequest.id x) i) (hRRequests (db w)) = Some r0 ->
  exists w1,
    Prisma.hRRequest_update i st c w = (Returned (Prisma.patched st c r0), w1)
    /\ db w1 = Prisma.set_hRRequests (db w)
                 (map (fun x => if String.eqb (HRRequest.id x) i
                                then Prisma.patched st c x else x)
                      (hRRequests (db w))).
Proof.
  intros F. unfold Prisma.hRRequest_update, bind, getDB, putDB, ret. simpl.
  rewrite F. eexists. split; reflexivity.
Qed.

Lemma requestApproval_create_accepted env data w :
  Prisma.hasRequest (db w) (Prisma.a_requestId data) = true ->
  Prisma.hasUser (db w) (Prisma.a_approverId data) = true ->
  exists a w1,
    Prisma.requestApproval_create env data w = (Returned a, w1)
    /\ db w1 = Prisma.set_requestApprovals (db w)
                 (requestApprovals (db w) ++ [a])%list.
Proof.
  intros Hr Hu.
  unfold Prisma.requestApproval_create, bind, freshId, now, getDB, putDB, ret.
  simpl. rewrite Hr, Hu. simpl. eexists; eexists. split; reflexivity.
Qed.

Lemma notification_create_accepted env data w :
  Prisma.hasUser (db w) (Prisma.n_userId data) = true ->
  exists n w1,
    Prisma.notification_create env data w = (Returned n, w1)
    /\ db w1 = Prisma.set_notifications (db w)
                 (notifications (db w) ++ [n])%list.
Proof.
  intros Hu.
  unfold Prisma.notification_create, bind, freshId, now, getDB, putDB, ret.
  simpl. rewrite Hu. eexists; eexists. split; reflexivity.
Qed.

Lemma hasRequest_after_update i st c d r0 :
  find (fun x => String.eqb (HRRequest.id x) i) (hRRequests d) = Some r0 ->
  Prisma.hasRequest
    (Prisma.set_hRRequests d
       (map (fun x => if String.eqb (HRRequest.id x) i
                      then Prisma.patched st c x else x)
            (hRRequests d))) i = true.
Proof.
  intros F. unfold Prisma.hasRequest. simpl. apply existsb_exists.
  exists (Prisma.patched st c r0). split.
  - apply find_patched_in. exact F.
  - apply find_some in F. destruct F as [_ F]. exact F.
Qed.

(** The status update tests the role and nothing else about the
    principal: for a MANAGER or an ADMIN, an existing request, a non-empty
    new status and an optional textual comment, the request is updated and
    the call answers 200 whatever the tenant of the request and whoever its
    assigned manager is (nothing is assumed about [companyId] or
    [managerId]), provided the rows the new RequestApproval and
    Notification refer to exist and the provider acknowledges. *)
Theorem updateStatus_checks_role_only rt env user body w rid s r0 :
  SessionUser.role user = "MANAGER" \/ SessionUser.role user = "ADMIN" ->
  fields_of body "requestId" = JStr rid -> rid <> "" ->
  fields_of body "status" = JStr s -> s <> "" ->
  (fields_of body "comments" = JUndefined
   \/ fields_of body "comments" = JNull
   \/ exists text, fields_of body "comments" = JStr text) ->
  find (fun x => String.eqb (HRRequest.id x) rid) (hRRequests (db w))
  = Some r0 ->
  Prisma.hasUser (db w) (SessionUser.id user) = true ->
  Prisma.hasUser (db w) (HRRequest.employeeId r0) = true ->
  (forall w0, exists z w1,
      ZenHR.updateHRRequestStatus rt env rid s (fields_of body "comments") w0
      = (Returned z, w1)) ->
  exists resp w' c,
    HRRequestRoute.PATCH rt env (Some user) body w = (Returned resp, w')
    /\ status resp = 200
    /\ hRRequests (db w')
       = map (fun x => if String.eqb (HRRequest.id x) rid
                       then Prisma.patched (toUpperCase rt s) c x else x)
             (hRRequests (db w))
    /\ In (Prisma.patched (toUpperCase rt s) c r0) (hRRequests (db w'))
    /\ HRRequest.status (Prisma.patched (toUpperCase rt s) c r0)
       = toUpperCase rt s.
Proof.
  intros Hrole Hrid Hne Hst Hsne Hcom Hfind Happrover Hauthor Hack.
  assert (Hmay : HRRequestRoute.may_update (Some user) = true).
  { simpl. destruct Hrole as [-> | ->]; reflexivity. }
  assert (Hc : exists c c',
             HRRequestRoute.comments_update (fields_of body "comments")
             = ret c
             /\ Prisma.optionalString (fields_of body "comments") = ret c').
  { destruct Hcom as [-> | [-> | (text & ->)]];
      eexists; eexists; split; reflexivity. }
  destruct Hc as (c & c' & Hcu & Hco).
  destruct (@hRRequest_update_found rid (toUpperCase rt s) c w r0 Hfind)
    as (wu & Eu & Hdbu).
  destruct (@requestApproval_create_accepted env
              {| Prisma.a_requestId := rid;
                 Prisma.a_approverId := SessionUser.id user;
                 Prisma.a_status := toUpperCase rt s;
                 Prisma.a_comments := c' |} wu)
    as (a & wa & Ea & Hdba).
  { rewrite Hdbu. simpl. eapply hasRequest_after_update. exact Hfind. }
  { rewrite Hdbu. exact Happrover. }
  destruct (Hack wa) as (z & wz & Ez).
  assert (Hdbz : db wz = db wa).
  { eapply keeps_db_returned; [apply keeps_db_updateHRRequestStatus|].
    exact Ez. }
  destruct (@notification_create_accepted env
              {| Prisma.n_title := "HR Request Update";
                 Prisma.n_message :=
                   "Your "
                   ++ HRRequest.type (Prisma.patched (toUpperCase rt s) c r0)
                   ++ " request has been " ++ toLowerCase rt s;
                 Prisma.n_type := "HR_REQUEST";
                 Prisma.n_userId :=
                   HRRequest.employeeId
                     (Prisma.patched (toUpperCase rt s) c r0) |} wz)
    as (n & wn & En & Hdbn).
  { rewrite Hdbz, Hdba, Hdbu. exact Hauthor. }
  eexists; exists wn, c.
  split.
  - unfold HRRequestRoute.PATCH, try_catch, HRRequestRoute.PATCH_try.
    rewrite Hmay. cbn [negb].
    rewrite (@destructure_object body "requestId") by (rewrite Hrid; discriminate).
    rewrite bind_ret, Hrid, Hst.
    rewrite (truthy_nonempty Hne), (truthy_nonempty Hsne). cbn [negb orb].
    change (string_receiver (JStr s)) with (ret s). rewrite bind_ret.
    change (Prisma.requiredString (JStr rid)) with (ret rid).
    rewrite bind_ret, Hcu, bind_ret.
    erewrite bind_step by exact Eu.
    change (bind getDB ?k wu) with (k (db wu) wu). cbv beta.
    rewrite Hco, bind_ret.
    erewrite bind_step by exact Ea.
    erewrite bind_step by exact Ez.
    erewrite bind_step by exact En.
    unfold respond, ret. reflexivity.
  - split; [reflexivity|].
    rewrite Hdbn, Hdbz, Hdba, Hdbu. simpl.
    repeat split.
    apply find_patched_in. exact Hfind.
Qed.

(** Manager N of tenant U approves E's request, which belongs to tenant T
    and is assigned to manager M. *)
Lemma updateStatus_other_tenant_example :
  HRRequest.companyId Samples.leave <> SessionUser.companyId
                                         (principal_of Samples.M2)
  /\ HRRequest.managerId Samples.leave
     <> Some (SessionUser.id (principal_of Samples.M2))
  /\ exists resp w' c,
      HRRequestRoute.PATCH Samples.runtime Samples.offline
        (Some (principal_of Samples.M2)) Samples.approval Samples.start
      = (Returned resp, w')
      /\ status resp = 200
      /\ hRRequests (db w')
         = map (fun x => if String.eqb (HRRequest.id x) "r1"
                         then Prisma.patched
                                (toUpperCase Samples.runtime "approved") c x
                         else x)
               (hRRequests (db Samples.start))
      /\ In (Prisma.patched (toUpperCase Samples.runtime "approved") c
                            Samples.leave)
            (hRRequests (db w'))
      /\ HRRequest.status
           (Prisma.patched (toUpperCase Samples.runtime "approved") c
                           Samples.leave)
         = toUpperCase Samples.runtime "approved".
Proof.
  split; [discriminate|]. split; [discriminate|].
  apply (@updateStatus_checks_role_only
           Samples.runtime Samples.offline (principal_of Samples.M2)
           Samples.approval Samples.start "r1" "approved" Samples.leave).
  - left. reflexivity.
  - reflexivity.
  - discriminate.
  - reflexivity.
  - discriminate.
  - right. right. exists "ok". reflexivity.
  - reflexivity.
  - reflexivity.
  - reflexivity.
  - intros w0. eexists; eexists. reflexivity.
Defined.

(* ------------------------------------------------------------------ *)
(** ** Listing requests *)

Lemma in_insert_desc x r l :
  In x (Prisma.insert_desc r l) -> x = r \/ In x l.
Proof.
  induction l as [| y rest IH]; simpl.
  - intros [H | []]. left. symmetry. exact H.
  - destruct (Z.leb (HRRequest.createdAt y) (HRRequest.createdAt r)); simpl.
    + intros [H | H]; [left; symmetry; exact H | right; exact H].
    + intros [H | H]; [right; left; exact H |].
      destruct (IH H) as [K | K]; [left; exact K | right; right; exact K].
Qed.

Lemma in_orderBy x l : In x (Prisma.orderBy_createdAt_desc l) -> In x l.
Proof.
  unfold Prisma.orderBy_createdAt_desc.
  induction l as [| y rest IH]; simpl.
  - intros [].
  - intros H. apply in_insert_desc in H. destruct H as [-> | H]; auto.
Qed.

(** C5.  Whatever filters an EMPLOYEE passes, the listing answers 200 and
    every request in it is a stored request whose author is that
    principal. *)
Theorem employee_lists_own_requests
        rt user status_ type_ employeeId w :
  SessionUser.role user = "EMPLOYEE" ->
  exists views,
    HRRequestRoute.GET rt (Some user) status_ type_ employeeId w
    = (Returned {| status := 200; payload_of := Success None views |}, w)
    /\ Forall (fun v =>
                 In (Prisma.row v) (hRRequests (db w))
                 /\ HRRequest.employeeId (Prisma.row v) = SessionUser.id user)
              views.
Proof.
  intros Hrole.
  eexists. split.
  - unfold HRRequestRoute.GET, try_catch, HRRequestRoute.GET_try,
      Prisma.hRRequest_findMany, bind, getDB, respond, ret.
    reflexivity.
  - apply Forall_forall. intros v Hin.
    apply in_map_iff in Hin. destruct Hin as (r & <- & Hin).
    apply in_orderBy in Hin. apply filter_In in Hin.
    destruct Hin as [Hrow Hmatch]. simpl. split; [exact Hrow|].
    unfold HRRequestRoute.whereClause in Hmatch. rewrite Hrole in Hmatch.
    change (String.eqb "EMPLOYEE" "EMPLOYEE") with true in Hmatch.
    cbv iota in Hmatch. unfold Prisma.matches in Hmatch.
    simpl in Hmatch. apply andb_true_iff in Hmatch.
    destruct Hmatch as [Hown _]. apply String.eqb_eq in Hown. exact Hown.
Qed.

(** E lists with an [employeeId] filter naming someone else. *)
Lemma employee_lists_own_requests_example :
  exists views,
    HRRequestRoute.GET Samples.runtime
      (Some (principal_of Samples.E)) None None (Some "M") Samples.start
    = (Returned {| status := 200; payload_of := Success None views |},
       Samples.start)
    /\ Forall (fun v =>
                 In (Prisma.row v) (hRRequests (db Samples.start))
                 /\ HRRequest.employeeId (Prisma.row v)
                    = SessionUser.id (principal_of Samples.E))
              views.
Proof.
  apply (@employee_lists_own_requests
           Samples.runtime (principal_of Samples.E)
           None None (Some "M") Samples.start).
  reflexivity.
Defined.

Example employee_listing_scenario :
  match fst (HRRequestRoute.GET Samples.runtime
               (Some (principal_of Samples.E)) None None (Some "M")
               Samples.start) with
  | Returned {| status := 200; payload_of := Success None views |} =>
      map (fun v => HRRequest.id (Prisma.row v)) views = ["r1"]
  | _ => False
  end
  /\ match fst (HRRequestRoute.GET Samples.runtime
                  (Some (principal_of Samples.M1)) None None None
                  Samples.start) with
     | Returned {| status := 200; payload_of := Success None views |} =>
         map (fun v => HRRequest.id (Prisma.row v)) views = ["r2"; "r1"]
     | _ => False
     end.
Proof. vm_compute. split; reflexivity. Qed.

(* ------------------------------------------------------------------ *)
(** ** Marking attendance *)

Lemma markAttendance_ticks rt env data w o w1 :
  ZenHR.markAttendance rt env data w = (o, w1) -> ticks w <= ticks w1.
Proof.
  unfold ZenHR.markAttendance, try_catch, ZenHR.mockAttendanceResponse,
    ZenHR.makeRequest, try_catch, fetch, bind, now, ret, throw.
  destruct (ZenHR.noApiKey env); simpl.
  - intros H. inversion H. simpl. lia.
  - destruct (network env _ _) as [| [|] line [v|]];
      intros H; inversion H; simpl; lia.
Qed.

Lemma validDate_returned d t w w1 :
  Prisma.validDate d w = (Returned t, w1) -> d = Some t /\ w1 = w.
Proof.
  destruct d; simpl; unfold throw, ret; intros H; inversion H; auto.
Qed.

Lemma optionalDate_returned d o w w1 :
  Prisma.optionalDate d w = (Returned o, w1) ->
  w1 = w /\ (d = None -> o = None).
Proof.
  destruct d as [[t|]|]; simpl; unfold bind, throw, ret; simpl;
    intros H; inversion H; split; auto; discriminate.
Qed.

(** What the [data] of the insert is when its evaluation succeeds. *)
Lemma create_data_returned rt env user f w data w1 :
  AttendanceRoute.create_data rt env user f w = (Returned data, w1) ->
  Prisma.t_employeeId data = SessionUser.id user
  /\ newDate rt (f "date") = Some (Prisma.t_date data)
  /\ db w1 = db w
  /\ (truthy (f "checkIn") = false ->
      Prisma.t_checkIn data = Some (clock env (ticks w))
      /\ ticks w1 = S (ticks w))
  /\ (truthy (f "checkOut") = false -> Prisma.t_checkOut data = None).
Proof.
  unfold AttendanceRoute.create_data. intros H.
  invert_bind H checkIn wc Ec.
  assert (Hc : db wc = db w
               /\ (truthy (f "checkIn") = false ->
                   checkIn = Some (clock env (ticks w))
                   /\ ticks wc = S (ticks w))).
  { destruct (truthy (f "checkIn")).
    - unfold ret in Ec. inversion Ec. split; [reflexivity | discriminate].
    - unfold bind, now, ret in Ec. inversion Ec. simpl. auto. }
  destruct Hc as [Hdb Hin]. clear Ec.
  invert_bind H date w2 E. apply validDate_returned in E.
  destruct E as [Hdate ->].
  invert_bind H checkIn' w2 E. apply validDate_returned in E.
  destruct E as [Hci ->].
  invert_bind H checkOut' w2 E. apply optionalDate_returned in E.
  destruct E as [-> Hco].
  invert_bind H status_ w2 E. apply requiredString_returned in E.
  destruct E as [_ ->].
  invert_bind H notes w2 E. apply optionalString_returned in E. subst w2.
  invert_bind H location w2 E. apply optionalString_returned in E. subst w2.
  unfold ret in H. inversion H; subst data w1. clear H. simpl.
  split; [reflexivity|]. split; [exact Hdate|]. split; [exact Hdb|]. split.
  - intros F. destruct (Hin F) as [K1 K2]. split; [congruence | exact K2].
  - intros F. apply Hco. rewrite F. reflexivity.
Qed.

Lemma attendance_create_returned env data w a w1 :
  Prisma.attendance_create env data w = (Returned a, w1) ->
  db w1 = Prisma.set_attendances (db w) (attendances (db w) ++ [a])%list
  /\ existsb (Prisma.sameDay (Prisma.t_employeeId data) (Prisma.t_date data))
             (attendances (db w)) = false
  /\ ticks w1 = S (ticks w)
  /\ Attendance.employeeId a = Prisma.t_employeeId data
  /\ Attendance.date a = Prisma.t_date data
  /\ Attendance.checkIn a = Prisma.t_checkIn data
  /\ Attendance.checkOut a = Prisma.t_checkOut data
  /\ Attendance.createdAt a = clock env (ticks w).
Proof.
  unfold Prisma.attendance_create, bind, freshId, now, getDB, putDB, ret,
    throw. simpl.
  destruct (existsb _ (attendances (db w))); [intros H; inversion H|].
  destruct (Prisma.hasUser (db w) (Prisma.t_employeeId data));
    intros H; inversion H; subst; simpl; repeat split; auto.
Qed.

Lemma attendance_create_conflict env data w :
  existsb (Prisma.sameDay (Prisma.t_employeeId data) (Prisma.t_date data))
          (attendances (db w)) = true ->
  exists w1,
    Prisma.attendance_create env data w = (Threw UniqueConstraintViolation, w1)
    /\ db w1 = db w.
Proof.
  intros H.
  unfold Prisma.attendance_create, bind, freshId, now, getDB, putDB, ret,
    throw. simpl. rewrite H. eexists. split; reflexivity.
Qed.

Lemma filter_none A (g : A -> bool) l : existsb g l = false -> filter g l = [].
Proof.
  induction l as [| x rest IH]; simpl; [reflexivity|].
  destruct (g x); simpl; [discriminate | exact IH].
Qed.

(** A successful mark, taken apart. *)
Lemma attendance_POST_accepted rt env user body w resp w' :
  AttendanceRoute.POST rt env (Some user) body w = (Returned resp, w') ->
  status resp = 200 ->
  exists z wz data wd a,
    truthy (fields_of body "date") = true
    /\ ZenHR.markAttendance rt env
         (AttendanceRoute.attendanceData user (fields_of body)) w
       = (Returned z, wz)
    /\ AttendanceRoute.create_data rt env user (fields_of body) wz
       = (Returned data, wd)
    /\ Prisma.attendance_create env data wd = (Returned a, w')
    /\ payload_of resp
       = Success (Some "Attendance marked successfully") (a, z).
Proof.
  intros H Hs.
  unfold AttendanceRoute.POST, try_catch in H.
  destruct (AttendanceRoute.POST_try rt env (Some user) body w)
    as [[e | resp0] w0] eqn:T.
  { unfold respond, ret in H. inversion H; subst. discriminate Hs. }
  inversion H; subst resp0 w0; clear H.
  unfold AttendanceRoute.POST_try in T.
  invert_bind T f wf E.
  assert (Hf : f = fields_of body /\ wf = w).
  { destruct body; simpl in E; unfold throw, ret in E; inversion E; auto. }
  destruct Hf; subst f wf. clear E.
  destruct (truthy (fields_of body "date")) eqn:Hdate; cbn [negb] in T.
  2:{ unfold respond, ret in T. inversion T; subst. discriminate Hs. }
  invert_bind T z wz Ez.
  invert_bind T data wd Ed.
  invert_bind T a wa Ea.
  unfold respond, ret in T. inversion T; subst. clear T.
  exists z, wz, data, wd, a. repeat split; auto.
Qed.

(** C10.  When a mark is accepted and its [checkIn] was omitted (or is
    otherwise falsy), the persisted row's [checkIn] is a reading of the
    server clock taken during the call, the one just before the reading that
    stamps the row's [createdAt]; it is not null.  An omitted [checkOut] is
    persisted as null. *)
Theorem markAttendance_default_checkIn rt env user body w resp w' :
  truthy (fields_of body "checkIn") = false ->
  AttendanceRoute.POST rt env (Some user) body w = (Returned resp, w') ->
  status resp = 200 ->
  exists a z k,
    payload_of resp = Success (Some "Attendance marked successfully") (a, z)
    /\ attendances (db w') = (attendances (db w) ++ [a])%list
    /\ ticks w <= k /\ ticks w' = S (S k)
    /\ Attendance.checkIn a = Some (clock env k)
    /\ Attendance.createdAt a = clock env (S k)
    /\ (truthy (fields_of body "checkOut") = false ->
        Attendance.checkOut a = None).
Proof.
  intros Hin H Hs.
  destruct (attendance_POST_accepted _ _ _ _ _ H Hs)
    as (z & wz & data & wd & a & _ & Ez & Ed & Ea & Hp).
  pose proof (markAttendance_ticks _ _ _ _ Ez) as Hticks.
  assert (Hdbz : db wz = db w).
  { eapply keeps_db_returned; [apply keeps_db_markAttendance | exact Ez]. }
  apply create_data_returned in Ed.
  destruct Ed as (_ & _ & Hdbd & Hci & Hco).
  destruct (Hci Hin) as [Hci1 Hci2].
  apply attendance_create_returned in Ea.
  destruct Ea as (Hdb & _ & Ht & _ & _ & Hcheck & Hout & Hcreated).
  exists a, z, (ticks wz). repeat split.
  - exact Hp.
  - rewrite Hdb, Hdbd, Hdbz. reflexivity.
  - exact Hticks.
  - rewrite Ht, Hci2. reflexivity.
  - rewrite Hcheck. exact Hci1.
  - rewrite Hcreated, Hci2. reflexivity.
  - intros F. rewrite Hout. apply Hco. exact F.
Qed.

(** E marks attendance for 2024-02-15 without a check-in or check-out
    time. *)
Lemma markAttendance_default_checkIn_example :
  exists a z k,
    payload_of (match fst (AttendanceRoute.POST Samples.runtime Samples.offline
                             (Some (principal_of Samples.E)) Samples.mark
                             Samples.start) with
                | Returned resp => resp
                | Threw _ => {| status := 0; payload_of := Failure "" |}
                end)
    = Success (Some "Attendance marked successfully") (a, z)
    /\ attendances (db Samples.marked_once)
       = (attendances (db Samples.start) ++ [a])%list
    /\ ticks Samples.start <= k /\ ticks Samples.marked_once = S (S k)
    /\ Attendance.checkIn a = Some (clock Samples.offline k)
    /\ Attendance.createdAt a = clock Samples.offline (S k)
    /\ (truthy (fields_of Samples.mark "checkOut") = false ->
        Attendance.checkOut a = None).
Proof.
  apply (@markAttendance_default_checkIn
           Samples.runtime Samples.offline (principal_of Samples.E)
           Samples.mark Samples.start).
  - reflexivity.
  - vm_compute. reflexivity.
  - reflexivity.
Defined.

Lemma sameDay_refl a :
  Prisma.sameDay (Attendance.employeeId a) (Attendance.date a) a = true.
Proof.
  unfold Prisma.sameDay. rewrite String.eqb_refl, Z.eqb_refl. reflexivity.
Qed.

(** After an accepted mark, a second mark by the same principal for
    the same date that reaches the insert (its connector call is
    acknowledged and its arguments are accepted by the client) is refused by
    the unique index on (employeeId, date): the handler's [try] block throws
    the uniqueness violation, the call answers with a failure, the database
    is unchanged, and the only Attendance row for that principal and date is
    the one the first mark created. *)
Theorem second_mark_conflicts
        rt env user body1 body2 w r1 w1 z wz data wd :
  AttendanceRoute.POST rt env (Some user) body1 w = (Returned r1, w1) ->
  status r1 = 200 ->
  truthy (fields_of body2 "date") = true ->
  newDate rt (fields_of body2 "date") = newDate rt (fields_of body1 "date") ->
  ZenHR.markAttendance rt env
    (AttendanceRoute.attendanceData user (fields_of body2)) w1
  = (Returned z, wz) ->
  AttendanceRoute.create_data rt env user (fields_of body2) wz
  = (Returned data, wd) ->
  exists d a1 w2,
    newDate rt (fields_of body1 "date") = Some d
    /\ AttendanceRoute.POST_try rt env (Some user) body2 w1
       = (Threw UniqueConstraintViolation, w2)
    /\ AttendanceRoute.POST rt env (Some user) body2 w1
       = (Returned {| status := 500;
                      payload_of := Failure "Failed to mark attendance" |},
          w2)
    /\ db w2 = db w1
    /\ attendances (db w2) = (attendances (db w) ++ [a1])%list
    /\ filter (Prisma.sameDay (SessionUser.id user) d) (attendances (db w2))
       = [a1].
Proof.
  intros H1 Hs1 Htruthy Hsame Ez Ed.
  destruct (attendance_POST_accepted _ _ _ _ _ H1 Hs1)
    as (z1 & wz1 & data1 & wd1 & a1 & _ & Ez1 & Ed1 & Ea1 & _).
  assert (Hdbz1 : db wz1 = db w).
  { eapply keeps_db_returned; [apply keeps_db_markAttendance | exact Ez1]. }
  apply create_data_returned in Ed1.
  destruct Ed1 as (Hemp1 & Hdate1 & Hdbd1 & _ & _).
  apply attendance_create_returned in Ea1.
  destruct Ea1 as (Hdb1 & Hfree & _ & Ha1e & Ha1d & _).
  assert (Hrows1 : attendances (db w1) = (attendances (db w) ++ [a1])%list).
  { rewrite Hdb1, Hdbd1, Hdbz1. reflexivity. }
  assert (Hdbz : db wz = db w1).
  { eapply keeps_db_returned; [apply keeps_db_markAttendance | exact Ez]. }
  pose proof (create_data_returned _ _ _ _ _ Ed) as (Hemp & Hdate & Hdbd & _).
  assert (Hd : Prisma.t_date data = Prisma.t_date data1) by congruence.
  assert (Hkey : Prisma.sameDay (SessionUser.id user) (Prisma.t_date data1) a1
                 = true).
  { rewrite <- Hemp1, <- Ha1e, <- Ha1d. apply sameDay_refl. }
  destruct (@attendance_create_conflict env data wd) as (w2 & Econf & Hdb2).
  { rewrite Hemp, Hd, Hdbd, Hdbz, Hrows1, existsb_app. simpl.
    rewrite Hkey. apply orb_true_iff. right. reflexivity. }
  assert (Htry : AttendanceRoute.POST_try rt env (Some user) body2 w1
                 = (Threw UniqueConstraintViolation, w2)).
  { unfold AttendanceRoute.POST_try.
    rewrite (@destructure_object body2 "date")
      by (intros K; rewrite K in Htruthy; discriminate).
    rewrite bind_ret, Htruthy. cbn [negb].
    erewrite bind_step by exact Ez.
    erewrite bind_step by exact Ed.
    erewrite bind_threw by exact Econf. reflexivity. }
  assert (Hdbw2 : db w2 = db w1) by congruence.
  exists (Prisma.t_date data1), a1, w2.
  split; [exact Hdate1|]. split; [exact Htry|]. split.
  { unfold AttendanceRoute.POST, try_catch. rewrite Htry. reflexivity. }
  split; [exact Hdbw2|]. split.
  { rewrite Hdbw2. exact Hrows1. }
  rewrite Hdbw2, Hrows1, filter_app. simpl. rewrite Hkey.
  rewrite filter_none; [reflexivity|].
  rewrite <- Hemp1, <- Hdbz1, <- Hdbd1. exact Hfree.
Qed.

(** Scenario 3: E marks attendance for 2024-02-15 twice. *)
Lemma second_mark_conflicts_example :
  exists d a1 w2,
    newDate Samples.runtime (fields_of Samples.mark "date") = Some d
    /\ AttendanceRoute.POST_try Samples.runtime Samples.offline
         (Some (principal_of Samples.E)) Samples.mark Samples.marked_once
       = (Threw UniqueConstraintViolation, w2)
    /\ AttendanceRoute.POST Samples.runtime Samples.offline
         (Some (principal_of Samples.E)) Samples.mark Samples.marked_once
       = (Returned {| status := 500;
                      payload_of := Failure "Failed to mark attendance" |},
          w2)
    /\ db w2 = db Samples.marked_once
    /\ attendances (db w2) = (attendances (db Samples.start) ++ [a1])%list
    /\ filter (Prisma.sameDay (SessionUser.id (principal_of Samples.E)) d)
              (attendances (db w2))
       = [a1].
Proof.
  eapply (@second_mark_conflicts
            Samples.runtime Samples.offline (principal_of Samples.E)
            Samples.mark Samples.mark Samples.start).
  - vm_compute. reflexivity.
  - reflexivity.
  - reflexivity.
  - reflexivity.
  - vm_compute. reflexivity.
  - vm_compute. reflexivity.
Defined.

Lemma keeps_db_create_data rt env user f :
  keeps_db (AttendanceRoute.create_data rt env user f).
Proof. unfold AttendanceRoute.create_data. auto 20 with keeps. Qed.

Lemma attendance_create_threw env data w e w1 :
  Prisma.attendance_create env data w = (Threw e, w1) -> db w1 = db w.
Proof.
  unfold Prisma.attendance_create, bind, freshId, now, getDB, putDB, ret,
    throw. simpl.
  destruct (existsb _ (attendances (db w))); [intros H; inversion H; auto|].
  destruct (Prisma.hasUser (db w) (Prisma.t_employeeId data));
    intros H; inversion H; auto.
Qed.

(** A mark that is not accepted leaves the database as it was. *)
Lemma attendance_POST_refused rt env user body w resp w' :
  AttendanceRoute.POST rt env (Some user) body w = (Returned resp, w') ->
  status resp <> 200 -> db w' = db w.
Proof.
  unfold AttendanceRoute.POST, try_catch, AttendanceRoute.POST_try.
  intros H Hs.
  destruct (destructure_cases body) as [[_ D] | (_ & _ & D)]; rewrite D in H.
  { rewrite bind_throw in H. inversion H. reflexivity. }
  rewrite bind_ret in H.
  destruct (negb (truthy (fields_of body "date"))).
  { inversion H. reflexivity. }
  unfold bind at 1 in H.
  destruct (ZenHR.markAttendance rt env _ w) as [[e | z] wz] eqn:Ez.
  { inversion H. subst w'.
    eapply keeps_db_outcome; [apply keeps_db_markAttendance | exact Ez]. }
  assert (Hz : db wz = db w).
  { eapply keeps_db_returned; [apply keeps_db_markAttendance | exact Ez]. }
  unfold bind at 1 in H.
  destruct (AttendanceRoute.create_data rt env user (fields_of body) wz)
    as [[e | data] wd] eqn:Ed.
  { inversion H. subst w'. rewrite <- Hz.
    eapply keeps_db_outcome; [apply keeps_db_create_data | exact Ed]. }
  assert (Hd : db wd = db wz).
  { eapply keeps_db_returned; [apply keeps_db_create_data | exact Ed]. }
  unfold bind at 1 in H.
  destruct (Prisma.attendance_create env data wd) as [[e | a] wa] eqn:Ea.
  { inversion H. subst w'. apply attendance_create_threw in Ea. congruence. }
  unfold respond, ret in H. inversion H. subst resp.
  exfalso. apply Hs. reflexivity.
Qed.

(** X27.  The unique index also holds when the second mark does not reach
    the insert: whatever its other arguments and whatever the provider
    does, a second mark for the same date is never accepted and never
    changes the database. *)
Lemma second_mark_never_accepted rt env user body1 body2 w r1 w1 :
  AttendanceRoute.POST rt env (Some user) body1 w = (Returned r1, w1) ->
  status r1 = 200 ->
  newDate rt (fields_of body2 "date") = newDate rt (fields_of body1 "date") ->
  exists r2 w2,
    AttendanceRoute.POST rt env (Some user) body2 w1 = (Returned r2, w2)
    /\ status r2 <> 200
    /\ db w2 = db w1.
Proof.
  intros H1 Hs1 Hsame.
  destruct (@try_catch_returns _
              (AttendanceRoute.POST_try rt env (Some user) body2)
              (fun _ => respond 500 (Failure "Failed to mark attendance")) w1)
    as (r2 & w2 & E2).
  { intros e w0. apply respond_returns. }
  fold (AttendanceRoute.POST rt env (Some user) body2) in E2.
  exists r2, w2. split; [exact E2|].
  assert (Hs2 : status r2 <> 200).
  { intros Hs2.
    destruct (attendance_POST_accepted _ _ _ _ _ E2 Hs2)
      as (z & wz & data & wd & a & _ & Ez & Ed & Ea & _).
    destruct (attendance_POST_accepted _ _ _ _ _ H1 Hs1)
      as (z1 & wz1 & data1 & wd1 & a1 & _ & Ez1 & Ed1 & Ea1 & _).
    apply create_data_returned in Ed1.
    destruct Ed1 as (Hemp1 & Hdate1 & _).
    apply attendance_create_returned in Ea1.
    destruct Ea1 as (Hdb1 & _ & _ & Ha1e & Ha1d & _).
    pose proof (create_data_returned _ _ _ _ _ Ed) as (Hemp & Hdate & Hdbd & _).
    assert (Hdbz : db wz = db w1).
    { eapply keeps_db_returned; [apply keeps_db_markAttendance | exact Ez]. }
    apply attendance_create_returned in Ea.
    destruct Ea as (_ & Hfree & _).
    rewrite Hdbd, Hdbz, Hdb1 in Hfree. simpl in Hfree.
    rewrite existsb_app in Hfree. apply orb_false_iff in Hfree.
    destruct Hfree as [_ Hfree]. simpl in Hfree.
    assert (Hd : Prisma.t_date data = Prisma.t_date data1) by congruence.
    rewrite Hemp, Hd, <- Hemp1, <- Ha1e, <- Ha1d, sameDay_refl in Hfree.
    discriminate. }
  split; [exact Hs2|].
  eapply attendance_POST_refused; eauto.
Qed.

Example second_mark_provider_down :
  fst (AttendanceRoute.POST_try Samples.runtime Samples.flaky
         (Some (principal_of Samples.E)) Samples.mark
         Samples.marked_once_flaky)
  = Threw (Error "Unable to mark attendance in ZenHR")
  /\ db (snd (AttendanceRoute.POST Samples.runtime Samples.flaky
                (Some (principal_of Samples.E)) Samples.mark
                Samples.marked_once_flaky))
     = db Samples.marked_once_flaky
  /\ List.length (attendances (db Samples.marked_once_flaky)) = 1.
Proof. vm_compute. repeat split. Qed.

(* ------------------------------------------------------------------ *)
(** ** The connector without a credential *)

Lemma noApiKey_true env : apiKey (zenhrAPI env) = "" -> ZenHR.noApiKey env = true.
Proof. unfold ZenHR.noApiKey, ZenHR.this. intros ->. reflexivity. Qed.




(* ------------------------------------------------------------------ *)
(** ** Listing requests: order, filters and scopes *)

Lemma insert_desc_perm r l : Permutation (Prisma.insert_desc r l) (r :: l).
Proof.
  induction l as [| x rest IH]; simpl.
  - apply Permutation_refl.
  - destruct (Z.leb (HRRequest.createdAt x) (HRRequest.createdAt r)).
    + apply Permutation_refl.
    + eapply Permutation_trans; [apply perm_skip; exact IH | apply perm_swap].
Qed.

Lemma orderBy_createdAt_perm l :
  Permutation (Prisma.orderBy_createdAt_desc l) l.
Proof.
  unfold Prisma.orderBy_createdAt_desc.
  induction l as [| x rest IH]; simpl.
  - apply Permutation_refl.
  - eapply Permutation_trans; [apply insert_desc_perm | apply perm_skip; exact IH].
Qed.

Lemma insert_desc_sorted r l :
  Sorted (fun a b => (HRRequest.createdAt b <= HRRequest.createdAt a)%Z) l ->
  Sorted (fun a b => (HRRequest.createdAt b <= HRRequest.createdAt a)%Z)
         (Prisma.insert_desc r l).
Proof.
  induction l as [| x rest IH]; simpl; intros S.
  - constructor; constructor.
  - destruct (Z.leb (HRRequest.createdAt x) (HRRequest.createdAt r)) eqn:C.
    + constructor; [exact S|]. constructor. apply Z.leb_le. exact C.
    + apply Z.leb_gt in C. inversion S as [| ? ? S' Hd]; subst.
      constructor; [apply IH; exact S'|].
      destruct rest as [| y rest']; simpl.
      * constructor. lia.
      * destruct (Z.leb (HRRequest.createdAt y) (HRRequest.createdAt r)).
        -- constructor. lia.
        -- inversion Hd; subst. constructor. assumption.
Qed.

Lemma orderBy_createdAt_sorted l :
  Sorted (fun a b => (HRRequest.createdAt b <= HRRequest.createdAt a)%Z)
         (Prisma.orderBy_createdAt_desc l).
Proof.
  unfold Prisma.orderBy_createdAt_desc.
  induction l as [| x rest IH]; simpl.
  - constructor.
  - apply insert_desc_sorted. exact IH.
Qed.

Lemma map_row_with_relations d l :
  map Prisma.row (map (HRRequestRoute.with_relations d) l) = l.
Proof.
  induction l as [| x rest IH]; simpl; [reflexivity | rewrite IH; reflexivity].
Qed.

(** What an authenticated listing answers. *)
Lemma hr_GET_answer rt user status_ type_ employeeId w :
  exists views,
    HRRequestRoute.GET rt (Some user) status_ type_ employeeId w
    = (Returned {| status := 200; payload_of := Success None views |}, w)
    /\ map Prisma.row views
       = Prisma.orderBy_createdAt_desc
           (filter (Prisma.matches
                      (HRRequestRoute.whereClause rt user status_ type_
                                                  employeeId))
                   (hRRequests (db w))).
Proof.
  eexists. split.
  - unfold HRRequestRoute.GET, try_catch, HRRequestRoute.GET_try,
      Prisma.hRRequest_findMany, bind, getDB, respond, ret.
    reflexivity.
  - apply map_row_with_relations.
Qed.

Lemma matches_app c1 c2 r :
  Prisma.matches (c1 ++ c2)%list r = Prisma.matches c1 r && Prisma.matches c2 r.
Proof. unfold Prisma.matches. apply forallb_app. Qed.

Lemma in_listing rt user status_ type_ employeeId rows r :
  In r (Prisma.orderBy_createdAt_desc
          (filter (Prisma.matches
                     (HRRequestRoute.whereClause rt user status_ type_
                                                 employeeId)) rows)) ->
  In r rows
  /\ Prisma.matches (HRRequestRoute.whereClause rt user status_ type_
                                                employeeId) r = true.
Proof.
  intros H. apply in_orderBy in H. apply filter_In in H. exact H.
Qed.

(** The additional filters of a listing pass every row when neither is
    given. *)
Lemma no_additional_filters rt status_ type_ r :
  given status_ = None -> given type_ = None ->
  Prisma.matches
    (match given status_ with
     | Some s => [Prisma.Status (toUpperCase rt s)]
     | None => []
     end
     ++ match given type_ with
        | Some t => [Prisma.Type_ (toUpperCase rt t)]
        | None => []
        end)%list r = true.
Proof. intros -> ->. reflexivity. Qed.

(** X1.  Whoever lists and with whatever filters, the requests come newest
    first: [createdAt] never increases along the answer. *)
Theorem hr_list_newest_first rt user status_ type_ employeeId w :
  exists views,
    HRRequestRoute.GET rt (Some user) status_ type_ employeeId w
    = (Returned {| status := 200; payload_of := Success None views |}, w)
    /\ Sorted (fun a b => (HRRequest.createdAt b <= HRRequest.createdAt a)%Z)
              (map Prisma.row views).
Proof.
  destruct (hr_GET_answer rt user status_ type_ employeeId w)
    as (views & E & Hrows).
  exists views. split; [exact E|].
  rewrite Hrows. apply orderBy_createdAt_sorted.
Qed.

(** X2.  A non-empty [status] (or [type]) parameter keeps exactly the rows
    whose stored status (type) equals the parameter in upper case: every
    request of the answer has that status and that type, for every
    role. *)
Theorem hr_list_filters_apply rt user status_ type_ employeeId w :
  exists views,
    HRRequestRoute.GET rt (Some user) status_ type_ employeeId w
    = (Returned {| status := 200; payload_of := Success None views |}, w)
    /\ (forall s, status_ = Some s -> s <> "" ->
                  Forall (fun r => HRRequest.status r = toUpperCase rt s)
                         (map Prisma.row views))
    /\ (forall t, type_ = Some t -> t <> "" ->
                  Forall (fun r => HRRequest.type r = toUpperCase rt t)
                         (map Prisma.row views)).
Proof.
  destruct (hr_GET_answer rt user status_ type_ employeeId w)
    as (views & E & Hrows).
  exists views. split; [exact E|]. rewrite Hrows.
  split.
  - intros s -> Hs. apply Forall_forall. intros r Hin.
    apply in_listing in Hin. destruct Hin as [_ Hm].
    unfold HRRequestRoute.whereClause in Hm.
    rewrite !matches_app in Hm.
    apply andb_true_iff in Hm. destruct Hm as [_ Hm].
    apply andb_true_iff in Hm. destruct Hm as [Hm _].
    unfold given in Hm. apply String.eqb_neq in Hs. rewrite Hs in Hm.
    unfold Prisma.matches in Hm. simpl in Hm.
    rewrite andb_true_r in Hm. apply String.eqb_eq in Hm. exact Hm.
  - intros t -> Ht. apply Forall_forall. intros r Hin.
    apply in_listing in Hin. destruct Hin as [_ Hm].
    unfold HRRequestRoute.whereClause in Hm.
    rewrite !matches_app in Hm.
    apply andb_true_iff in Hm. destruct Hm as [_ Hm].
    apply andb_true_iff in Hm. destruct Hm as [_ Hm].
    unfold given in Hm. apply String.eqb_neq in Ht. rewrite Ht in Hm.
    unfold Prisma.matches in Hm. simpl in Hm.
    rewrite andb_true_r in Hm. apply String.eqb_eq in Hm. exact Hm.
Qed.

Lemma role_scope_only rt scope status_ type_ r :
  given status_ = None -> given type_ = None ->
  Prisma.matches
    (scope
     ++ match given status_ with
        | Some s => [Prisma.Status (toUpperCase rt s)]
        | None => []
        end
     ++ match given type_ with
        | Some t => [Prisma.Type_ (toUpperCase rt t)]
        | None => []
        end)%list r
  = Prisma.matches scope r.
Proof.
  intros Hs Ht. rewrite matches_app, (no_additional_filters rt _ _ r Hs Ht).
  apply andb_true_r.
Qed.

(** X3.  An ADMIN's listing never leaves the tenant: with any filters every
    request of the answer belongs to the principal's company, and without
    filters the answer is exactly the stored requests of that company. *)
Theorem admin_lists_own_tenant rt user status_ type_ employeeId w :
  SessionUser.role user = "ADMIN" ->
  exists views,
    HRRequestRoute.GET rt (Some user) status_ type_ employeeId w
    = (Returned {| status := 200; payload_of := Success None views |}, w)
    /\ Forall (fun r => HRRequest.companyId r = SessionUser.companyId user)
              (map Prisma.row views)
    /\ (given status_ = None -> given type_ = None ->
        given employeeId = None ->
        Permutation (map Prisma.row views)
          (filter (fun r => String.eqb (HRRequest.companyId r)
                                       (SessionUser.companyId user))
                  (hRRequests (db w)))).
Proof.
  intros Hrole.
  destruct (hr_GET_answer rt user status_ type_ employeeId w)
    as (views & E & Hrows).
  exists views. split; [exact E|]. rewrite Hrows. split.
  - apply Forall_forall. intros r Hin.
    apply in_listing in Hin. destruct Hin as [_ Hm].
    unfold HRRequestRoute.whereClause in Hm. rewrite Hrole in Hm.
    cbn [String.eqb Ascii.eqb Bool.eqb andb] in Hm.
    rewrite matches_app in Hm. apply andb_true_iff in Hm.
    destruct Hm as [Hm _]. unfold Prisma.matches in Hm. simpl in Hm.
    apply andb_true_iff in Hm. destruct Hm as [Hm _].
    apply String.eqb_eq in Hm. exact Hm.
  - intros Hs Ht He.
    eapply Permutation_trans; [apply orderBy_createdAt_perm|].
    erewrite filter_ext; [apply Permutation_refl|].
    intros r. unfold HRRequestRoute.whereClause. rewrite Hrole, He.
    cbn [String.eqb Ascii.eqb Bool.eqb andb].
    rewrite (role_scope_only rt _ _ _ r Hs Ht).
    unfold Prisma.matches. simpl. apply andb_true_r.
Qed.

Lemma admin_lists_own_tenant_example :
  exists views,
    HRRequestRoute.GET Samples.runtime (Some Samples.admin_T) None None None
                       Samples.two_tenants
    = (Returned {| status := 200; payload_of := Success None views |},
       Samples.two_tenants)
    /\ Forall (fun r => HRRequest.companyId r
                        = SessionUser.companyId Samples.admin_T)
              (map Prisma.row views)
    /\ (given None = None -> given None = None -> given None = None ->
        Permutation (map Prisma.row views)
          (filter (fun r => String.eqb (HRRequest.companyId r)
                                       (SessionUser.companyId Samples.admin_T))
                  (hRRequests (db Samples.two_tenants)))).
Proof.
  apply (@admin_lists_own_tenant Samples.runtime Samples.admin_T
           None None None Samples.two_tenants).
  reflexivity.
Defined.

(** X4.  A MANAGER who names no employee sees requests they authored or
    that are assigned to them, and nothing else; without filters, all of
    those. *)
Theorem manager_lists_authored_or_assigned rt user status_ type_ employeeId w :
  SessionUser.role user = "MANAGER" ->
  given employeeId = None ->
  exists views,
    HRRequestRoute.GET rt (Some user) status_ type_ employeeId w
    = (Returned {| status := 200; payload_of := Success None views |}, w)
    /\ Forall (fun r => HRRequest.employeeId r = SessionUser.id user
                        \/ HRRequest.managerId r = Some (SessionUser.id user))
              (map Prisma.row views)
    /\ (given status_ = None -> given type_ = None ->
        Permutation (map Prisma.row views)
          (filter (fun r =>
                     String.eqb (HRRequest.employeeId r) (SessionUser.id user)
                     || match HRRequest.managerId r with
                        | Some m => String.eqb m (SessionUser.id user)
                        | None => false
                        end)
                  (hRRequests (db w)))).
Proof.
  intros Hrole He.
  destruct (hr_GET_answer rt user status_ type_ employeeId w)
    as (views & E & Hrows).
  exists views. split; [exact E|]. rewrite Hrows. split.
  - apply Forall_forall. intros r Hin.
    apply in_listing in Hin. destruct Hin as [_ Hm].
    unfold HRRequestRoute.whereClause in Hm. rewrite Hrole, He in Hm.
    cbn [String.eqb Ascii.eqb Bool.eqb andb] in Hm.
    rewrite matches_app in Hm. apply andb_true_iff in Hm.
    destruct Hm as [Hm _]. unfold Prisma.matches in Hm. simpl in Hm.
    rewrite andb_true_r, orb_false_r in Hm. apply orb_true_iff in Hm.
    destruct Hm as [Hm | Hm].
    + left. apply String.eqb_eq in Hm. exact Hm.
    + right. destruct (HRRequest.managerId r) as [m|]; [|discriminate].
      apply String.eqb_eq in Hm. rewrite Hm. reflexivity.
  - intros Hs Ht.
    eapply Permutation_trans; [apply orderBy_createdAt_perm|].
    erewrite filter_ext; [apply Permutation_refl|].
    intros r. unfold HRRequestRoute.whereClause. rewrite Hrole, He.
    cbn [String.eqb Ascii.eqb Bool.eqb andb].
    rewrite (role_scope_only rt _ _ _ r Hs Ht).
    unfold Prisma.matches. simpl. rewrite andb_true_r, orb_false_r.
    reflexivity.
Qed.

Lemma manager_lists_authored_or_assigned_example :
  exists views,
    HRRequestRoute.GET Samples.runtime (Some (principal_of Samples.M1))
                       None None None Samples.two_tenants
    = (Returned {| status := 200; payload_of := Success None views |},
       Samples.two_tenants)
    /\ Forall (fun r => HRRequest.employeeId r
                        = SessionUser.id (principal_of Samples.M1)
                        \/ HRRequest.managerId r
                           = Some (SessionUser.id (principal_of Samples.M1)))
              (map Prisma.row views)
    /\ (given None = None -> given None = None ->
        Permutation (map Prisma.row views)
          (filter (fun r =>
                     String.eqb (HRRequest.employeeId r)
                                (SessionUser.id (principal_of Samples.M1))
                     || match HRRequest.managerId r with
                        | Some m =>
                            String.eqb m
                              (SessionUser.id (principal_of Samples.M1))
                        | None => false
                        end)
                  (hRRequests (db Samples.two_tenants)))).
Proof.
  apply (@manager_lists_authored_or_assigned
           Samples.runtime (principal_of Samples.M1) None None None
           Samples.two_tenants);
    reflexivity.
Defined.

(** X5.  A MANAGER who names an employee gets that employee's requests and
    only those, whether or not the employee is in the manager's company or
    the requests are assigned to the manager: the manager's own identity
    and tenant play no part in the selection. *)
Theorem manager_lists_named_employee rt user status_ type_ e w :
  SessionUser.role user = "MANAGER" ->
  e <> "" ->
  exists views,
    HRRequestRoute.GET rt (Some user) status_ type_ (Some e) w
    = (Returned {| status := 200; payload_of := Success None views |}, w)
    /\ Forall (fun r => HRRequest.employeeId r = e) (map Prisma.row views)
    /\ (given status_ = None -> given type_ = None ->
        Permutation (map Prisma.row views)
          (filter (fun r => String.eqb (HRRequest.employeeId r) e)
                  (hRRequests (db w)))).
Proof.
  intros Hrole Hne.
  assert (He : given (Some e) = Some e).
  { unfold given. apply String.eqb_neq in Hne. rewrite Hne. reflexivity. }
  destruct (hr_GET_answer rt user status_ type_ (Some e) w)
    as (views & E & Hrows).
  exists views. split; [exact E|]. rewrite Hrows. split.
  - apply Forall_forall. intros r Hin.
    apply in_listing in Hin. destruct Hin as [_ Hm].
    unfold HRRequestRoute.whereClause in Hm. rewrite Hrole, He in Hm.
    cbn [String.eqb Ascii.eqb Bool.eqb andb] in Hm.
    rewrite matches_app in Hm. apply andb_true_iff in Hm.
    destruct Hm as [Hm _]. unfold Prisma.matches in Hm. simpl in Hm.
    rewrite andb_true_r in Hm. apply String.eqb_eq in Hm. exact Hm.
  - intros Hs Ht.
    eapply Permutation_trans; [apply orderBy_createdAt_perm|].
    erewrite filter_ext; [apply Permutation_refl|].
    intros r. unfold HRRequestRoute.whereClause. rewrite Hrole, He.
    cbn [String.eqb Ascii.eqb Bool.eqb andb].
    rewrite (role_scope_only rt _ _ _ r Hs Ht).
    unfold Prisma.matches. simpl. apply andb_true_r.
Qed.

(** Manager M of tenant T lists the requests of N, who is in tenant U. *)
Lemma manager_lists_named_employee_example :
  exists views,
    HRRequestRoute.GET Samples.runtime (Some (principal_of Samples.M1))
                       None None (Some "N") Samples.two_tenants
    = (Returned {| status := 200; payload_of := Success None views |},
       Samples.two_tenants)
    /\ Forall (fun r => HRRequest.employeeId r = "N") (map Prisma.row views)
    /\ (given None = None -> given None = None ->
        Permutation (map Prisma.row views)
          (filter (fun r => String.eqb (HRRequest.employeeId r) "N")
                  (hRRequests (db Samples.two_tenants)))).
Proof.
  apply (@manager_lists_named_employee
           Samples.runtime (principal_of Samples.M1) None None "N"
           Samples.two_tenants).
  - reflexivity.
  - discriminate.
Defined.

(** X6.  The role scoping has no default branch: a principal whose role is
    none of EMPLOYEE, MANAGER and ADMIN gets, without filters, every stored
    request of every tenant. *)
Theorem unknown_role_lists_everything rt user status_ type_ employeeId w :
  SessionUser.role user <> "EMPLOYEE" ->
  SessionUser.role user <> "MANAGER" ->
  SessionUser.role user <> "ADMIN" ->
  given status_ = None -> given type_ = None ->
  exists views,
    HRRequestRoute.GET rt (Some user) status_ type_ employeeId w
    = (Returned {| status := 200; payload_of := Success None views |}, w)
    /\ Permutation (map Prisma.row views) (hRRequests (db w)).
Proof.
  intros H1 H2 H3 Hs Ht.
  apply String.eqb_neq in H1. apply String.eqb_neq in H2.
  apply String.eqb_neq in H3.
  destruct (hr_GET_answer rt user status_ type_ employeeId w)
    as (views & E & Hrows).
  exists views. split; [exact E|]. rewrite Hrows.
  eapply Permutation_trans; [apply orderBy_createdAt_perm|].
  assert (F : forall l : list HRRequest.t, filter (fun _ => true) l = l).
  { induction l as [| x rest IH]; simpl; [reflexivity | rewrite IH; reflexivity]. }
  erewrite filter_ext; [rewrite F; apply Permutation_refl|].
  intros r. unfold HRRequestRoute.whereClause. rewrite H1, H2, H3.
  rewrite (role_scope_only rt _ _ _ r Hs Ht). reflexivity.
Qed.

Lemma unknown_role_lists_everything_example :
  exists views,
    HRRequestRoute.GET Samples.runtime (Some Samples.auditor)
                       None None None Samples.two_tenants
    = (Returned {| status := 200; payload_of := Success None views |},
       Samples.two_tenants)
    /\ Permutation (map Prisma.row views) (hRRequests (db Samples.two_tenants)).
Proof.
  apply (@unknown_role_lists_everything
           Samples.runtime Samples.auditor None None None Samples.two_tenants);
    try discriminate; reflexivity.
Defined.

Example listing_scopes_scenario :
  let ids session employeeId :=
    match fst (HRRequestRoute.GET Samples.runtime (Some session) None None
                 employeeId Samples.two_tenants) with
    | Returned {| status := 200; payload_of := Success None views |} =>
        map (fun v => HRRequest.id (Prisma.row v)) views
    | _ => []
    end in
  ids Samples.admin_T None = ["r2"; "r1"]
  /\ ids (principal_of Samples.M1) None = ["r2"; "r1"]
  /\ ids (principal_of Samples.M1) (Some "N") = ["r3"]
  /\ ids Samples.auditor None = ["r2"; "r3"; "r1"]
  /\ ids (principal_of Samples.E) (Some "N") = ["r1"].
Proof. vm_compute. repeat split. Qed.

(* ------------------------------------------------------------------ *)
(** ** Submitting a request: what an accepted submission stores *)

Lemma hRRequest_create_returned env data w r w1 :
  Prisma.hRRequest_create env data w = (Returned r, w1) ->
  db w1 = Prisma.set_hRRequests (db w) (hRRequests (db w) ++ [r])%list
  /\ Prisma.hasUser (db w) (Prisma.c_employeeId data) = true
  /\ Prisma.hasCompany (db w) (Prisma.c_companyId data) = true
  /\ HRRequest.type r = Prisma.c_type data
  /\ HRRequest.title r = Prisma.c_title data
  /\ HRRequest.description r = Prisma.c_description data
  /\ HRRequest.status r = "PENDING"
  /\ HRRequest.priority r = Prisma.c_priority data
  /\ HRRequest.comments r = None
  /\ HRRequest.employeeId r = Prisma.c_employeeId data
  /\ HRRequest.managerId r = Prisma.c_managerId data
  /\ HRRequest.companyId r = Prisma.c_companyId data.
Proof.
  unfold Prisma.hRRequest_create, bind, freshId, now, getDB, putDB, ret,
    throw. simpl.
  destruct (Prisma.hasUser (db w) (Prisma.c_employeeId data)); simpl;
    [| intros H; inversion H].
  destruct (match Prisma.c_managerId data with
            | Some m => Prisma.hasUser (db w) m
            | None => true
            end); simpl; [| intros H; inversion H].
  destruct (Prisma.hasCompany (db w) (Prisma.c_companyId data)); simpl;
    intros H; inversion H; subst; simpl; repeat split; reflexivity.
Qed.

Lemma hasUser_findUser d i :
  Prisma.hasUser d i = true -> exists u, Prisma.findUser d i = Some u.
Proof.
  unfold Prisma.hasUser, Prisma.findUser. intros H.
  apply existsb_exists in H. destruct H as (u & Hin & Hu).
  destruct (find (fun u0 => String.eqb (User.id u0) i) (users d)) as [v|] eqn:F.
  - eauto.
  - exfalso. eapply find_none in F; [|exact Hin]. simpl in F. congruence.
Qed.

Lemma user_findFirst_returned c role_ w o w1 :
  Prisma.user_findFirst c role_ w = (Returned o, w1) ->
  w1 = w
  /\ match o with
     | Some m =>
         In m (users (db w)) /\ User.role m = role_
         /\ match c with
            | Prisma.Unfiltered => True
            | Prisma.IsNull => User.companyId m = None
            | Prisma.Equals k => User.companyId m = Some k
            end
     | None =>
         forall u, In u (users (db w)) -> User.role u = role_ ->
                   match c with
                   | Prisma.Unfiltered => False
                   | Prisma.IsNull => User.companyId u <> None
                   | Prisma.Equals k => User.companyId u <> Some k
                   end
     end.
Proof.
  unfold Prisma.user_findFirst, bind, getDB, ret. intros H.
  inversion H; subst; clear H. split; [reflexivity|].
  match goal with
  | |- match find ?p ?l with _ => _ end => destruct (find p l) as [m|] eqn:F
  end.
  - apply find_some in F. destruct F as [Hin Hp].
    apply andb_true_iff in Hp. destruct Hp as [Hc Hr].
    apply String.eqb_eq in Hr. split; [exact Hin|]. split; [exact Hr|].
    destruct c as [| | k]; [exact I | |].
    + destruct (User.companyId m); [discriminate | reflexivity].
    + destruct (User.companyId m) as [k'|]; [|discriminate].
      apply String.eqb_eq in Hc. rewrite Hc. reflexivity.
  - intros u Hin Hr. eapply find_none in F; [|exact Hin]. simpl in F.
    apply String.eqb_eq in Hr. rewrite Hr, andb_true_r in F.
    destruct c as [| | k]; [discriminate | |].
    + destruct (User.companyId u); [discriminate | discriminate].
    + destruct (User.companyId u) as [k'|]; [|discriminate].
      intros K. inversion K; subst. rewrite String.eqb_refl in F.
      discriminate.
Qed.

Lemma optionalDate_world d o w w1 :
  Prisma.optionalDate d w = (Returned o, w1) -> w1 = w.
Proof. intros H. apply optionalDate_returned in H. tauto. Qed.

(** An accepted submission, taken apart. *)
Lemma hr_POST_accepted rt env user body w resp w' :
  HRRequestRoute.POST rt env (Some user) body w = (Returned resp, w') ->
  status resp = 200 ->
  exists z wz ty ti pr r view ns manager,
    ZenHR.submitHRRequest rt env
      (HRRequestRoute.requestData user (fields_of body)) w = (Returned z, wz)
    /\ fields_of body "type" = JStr ty
    /\ fields_of body "title" = JStr ti
    /\ HRRequestRoute.priority_of (fields_of body) = JStr pr
    /\ payload_of resp
       = Success (Some "HR request submitted successfully") (view, z)
    /\ Prisma.row view = r
    /\ db w'
       = Prisma.set_notifications
           (Prisma.set_hRRequests (db w) (hRRequests (db w) ++ [r])%list)
           (notifications (db w) ++ ns)%list
    /\ Prisma.hasUser (db w) (SessionUser.id user) = true
    /\ Prisma.hasCompany (db w) (SessionUser.companyId user) = true
    /\ HRRequest.type r = toUpperCase rt ty
    /\ HRRequest.title r = ti
    /\ HRRequest.status r = "PENDING"
    /\ HRRequest.priority r = pr
    /\ HRRequest.comments r = None
    /\ HRRequest.employeeId r = SessionUser.id user
    /\ HRRequest.companyId r = SessionUser.companyId user
    /\ HRRequest.managerId r = option_map User.id manager
    /\ Prisma.user_findFirst
         (HRRequestRoute.company_filter
            (Prisma.findUser (db w) (SessionUser.id user)))
         "MANAGER" w
       = (Returned manager, w)
    /\ match manager with
       | Some m =>
           exists n, ns = [n]
                     /\ Notification.userId n = User.id m
                     /\ Notification.title n = "New HR Request"
                     /\ Notification.message n
                        = template rt (SessionUser.name user)
                          ++ " has submitted a " ++ ty ++ " request: " ++ ti
       | None => ns = []
       end.
Proof.
  intros H Hs.
  unfold HRRequestRoute.POST, try_catch in H.
  destruct (HRRequestRoute.POST_try rt env (Some user) body w)
    as [[e | resp0] w0] eqn:T.
  { unfold respond, ret in H. inversion H; subst. discriminate Hs. }
  inversion H; subst resp0 w0; clear H.
  unfold HRRequestRoute.POST_try in T.
  invert_bind T f wf E.
  assert (Hf : f = fields_of body /\ wf = w).
  { destruct body; simpl in E; unfold throw, ret in E; inversion E; auto. }
  destruct Hf; subst f wf. clear E.
  destruct (negb (truthy (fields_of body "type"))
            || negb (truthy (fields_of body "title"))
            || negb (truthy (fields_of body "description"))).
  { unfold respond, ret in T. inversion T; subst. discriminate Hs. }
  invert_bind T z wz Ez.
  assert (Hdbz : db wz = db w).
  { eapply keeps_db_returned; [apply keeps_db_submitHRRequest | exact Ez]. }
  invert_bind T employee w1 E.
  unfold Prisma.user_findUnique, bind, getDB, ret in E.
  inversion E; subst employee w1; clear E.
  invert_bind T manager w1 Em.
  assert (Hm : Prisma.user_findFirst
                 (HRRequestRoute.company_filter
                    (Prisma.findUser (db w) (SessionUser.id user)))
                 "MANAGER" w
               = (Returned manager, w) /\ w1 = wz).
  { unfold Prisma.user_findFirst, bind, getDB, ret in Em |- *.
    inversion Em; subst. rewrite Hdbz. auto. }
  destruct Hm as [Hm ->]. clear Em.
  invert_bind T ty w1 E.
  apply string_receiver_returned in E. destruct E as [Hty ->].
  invert_bind T ti w1 E.
  apply requiredString_returned in E. destruct E as [Hti ->].
  invert_bind T desc w1 E.
  apply optionalString_returned in E. subst w1.
  invert_bind T pr w1 E.
  apply requiredString_returned in E. destruct E as [Hpr ->].
  invert_bind T sd w1 E. apply optionalDate_world in E. subst w1.
  invert_bind T ed w1 E. apply optionalDate_world in E. subst w1.
  invert_bind T r wr Er.
  apply hRRequest_create_returned in Er.
  destruct Er as (Hdbr & Hu & Hc & Rty & Rti & _ & Rst & Rpr & Rco & Rem
                  & Rma & Rcm).
  simpl in Hu, Hc, Rty, Rti, Rpr, Rem, Rma, Rcm.
  invert_bind T d w1 E.
  unfold getDB in E. inversion E; subst d w1. clear E.
  rewrite Hdbz in Hdbr, Hu, Hc.
  destruct manager as [m|].
  - invert_bind T u wn En. invert_bind En n wn' En'.
    unfold ret in En. inversion En; subst u wn'. clear En.
    apply notification_create_returned in En'.
    destruct En' as (Hdbn & Nu & Nm & Nt). simpl in Nu, Nm, Nt.
    unfold respond, ret in T. inversion T; subst resp w'. clear T.
    eexists z, wz, ty, ti, pr, r, _, [n], (Some m). simpl.
    rewrite Hdbn, Hdbr. simpl.
    repeat (split; [first [reflexivity | assumption]|]).
    exists n. rewrite Nm, Hty, Hti. simpl. auto.
  - invert_bind T u wn En.
    unfold ret in En. inversion En; subst u wn. clear En.
    unfold respond, ret in T. inversion T; subst resp w'. clear T.
    eexists z, wz, ty, ti, pr, r, _, [], None. simpl.
    rewrite Hdbr. unfold Prisma.set_notifications. simpl.
    rewrite app_nil_r.
    repeat (split; [first [reflexivity | assumption]|]).
    reflexivity.
Qed.

(** X7.  An accepted submission stores exactly one new request: PENDING,
    its type in upper case, its title as given, its priority as given or
    MEDIUM when the body has none, without comments, authored by the
    principal.  Users, companies, approvals and attendance are untouched,
    and the answer carries the stored row with the connector's
    acknowledgment. *)
Theorem submit_accepted_row rt env user body w resp w' :
  HRRequestRoute.POST rt env (Some user) body w = (Returned resp, w') ->
  status resp = 200 ->
  exists r ty ti view z,
    fields_of body "type" = JStr ty
    /\ fields_of body "title" = JStr ti
    /\ hRRequests (db w') = (hRRequests (db w) ++ [r])%list
    /\ HRRequest.type r = toUpperCase rt ty
    /\ HRRequest.title r = ti
    /\ HRRequest.status r = "PENDING"
    /\ HRRequest.comments r = None
    /\ HRRequest.employeeId r = SessionUser.id user
    /\ (fields_of body "priority" = JUndefined ->
        HRRequest.priority r = "MEDIUM")
    /\ (forall p, fields_of body "priority" = JStr p ->
                  HRRequest.priority r = p)
    /\ users (db w') = users (db w)
    /\ companies (db w') = companies (db w)
    /\ requestApprovals (db w') = requestApprovals (db w)
    /\ attendances (db w') = attendances (db w)
    /\ payload_of resp
       = Success (Some "HR request submitted successfully") (view, z)
    /\ Prisma.row view = r
    /\ (exists wz,
          ZenHR.submitHRRequest rt env
            (HRRequestRoute.requestData user (fields_of body)) w
          = (Returned z, wz)).
Proof.
  intros H Hs.
  destruct (hr_POST_accepted _ _ _ _ _ H Hs)
    as (z & wz & ty & ti & pr & r & view & ns & manager & Ez & Hty & Hti & Hpr
        & Hp & Hrow & Hdb & _ & _ & Rty & Rti & Rst & Rpr & Rco & Rem & _).
  exists r, ty, ti, view, z. rewrite Hdb. simpl.
  repeat (split; [first [reflexivity | assumption]|]).
  split.
  { intros Hu. unfold HRRequestRoute.priority_of in Hpr. rewrite Hu in Hpr.
    rewrite Rpr. congruence. }
  split.
  { intros p Hu. unfold HRRequestRoute.priority_of in Hpr. rewrite Hu in Hpr.
    rewrite Rpr. congruence. }
  repeat (split; [first [reflexivity | assumption]|]).
  exists wz. exact Ez.
Qed.

Lemma submit_accepted_row_example :
  exists r ty ti view z,
    fields_of Samples.submission "type" = JStr ty
    /\ fields_of Samples.submission "title" = JStr ti
    /\ hRRequests (db (snd (HRRequestRoute.POST Samples.runtime Samples.offline
                              (Some (principal_of Samples.E))
                              Samples.submission Samples.start)))
       = (hRRequests (db Samples.start) ++ [r])%list
    /\ HRRequest.type r = toUpperCase Samples.runtime ty
    /\ HRRequest.title r = ti
    /\ HRRequest.status r = "PENDING"
    /\ HRRequest.comments r = None
    /\ HRRequest.employeeId r = SessionUser.id (principal_of Samples.E)
    /\ (fields_of Samples.submission "priority" = JUndefined ->
        HRRequest.priority r = "MEDIUM")
    /\ (forall p, fields_of Samples.submission "priority" = JStr p ->
                  HRRequest.priority r = p)
    /\ users (db (snd (HRRequestRoute.POST Samples.runtime Samples.offline
                         (Some (principal_of Samples.E))
                         Samples.submission Samples.start)))
       = users (db Samples.start)
    /\ companies (db (snd (HRRequestRoute.POST Samples.runtime Samples.offline
                             (Some (principal_of Samples.E))
                             Samples.submission Samples.start)))
       = companies (db Samples.start)
    /\ requestApprovals
         (db (snd (HRRequestRoute.POST Samples.runtime Samples.offline
                     (Some (principal_of Samples.E))
                     Samples.submission Samples.start)))
       = requestApprovals (db Samples.start)
    /\ attendances (db (snd (HRRequestRoute.POST Samples.runtime Samples.offline
                               (Some (principal_of Samples.E))
                               Samples.submission Samples.start)))
       = attendances (db Samples.start)
    /\ payload_of
         (match fst (HRRequestRoute.POST Samples.runtime Samples.offline
                       (Some (principal_of Samples.E))
                       Samples.submission Samples.start) with
          | Returned resp => resp
          | Threw _ => {| status := 0; payload_of := Failure "" |}
          end)
       = Success (Some "HR request submitted successfully") (view, z)
    /\ Prisma.row view = r
    /\ (exists wz,
          ZenHR.submitHRRequest Samples.runtime Samples.offline
            (HRRequestRoute.requestData (principal_of Samples.E)
               (fields_of Samples.submission)) Samples.start
          = (Returned z, wz)).
Proof.
  apply (@submit_accepted_row Samples.runtime Samples.offline
           (principal_of Samples.E) Samples.submission Samples.start).
  - vm_compute. reflexivity.
  - reflexivity.
Defined.

(** X8.  The manager of an accepted submission is chosen among the stored
    users with role MANAGER whose company is the stored company of the
    requester (both may be null): when one exists the request is assigned
    to such a user and exactly one Notification, addressed to that user and
    naming the requester, the type and the title, is created; when none
    exists the request has no manager and no Notification is created. *)
Theorem submit_assigns_tenant_manager rt env user body w resp w' :
  HRRequestRoute.POST rt env (Some user) body w = (Returned resp, w') ->
  status resp = 200 ->
  exists r e ns,
    hRRequests (db w') = (hRRequests (db w) ++ [r])%list
    /\ notifications (db w') = (notifications (db w) ++ ns)%list
    /\ Prisma.findUser (db w) (SessionUser.id user) = Some e
    /\ match HRRequest.managerId r with
       | Some m =>
           exists mu n,
             In mu (users (db w)) /\ User.id mu = m
             /\ User.role mu = "MANAGER"
             /\ User.companyId mu = User.companyId e
             /\ ns = [n]
             /\ Notification.userId n = m
             /\ Notification.message n
                = template rt (SessionUser.name user)
                  ++ " has submitted a "
                  ++ template rt (fields_of body "type")
                  ++ " request: " ++ template rt (fields_of body "title")
       | None =>
           ns = []
           /\ forall u, In u (users (db w)) -> User.role u = "MANAGER" ->
                        User.companyId u <> User.companyId e
       end.
Proof.
  intros H Hs.
  destruct (hr_POST_accepted _ _ _ _ _ H Hs)
    as (z & wz & ty & ti & pr & r & view & ns & manager & Ez & Hty & Hti & Hpr
        & Hp & Hrow & Hdb & Hu & _ & _ & _ & _ & _ & _ & _ & _ & Rma & Hm
        & Hn).
  destruct (hasUser_findUser _ _ Hu) as (e & He).
  exists r, e, ns. rewrite Hdb. simpl.
  split; [reflexivity|]. split; [reflexivity|]. split; [exact He|].
  rewrite He in Hm. apply user_findFirst_returned in Hm.
  destruct Hm as [_ Hm]. rewrite Rma.
  destruct manager as [m|]; simpl.
  - destruct Hm as (Hin & Hr & Hc). destruct Hn as (n & -> & Nu & _ & Nm).
    exists m, n. rewrite Hty, Hti. simpl.
    repeat (split; [first [reflexivity | assumption]|]).
    split.
    + unfold HRRequestRoute.company_filter in Hc.
      destruct (User.companyId e); rewrite Hc; reflexivity.
    + repeat split; assumption.
  - split; [exact Hn|]. intros u Hin Hr. specialize (Hm u Hin Hr).
    unfold HRRequestRoute.company_filter in Hm.
    destruct (User.companyId e); exact Hm.
Qed.

Lemma submit_assigns_tenant_manager_example :
  exists r e ns,
    hRRequests (db (snd (HRRequestRoute.POST Samples.runtime Samples.offline
                           (Some (principal_of Samples.E))
                           Samples.submission Samples.start)))
    = (hRRequests (db Samples.start) ++ [r])%list
    /\ notifications
         (db (snd (HRRequestRoute.POST Samples.runtime Samples.offline
                     (Some (principal_of Samples.E))
                     Samples.submission Samples.start)))
       = (notifications (db Samples.start) ++ ns)%list
    /\ Prisma.findUser (db Samples.start)
         (SessionUser.id (principal_of Samples.E)) = Some e
    /\ match HRRequest.managerId r with
       | Some m =>
           exists mu n,
             In mu (users (db Samples.start)) /\ User.id mu = m
             /\ User.role mu = "MANAGER"
             /\ User.companyId mu = User.companyId e
             /\ ns = [n]
             /\ Notification.userId n = m
             /\ Notification.message n
                = template Samples.runtime
                    (SessionUser.name (principal_of Samples.E))
                  ++ " has submitted a "
                  ++ template Samples.runtime
                       (fields_of Samples.submission "type")
                  ++ " request: "
                  ++ template Samples.runtime
                       (fields_of Samples.submission "title")
       | None =>
           ns = []
           /\ forall u, In u (users (db Samples.start)) ->
                        User.role u = "MANAGER" ->
                        User.companyId u <> User.companyId e
       end.
Proof.
  apply (@submit_assigns_tenant_manager Samples.runtime Samples.offline
           (principal_of Samples.E) Samples.submission Samples.start
           (match fst (HRRequestRoute.POST Samples.runtime Samples.offline
                         (Some (principal_of Samples.E))
                         Samples.submission Samples.start) with
            | Returned resp => resp
            | Threw _ => {| status := 0; payload_of := Failure "" |}
            end)).
  - vm_compute. reflexivity.
  - reflexivity.
Defined.

Lemma bind_cases A B (m : M A) (k : A -> M B) w o w' :
  bind m k w = (o, w') ->
  (exists e, m w = (Threw e, w') /\ o = Threw e)
  \/ (exists a w1, m w = (Returned a, w1) /\ k a w1 = (o, w')).
Proof.
  unfold bind. destruct (m w) as [[e | a] w1]; intros H.
  - left. exists e. inversion H. auto.
  - right. exists a, w1. auto.
Qed.

(** One step of a [try] block whose first computation keeps the database:
    either it throws there, with the database as it was, or the block goes
    on from a world with the same database. *)
Ltac step_keeping H a w1 E K :=
  apply bind_cases in H;
  destruct H as [(? & E & ?) | (a & w1 & E & H)];
  [ right; eapply keeps_db_outcome in E; [| solve [K | auto with keeps]];
    congruence
  | eapply keeps_db_outcome in E; [| solve [K | auto with keeps]] ].

Lemma hRRequest_create_threw env data w e w1 :
  Prisma.hRRequest_create env data w = (Threw e, w1) -> db w1 = db w.
Proof.
  unfold Prisma.hRRequest_create, bind, freshId, now, getDB, putDB, ret,
    throw. simpl.
  destruct (Prisma.hasUser (db w) (Prisma.c_employeeId data)
            && match Prisma.c_managerId data with
               | Some m => Prisma.hasUser (db w) m
               | None => true
               end
            && Prisma.hasCompany (db w) (Prisma.c_companyId data));
    intros H; inversion H; reflexivity.
Qed.

Lemma in_users_hasUser d u : In u (users d) -> Prisma.hasUser d (User.id u) = true.
Proof.
  intros Hin. unfold Prisma.hasUser. apply existsb_exists.
  exists u. split; [exact Hin | apply String.eqb_refl].
Qed.

(** The [try] block of a submission ends in a 200 or with the database it
    started from. *)
Lemma hr_POST_try_outcome rt env user body w o w' :
  HRRequestRoute.POST_try rt env (Some user) body w = (o, w') ->
  (exists resp, o = Returned resp /\ status resp = 200) \/ db w' = db w.
Proof.
  unfold HRRequestRoute.POST_try. intros T.
  step_keeping T f wf E idtac.
  destruct (negb (truthy (f "type")) || negb (truthy (f "title"))
            || negb (truthy (f "description"))).
  { right. unfold respond, ret in T. inversion T. subst. exact E. }
  step_keeping T z wz Ez idtac.
  step_keeping T employee w1 E1 idtac.
  apply bind_cases in T.
  destruct T as [(e & Em & _) | (manager & w2 & Em & T)];
    [unfold Prisma.user_findFirst, bind, getDB, ret in Em; discriminate|].
  assert (Hmgr : w2 = w1
                 /\ match manager with
                    | Some m => In m (users (db w1))
                    | None => True
                    end).
  { apply user_findFirst_returned in Em. destruct Em as [-> Hm].
    split; [reflexivity|]. destruct manager; tauto. }
  destruct Hmgr as [-> Hmgr].
  step_keeping T ty w3 E3 idtac.
  step_keeping T ti w4 E4 idtac.
  step_keeping T desc w5 E5 idtac.
  step_keeping T pr w6 E6 idtac.
  step_keeping T sd w7 E7 idtac.
  step_keeping T ed w8 E8 idtac.
  assert (Hdb8 : db w8 = db w1) by congruence.
  apply bind_cases in T.
  destruct T as [(e & Ec & _) | (r & wr & Ec & T)].
  { right. apply hRRequest_create_threw in Ec. congruence. }
  left.
  apply hRRequest_create_returned in Ec. destruct Ec as (Hdbr & _).
  unfold bind at 1 in T. unfold getDB at 1 in T. cbv beta iota in T.
  destruct manager as [m|].
  - destruct (@notification_create_accepted env
                {| Prisma.n_title := "New HR Request";
                   Prisma.n_message :=
                     template rt (SessionUser.name user)
                     ++ " has submitted a " ++ template rt (f "type")
                     ++ " request: " ++ template rt (f "title");
                   Prisma.n_type := "HR_REQUEST";
                   Prisma.n_userId := User.id m |} wr)
      as (n & wn & En & _).
    { rewrite Hdbr. simpl. unfold Prisma.hasUser. simpl.
      fold (Prisma.hasUser (db w8) (User.id m)).
      apply in_users_hasUser. rewrite Hdb8. exact Hmgr. }
    unfold bind in T. rewrite En in T.
    unfold respond, ret in T. inversion T.
    eexists. split; reflexivity.
  - unfold bind, ret, respond in T. inversion T.
    eexists. split; reflexivity.
Qed.

(** X9.  A submission is all-or-nothing on the local side: unless the
    handler answers 200 the database is exactly the one it started from,
    at whichever step the call failed (validation, connector, wrong value
    type, invalid date, missing user or company). *)
Theorem submit_refused_writes_nothing rt env user body w resp w' :
  HRRequestRoute.POST rt env (Some user) body w = (Returned resp, w') ->
  status resp <> 200 ->
  db w' = db w.
Proof.
  unfold HRRequestRoute.POST, try_catch. intros H Hs.
  destruct (HRRequestRoute.POST_try rt env (Some user) body w)
    as [[e | resp0] w0] eqn:T;
    apply hr_POST_try_outcome in T;
    destruct T as [(r0 & Ho & Hr) | Hdb].
  - discriminate Ho.
  - unfold respond, ret in H. inversion H. subst. exact Hdb.
  - inversion Ho. inversion H. subst. contradiction.
  - inversion H. subst. exact Hdb.
Qed.

(** A principal that is not a stored user (a session that outlived its
    user): the connector acknowledges, the insert violates the foreign key,
    nothing is stored. *)
Lemma submit_refused_writes_nothing_example :
  db (snd (HRRequestRoute.POST Samples.runtime Samples.offline
             (Some Samples.auditor) Samples.submission Samples.start))
  = db Samples.start.
Proof.
  eapply (@submit_refused_writes_nothing Samples.runtime Samples.offline
            Samples.auditor Samples.submission Samples.start).
  - vm_compute. reflexivity.
  - vm_compute. discriminate.
Defined.

Lemma hRRequest_create_accepted env data w :
  Prisma.hasUser (db w) (Prisma.c_employeeId data) = true ->
  match Prisma.c_managerId data with
  | Some m => Prisma.hasUser (db w) m = true
  | None => True
  end ->
  Prisma.hasCompany (db w) (Prisma.c_companyId data) = true ->
  exists r w1,
    Prisma.hRRequest_create env data w = (Returned r, w1)
    /\ db w1 = Prisma.set_hRRequests (db w) (hRRequests (db w) ++ [r])%list.
Proof.
  intros Hu Hm Hc.
  unfold Prisma.hRRequest_create, bind, freshId, now, getDB, putDB, ret.
  simpl. rewrite Hu, Hc.
  destruct (Prisma.c_managerId data) as [m|]; [rewrite Hm|]; simpl;
    eexists; eexists; split; reflexivity.
Qed.

Lemma optionalDate_valid rt v :
  date_or_null rt v <> Some None ->
  exists o, Prisma.optionalDate (date_or_null rt v) = ret o.
Proof.
  intros H. destruct (date_or_null rt v) as [[t|]|]; simpl.
  - exists (Some t). reflexivity.
  - contradiction H; reflexivity.
  - exists None. reflexivity.
Qed.

(** X10.  A well-formed submission is accepted: for a principal whose user
    and company rows exist, non-empty textual [type], [title] and
    [description], a [priority] that is absent or textual, dates that are
    absent or valid, and an acknowledging connector, the handler answers
    200.  Neither the principal's role nor the presence of a manager
    matters. *)
Theorem submit_valid_is_accepted
        rt env user body w ty ti de z wz :
  fields_of body "type" = JStr ty -> ty <> "" ->
  fields_of body "title" = JStr ti -> ti <> "" ->
  fields_of body "description" = JStr de -> de <> "" ->
  (fields_of body "priority" = JUndefined
   \/ exists p, fields_of body "priority" = JStr p) ->
  date_or_null rt (fields_of body "startDate") <> Some None ->
  date_or_null rt (fields_of body "endDate") <> Some None ->
  Prisma.hasUser (db w) (SessionUser.id user) = true ->
  Prisma.hasCompany (db w) (SessionUser.companyId user) = true ->
  ZenHR.submitHRRequest rt env
    (HRRequestRoute.requestData user (fields_of body)) w = (Returned z, wz) ->
  exists resp w',
    HRRequestRoute.POST rt env (Some user) body w = (Returned resp, w')
    /\ status resp = 200
    /\ List.length (hRRequests (db w')) = S (List.length (hRRequests (db w))).
Proof.
  intros Hty Hty' Hti Hti' Hde Hde' Hpr Hsd Hed Hu Hc Ez.
  assert (Hdbz : db wz = db w).
  { eapply keeps_db_returned; [apply keeps_db_submitHRRequest | exact Ez]. }
  assert (Hp : exists pr, HRRequestRoute.priority_of (fields_of body) = JStr pr).
  { unfold HRRequestRoute.priority_of.
    destruct Hpr as [-> | (p & ->)]; eauto. }
  destruct Hp as (pr & Hp).
  destruct (@optionalDate_valid _ _ Hsd) as (sd & Esd).
  destruct (@optionalDate_valid _ _ Hed) as (ed & Eed).
  destruct (Prisma.user_findFirst
              (HRRequestRoute.company_filter
                 (Prisma.findUser (db wz) (SessionUser.id user)))
              "MANAGER" wz) as [om wm] eqn:Em.
  assert (Hm : exists manager, om = Returned manager /\ wm = wz).
  { unfold Prisma.user_findFirst, bind, getDB, ret in Em. inversion Em. eauto. }
  destruct Hm as (manager & -> & ->).
  pose proof (user_findFirst_returned Em) as [_ Hin].
  destruct (@hRRequest_create_accepted env
              {| Prisma.c_type := toUpperCase rt ty;
                 Prisma.c_title := ti;
                 Prisma.c_description := Some de;
                 Prisma.c_priority := pr;
                 Prisma.c_startDate := sd;
                 Prisma.c_endDate := ed;
                 Prisma.c_documents :=
                   if truthy (fields_of body "documents")
                   then Some (stringify rt (fields_of body "documents"))
                   else None;
                 Prisma.c_employeeId := SessionUser.id user;
                 Prisma.c_managerId := option_map User.id manager;
                 Prisma.c_companyId := SessionUser.companyId user |} wz)
    as (r & wr & Er & Hdbr).
  { rewrite Hdbz. exact Hu. }
  { simpl. destruct manager as [m|]; simpl; [|exact I].
    apply in_users_hasUser. tauto. }
  { rewrite Hdbz. exact Hc. }
  assert (Htail : exists resp w',
            (match manager with
             | Some m =>
                 Prisma.notification_create env
                   {| Prisma.n_title := "New HR Request";
                      Prisma.n_message :=
                        template rt (SessionUser.name user)
                        ++ " has submitted a "
                        ++ template rt (fields_of body "type")
                        ++ " request: "
                        ++ template rt (fields_of body "title");
                      Prisma.n_type := "HR_REQUEST";
                      Prisma.n_userId := User.id m |} ;;;
                 ret tt
             | None => ret tt
             end ;;;
             respond 200
               (Success (Some "HR request submitted successfully")
                  ({| Prisma.row := r;
                      Prisma.employee :=
                        Prisma.findUser (db wr) (HRRequest.employeeId r);
                      Prisma.manager :=
                        match HRRequest.managerId r with
                        | Some m => Prisma.findUser (db wr) m
                        | None => None
                        end;
                      Prisma.approvals := [] |}, z))) wr
            = (Returned resp, w')
            /\ status resp = 200
            /\ hRRequests (db w') = hRRequests (db wr)).
  { destruct manager as [m|].
    - destruct (@notification_create_accepted env
                  {| Prisma.n_title := "New HR Request";
                     Prisma.n_message :=
                       template rt (SessionUser.name user)
                       ++ " has submitted a "
                       ++ template rt (fields_of body "type")
                       ++ " request: "
                       ++ template rt (fields_of body "title");
                     Prisma.n_type := "HR_REQUEST";
                     Prisma.n_userId := User.id m |} wr)
        as (n & wn & En & Hdbn).
      { rewrite Hdbr. unfold Prisma.hasUser. simpl.
        fold (Prisma.hasUser (db wz) (User.id m)).
        apply in_users_hasUser. tauto. }
      eexists; exists wn. unfold bind. rewrite En.
      unfold respond, ret. split; [reflexivity|]. split; [reflexivity|].
      rewrite Hdbn. reflexivity.
    - eexists; exists wr. unfold bind, ret, respond.
      split; [reflexivity|]. split; reflexivity. }
  destruct Htail as (resp & w' & Et & Hs & Hrows).
  exists resp, w'. split; [|split; [exact Hs|]].
  - unfold HRRequestRoute.POST, try_catch, HRRequestRoute.POST_try.
    rewrite (@destructure_object body "type") by (rewrite Hty; discriminate).
    rewrite bind_ret, Hty, Hti, Hde.
    rewrite (truthy_nonempty Hty'), (truthy_nonempty Hti'),
      (truthy_nonempty Hde'). cbn [negb orb].
    rewrite <- Hty, <- Hti, <- Hde.
    erewrite bind_step by exact Ez.
    change (bind (Prisma.user_findUnique ?i) ?k wz)
      with (k (Prisma.findUser (db wz) i) wz). cbv beta.
    erewrite bind_step by exact Em.
    rewrite Hty at 1.
    change (string_receiver (JStr ty)) with (ret ty). rewrite bind_ret.
    rewrite Hti at 1.
    change (Prisma.requiredString (JStr ti)) with (ret ti). rewrite bind_ret.
    rewrite Hde at 1.
    change (Prisma.optionalString (JStr de)) with (ret (Some de)).
    rewrite bind_ret, Hp.
    change (Prisma.requiredString (JStr pr)) with (ret pr).
    rewrite bind_ret, Esd, bind_ret, Eed, bind_ret.
    erewrite bind_step by exact Er.
    change (bind getDB ?k wr) with (k (db wr) wr). cbv beta.
    rewrite Et. reflexivity.
  - rewrite Hrows, Hdbr. simpl. rewrite length_app. simpl.
    rewrite Hdbz. lia.
Qed.

Lemma submit_valid_is_accepted_example :
  exists resp w',
    HRRequestRoute.POST Samples.runtime Samples.offline
      (Some (principal_of Samples.E)) Samples.submission Samples.start
    = (Returned resp, w')
    /\ status resp = 200
    /\ List.length (hRRequests (db w'))
       = S (List.length (hRRequests (db Samples.start))).
Proof.
  eapply (@submit_valid_is_accepted Samples.runtime Samples.offline
            (principal_of Samples.E) Samples.submission Samples.start
            "leave" "Annual Leave" "5 days").
  - reflexivity.
  - discriminate.
  - reflexivity.
  - discriminate.
  - reflexivity.
  - discriminate.
  - left. reflexivity.
  - discriminate.
  - discriminate.
  - reflexivity.
  - reflexivity.
  - vm_compute. reflexivity.
Defined.

(* ------------------------------------------------------------------ *)
(** ** The connector with a credential *)

Lemma noApiKey_false env :
  apiKey (zenhrAPI env) <> "" -> ZenHR.noApiKey env = false.
Proof.
  unfold ZenHR.noApiKey, ZenHR.this. intros H.
  apply String.eqb_neq. exact H.
Qed.

Lemma makeRequest_calls_once env endpoint meth body failure w :
  calls_once env
    (try_catch (ZenHR.makeRequest env endpoint meth body)
               (fun _ => throw (Error failure)))
    (request_to env endpoint meth body) failure w.
Proof.
  unfold calls_once, ZenHR.makeRequest, try_catch, fetch, throw, request_to,
    ZenHR.this.
  destruct (network env (List.length (sent w)) _) as [| [|] line [v|]];
    split; reflexivity.
Qed.

(** X11.  With a credential configured, every connector operation calls
    the provider exactly once, at [baseURL] followed by the operation's
    endpoint, with the key as bearer token; it returns the provider's JSON
    when the response is ok and parses, and otherwise throws an error whose
    message names the operation only (the provider's status line and the
    transport error are not passed on).  Nothing is retried. *)
Theorem connector_calls_provider_once rt env w :
  apiKey (zenhrAPI env) <> "" ->
  (forall employeeId,
      calls_once env (ZenHR.fetchEmployeeData env employeeId)
        (request_to env ("/employees/" ++ employeeId) "GET" None)
        "Unable to fetch employee data from ZenHR" w)
  /\ (forall companyId,
         companyId <> "" ->
         calls_once env (ZenHR.fetchAllEmployees env (Some companyId))
           (request_to env ("/companies/" ++ companyId ++ "/employees")
                       "GET" None)
           "Unable to fetch employees from ZenHR" w)
  /\ calls_once env (ZenHR.fetchAllEmployees env None)
        (request_to env "/employees" "GET" None)
        "Unable to fetch employees from ZenHR" w
  /\ (forall attendanceData,
         calls_once env (ZenHR.markAttendance rt env attendanceData)
           (request_to env "/attendance" "POST"
                       (Some (stringify rt attendanceData)))
           "Unable to mark attendance in ZenHR" w)
  /\ (forall requestData,
         calls_once env (ZenHR.submitHRRequest rt env requestData)
           (request_to env "/hr-requests" "POST"
                       (Some (stringify rt requestData)))
           "Unable to submit HR request to ZenHR" w)
  /\ (forall employeeId,
         employeeId <> "" ->
         calls_once env (ZenHR.fetchHRRequests env (Some employeeId))
           (request_to env ("/hr-requests?employee=" ++ employeeId)
                       "GET" None)
           "Unable to fetch HR requests from ZenHR" w)
  /\ calls_once env (ZenHR.fetchHRRequests env None)
        (request_to env "/hr-requests" "GET" None)
        "Unable to fetch HR requests from ZenHR" w
  /\ (forall requestId status_ comments,
         calls_once env
           (ZenHR.updateHRRequestStatus rt env requestId status_ comments)
           (request_to env ("/hr-requests/" ++ requestId) "PATCH"
              (Some (stringify rt (JObj [("status", JStr status_);
                                         ("comments", comments)]))))
           "Unable to update HR request status in ZenHR" w).
Proof.
  intros Hkey. apply noApiKey_false in Hkey.
  unfold ZenHR.fetchEmployeeData, ZenHR.fetchAllEmployees,
    ZenHR.markAttendance, ZenHR.submitHRRequest, ZenHR.fetchHRRequests,
    ZenHR.updateHRRequestStatus.
  rewrite Hkey.
  repeat match goal with |- _ /\ _ => split end;
    intros; try apply makeRequest_calls_once.
  - match goal with H : _ <> "" |- _ => apply String.eqb_neq in H; rewrite H end.
    apply makeRequest_calls_once.
  - match goal with H : _ <> "" |- _ => apply String.eqb_neq in H; rewrite H end.
    apply makeRequest_calls_once.
Qed.

Lemma connector_calls_provider_once_example :
  calls_once Samples.flaky
    (ZenHR.submitHRRequest Samples.runtime Samples.flaky Samples.submission)
    (request_to Samples.flaky "/hr-requests" "POST"
                (Some (stringify Samples.runtime Samples.submission)))
    "Unable to submit HR request to ZenHR" Samples.start.
Proof.
  destruct (@connector_calls_provider_once Samples.runtime Samples.flaky
              Samples.start)
    as (_ & _ & _ & _ & Hsubmit & _).
  - discriminate.
  - apply Hsubmit.
Defined.

Lemma submitHRRequest_live rt env data w line v :
  apiKey (zenhrAPI env) <> "" ->
  network env (List.length (sent w))
    (request_to env "/hr-requests" "POST" (Some (stringify rt data)))
  = Responded true line (Some v) ->
  ZenHR.submitHRRequest rt env data w
  = (Returned v,
     {| db := db w;
        sent := (sent w
                 ++ [request_to env "/hr-requests" "POST"
                                (Some (stringify rt data))])%list;
        ticks := ticks w; minted := minted w |}).
Proof.
  intros Hkey Hnet. apply noApiKey_false in Hkey.
  pose proof (makeRequest_calls_once env "/hr-requests" "POST"
                (Some (stringify rt data))
                "Unable to submit HR request to ZenHR" w) as [Hw Ho].
  rewrite Hnet in Ho.
  unfold ZenHR.submitHRRequest. rewrite Hkey.
  rewrite (surjective_pairing (try_catch _ _ w)), Hw, Ho. reflexivity.
Qed.

Lemma string_receiver_other v :
  (forall s, v <> JStr s) -> string_receiver v = throw TypeError.
Proof. destruct v; intros H; try reflexivity. exfalso. eapply H. reflexivity. Qed.

Lemma requiredString_other v :
  (forall s, v <> JStr s) ->
  Prisma.requiredString v = throw PrismaValidationError.
Proof. destruct v; intros H; try reflexivity. exfalso. eapply H. reflexivity. Qed.

(** X12.  The presence test on [type] and [title] is a truthiness test;
    that they are strings is only found out after the connector call.  With
    a credential configured, a submission whose [type] or [title] is a
    truthy value that is not a string is sent to the provider, which
    acknowledges it, and is then answered 500 without any row being stored:
    the provider holds a request the database does not. *)
Theorem submit_checks_types_after_forwarding rt env user body w line v :
  apiKey (zenhrAPI env) <> "" ->
  truthy (fields_of body "type") = true ->
  truthy (fields_of body "title") = true ->
  truthy (fields_of body "description") = true ->
  (forall s, fields_of body "type" <> JStr s)
  \/ (forall s, fields_of body "title" <> JStr s) ->
  network env (List.length (sent w))
    (request_to env "/hr-requests" "POST"
       (Some (stringify rt
                (HRRequestRoute.requestData user (fields_of body)))))
  = Responded true line (Some v) ->
  exists w',
    HRRequestRoute.POST rt env (Some user) body w
    = (Returned {| status := 500;
                   payload_of := Failure "Failed to submit HR request" |},
       w')
    /\ db w' = db w
    /\ sent w'
       = (sent w
          ++ [request_to env "/hr-requests" "POST"
                (Some (stringify rt
                         (HRRequestRoute.requestData user
                            (fields_of body))))])%list.
Proof.
  intros Hkey Hty Hti Hde Hbad Hnet.
  pose proof (submitHRRequest_live rt env _ _ Hkey Hnet) as Ez.
  match type of Ez with
  | _ = (_, ?world) => set (wz := world) in *
  end.
  exists wz. split.
  - unfold HRRequestRoute.POST, try_catch, HRRequestRoute.POST_try.
    rewrite (@destructure_object body "type")
      by (intros K; rewrite K in Hty; discriminate).
    rewrite bind_ret, Hty, Hti, Hde. cbn [negb orb].
    erewrite bind_step by exact Ez.
    match goal with
    | |- context [bind (Prisma.user_findUnique ?i) ?k ?w0] =>
        change (bind (Prisma.user_findUnique i) k w0)
          with (k (Prisma.findUser (db w0) i) w0)
    end. cbv beta.
    match goal with
    | |- context [bind (Prisma.user_findFirst ?c ?r) ?k ?w0] =>
        destruct (Prisma.user_findFirst c r w0) as [om wm] eqn:Em
    end.
    assert (Hm : exists manager, om = Returned manager /\ wm = wz).
    { unfold Prisma.user_findFirst, bind, getDB, ret in Em.
      inversion Em. eauto. }
    destruct Hm as (manager & -> & ->).
    erewrite bind_step by exact Em.
    destruct Hbad as [Hbad | Hbad].
    + rewrite (string_receiver_other Hbad), bind_throw. reflexivity.
    + destruct (fields_of body "type") as [| | | | ty | |] eqn:Hy;
        try (rewrite (@string_receiver_other _) by (intros s; discriminate);
             rewrite bind_throw; reflexivity).
      change (string_receiver (JStr ty)) with (ret ty). rewrite bind_ret.
      rewrite (requiredString_other Hbad), bind_throw. reflexivity.
  - simpl. split; reflexivity.
Qed.

(** E submits a request whose title is the number 5, with a credential and
    a provider that answers. *)
Lemma submit_checks_types_after_forwarding_example :
  exists w',
    HRRequestRoute.POST Samples.runtime Samples.flaky
      (Some (principal_of Samples.E)) Samples.numbered_title Samples.start
    = (Returned {| status := 500;
                   payload_of := Failure "Failed to submit HR request" |},
       w')
    /\ db w' = db Samples.start
    /\ sent w'
       = (sent Samples.start
          ++ [request_to Samples.flaky "/hr-requests" "POST"
                (Some (stringify Samples.runtime
                         (HRRequestRoute.requestData
                            (principal_of Samples.E)
                            (fields_of Samples.numbered_title))))])%list.
Proof.
  eapply (@submit_checks_types_after_forwarding Samples.runtime Samples.flaky
            (principal_of Samples.E) Samples.numbered_title Samples.start).
  - discriminate.
  - reflexivity.
  - reflexivity.
  - reflexivity.
  - right. intros s. discriminate.
  - reflexivity.
Defined.

(* ------------------------------------------------------------------ *)
(** ** Updating the status: refusals and partial effects *)

Lemma may_update_roles user :
  SessionUser.role user = "MANAGER" \/ SessionUser.role user = "ADMIN" ->
  HRRequestRoute.may_update (Some user) = true.
Proof. simpl. intros [-> | ->]; reflexivity. Qed.

(** X13.  A status update by a MANAGER or ADMIN whose body is not null and
    in which [requestId] or [status] is absent (or otherwise falsy) is
    answered 400 and touches nothing: no row changes and the provider is
    not called.  A body that is null (or no value at all) is answered 500
    by the handler's [catch] instead, and touches nothing either. *)
Theorem updateStatus_missing_arguments rt env user w :
  SessionUser.role user = "MANAGER" \/ SessionUser.role user = "ADMIN" ->
  (forall body,
      body <> JUndefined -> body <> JNull ->
      truthy (fields_of body "requestId") = false
      \/ truthy (fields_of body "status") = false ->
      HRRequestRoute.PATCH rt env (Some user) body w
      = (Returned {| status := 400;
                     payload_of :=
                       Failure "Request ID and status are required" |},
         w))
  /\ (forall body,
         body = JUndefined \/ body = JNull ->
         HRRequestRoute.PATCH rt env (Some user) body w
         = (Returned {| status := 500;
                        payload_of := Failure "Failed to update HR request" |},
            w)).
Proof.
  intros Hrole. split.
  - intros body Hu Hn Hmissing.
    assert (V : negb (truthy (fields_of body "requestId"))
                || negb (truthy (fields_of body "status")) = true).
    { destruct Hmissing as [H | H]; rewrite H; simpl;
        repeat rewrite orb_true_r; reflexivity. }
    unfold HRRequestRoute.PATCH, try_catch, HRRequestRoute.PATCH_try.
    rewrite (@may_update_roles _ Hrole). cbn [negb].
    destruct (destructure_cases body) as [[[B | B] _] | (_ & _ & D)].
    + contradiction.
    + contradiction.
    + rewrite D, bind_ret, V. reflexivity.
  - intros body Hb.
    unfold HRRequestRoute.PATCH, try_catch, HRRequestRoute.PATCH_try.
    rewrite (@may_update_roles _ Hrole).
    destruct Hb as [-> | ->]; reflexivity.
Qed.

Lemma updateStatus_missing_arguments_example :
  (forall body,
      body <> JUndefined -> body <> JNull ->
      truthy (fields_of body "requestId") = false
      \/ truthy (fields_of body "status") = false ->
      HRRequestRoute.PATCH Samples.runtime Samples.unreachable
        (Some (principal_of Samples.M1)) body Samples.start
      = (Returned {| status := 400;
                     payload_of :=
                       Failure "Request ID and status are required" |},
         Samples.start))
  /\ (forall body,
         body = JUndefined \/ body = JNull ->
         HRRequestRoute.PATCH Samples.runtime Samples.unreachable
           (Some (principal_of Samples.M1)) body Samples.start
         = (Returned {| status := 500;
                        payload_of := Failure "Failed to update HR request" |},
            Samples.start)).
Proof.
  apply (@updateStatus_missing_arguments Samples.runtime Samples.unreachable
           (principal_of Samples.M1) Samples.start).
  left. reflexivity.
Defined.

Example updateStatus_without_request_id :
  HRRequestRoute.PATCH Samples.runtime Samples.unreachable
    (Some (principal_of Samples.M1)) Samples.approval_of_nothing Samples.start
  = (Returned {| status := 400;
                 payload_of := Failure "Request ID and status are required" |},
     Samples.start).
Proof. reflexivity. Qed.

Lemma hRRequest_update_missing i st c w :
  find (fun x => String.eqb (HRRequest.id x) i) (hRRequests (db w)) = None ->
  Prisma.hRRequest_update i st c w = (Threw RecordNotFound, w).
Proof.
  intros F. unfold Prisma.hRRequest_update, bind, getDB, throw.
  rewrite F. reflexivity.
Qed.

(** X14.  A status update that names a request which does not exist is
    answered 500 by the handler's [catch]; the update is the first write,
    so nothing has changed: no approval, no notification, no call to the
    provider. *)
Theorem updateStatus_unknown_request rt env user body w rid s :
  SessionUser.role user = "MANAGER" \/ SessionUser.role user = "ADMIN" ->
  fields_of body "requestId" = JStr rid -> rid <> "" ->
  fields_of body "status" = JStr s -> s <> "" ->
  find (fun x => String.eqb (HRRequest.id x) rid) (hRRequests (db w)) = None ->
  HRRequestRoute.PATCH rt env (Some user) body w
  = (Returned {| status := 500;
                 payload_of := Failure "Failed to update HR request" |},
     w).
Proof.
  intros Hrole Hrid Hne Hst Hsne Hfind.
  unfold HRRequestRoute.PATCH, try_catch, HRRequestRoute.PATCH_try.
  rewrite (@may_update_roles _ Hrole). cbn [negb].
  rewrite (@destructure_object body "requestId") by (rewrite Hrid; discriminate).
  rewrite bind_ret, Hrid, Hst.
  rewrite (truthy_nonempty Hne), (truthy_nonempty Hsne). cbn [negb orb].
  change (string_receiver (JStr s)) with (ret s). rewrite bind_ret.
  change (Prisma.requiredString (JStr rid)) with (ret rid). rewrite bind_ret.
  destruct (fields_of body "comments");
    simpl HRRequestRoute.comments_update;
    try (rewrite bind_throw; reflexivity);
    rewrite bind_ret;
    (erewrite bind_threw by (apply hRRequest_update_missing; exact Hfind));
    reflexivity.
Qed.

Lemma updateStatus_unknown_request_example :
  HRRequestRoute.PATCH Samples.runtime Samples.unreachable
    (Some (principal_of Samples.M1)) Samples.approval_of_r9 Samples.start
  = (Returned {| status := 500;
                 payload_of := Failure "Failed to update HR request" |},
     Samples.start).
Proof.
  apply (@updateStatus_unknown_request Samples.runtime Samples.unreachable
           (principal_of Samples.M1) Samples.approval_of_r9 Samples.start
           "r9" "approved").
  - left. reflexivity.
  - reflexivity.
  - discriminate.
  - reflexivity.
  - discriminate.
  - reflexivity.
Defined.



Lemma same_requests_refl d : same_requests d d.
Proof. repeat split. Qed.

Lemma same_requests_trans d1 d2 d3 :
  same_requests d1 d2 -> same_requests d2 d3 -> same_requests d1 d3.
Proof.
  intros (A1 & B1 & C1 & D1) (A2 & B2 & C2 & D2).
  repeat split; congruence.
Qed.

Lemma fixed_keeps_db A (m : M A) : keeps_db m -> keeps_requests_fixed m.
Proof. intros K w. rewrite K. apply same_requests_refl. Qed.

Lemma fixed_bind A B (m : M A) (k : A -> M B) :
  keeps_requests_fixed m -> (forall a, keeps_requests_fixed (k a)) ->
  keeps_requests_fixed (bind m k).
Proof.
  intros Hm Hk w. unfold bind. specialize (Hm w).
  destruct (m w) as [[e | a] w1]; simpl in *.
  - exact Hm.
  - eapply same_requests_trans; [exact Hm | apply Hk].
Qed.

Lemma fixed_try_catch A (m : M A) (h : Exn -> M A) :
  keeps_requests_fixed m -> (forall e, keeps_requests_fixed (h e)) ->
  keeps_requests_fixed (try_catch m h).
Proof.
  intros Hm Hh w. unfold try_catch. specialize (Hm w).
  destruct (m w) as [[e | a] w1]; simpl in *.
  - eapply same_requests_trans; [exact Hm | apply Hh].
  - exact Hm.
Qed.

Lemma fixed_if A (b : bool) (m1 m2 : M A) :
  keeps_requests_fixed m1 -> keeps_requests_fixed m2 ->
  keeps_requests_fixed (if b then m1 else m2).
Proof. destruct b; auto. Qed.

Lemma fixed_hRRequest_update i st c :
  keeps_requests_fixed (Prisma.hRRequest_update i st c).
Proof.
  intros w. unfold Prisma.hRRequest_update, bind, getDB, putDB, ret, throw.
  cbv beta iota. destruct (find _ (hRRequests (db w))).
  - unfold same_requests. cbn [snd db Prisma.set_hRRequests hRRequests users
                                companies attendances].
    split; [| repeat split].
    induction (hRRequests (db w)) as [| x rest IH]; [reflexivity|].
    cbn [map]. rewrite IH. f_equal.
    destruct (String.eqb (HRRequest.id x) i); reflexivity.
  - apply same_requests_refl.
Qed.

Lemma fixed_requestApproval_create env data :
  keeps_requests_fixed (Prisma.requestApproval_create env data).
Proof.
  intros w. unfold Prisma.requestApproval_create, bind, freshId, now, getDB,
    putDB, ret, throw. simpl.
  destruct (Prisma.hasRequest (db w) (Prisma.a_requestId data)
            && Prisma.hasUser (db w) (Prisma.a_approverId data));
    repeat split.
Qed.

Lemma fixed_notification_create env data :
  keeps_requests_fixed (Prisma.notification_create env data).
Proof.
  intros w. unfold Prisma.notification_create, bind, freshId, now, getDB,
    putDB, ret, throw. simpl.
  destruct (Prisma.hasUser (db w) (Prisma.n_userId data)); repeat split.
Qed.

Lemma keeps_db_comments_update v : keeps_db (HRRequestRoute.comments_update v).
Proof. intros w. destruct v; reflexivity. Qed.

(** X16.  Whatever its arguments and its outcome, a status update changes
    nothing of a request but [status] and [comments], and neither adds,
    removes nor reorders requests: identity, author, assigned manager,
    tenant, type, title, description, priority, dates, documents and
    creation time of every request are as before, and so are the users,
    companies and attendance records. *)
Theorem updateStatus_keeps_requests_fixed rt env session body w :
  same_requests (db w) (db (snd (HRRequestRoute.PATCH rt env session body w))).
Proof.
  revert w. change (keeps_requests_fixed (HRRequestRoute.PATCH rt env session body)).
  unfold HRRequestRoute.PATCH, HRRequestRoute.PATCH_try.
  apply fixed_try_catch;
    [| intros; apply fixed_keeps_db; auto with keeps].
  destruct session as [user|]; [| apply fixed_keeps_db; auto with keeps].
  apply fixed_if; [apply fixed_keeps_db; auto with keeps|].
  apply fixed_bind; [apply fixed_keeps_db; auto with keeps | intros f].
  apply fixed_if; [apply fixed_keeps_db; auto with keeps|].
  apply fixed_bind; [apply fixed_keeps_db; auto with keeps | intros s].
  apply fixed_bind; [apply fixed_keeps_db; auto with keeps | intros rid].
  apply fixed_bind;
    [apply fixed_keeps_db; apply keeps_db_comments_update | intros c].
  apply fixed_bind; [apply fixed_hRRequest_update | intros r].
  apply fixed_bind; [apply fixed_keeps_db; auto with keeps | intros d].
  apply fixed_bind; [apply fixed_keeps_db; auto with keeps | intros c'].
  apply fixed_bind; [apply fixed_requestApproval_create | intros a].
  apply fixed_bind; [apply fixed_keeps_db; auto with keeps | intros z].
  apply fixed_bind; [apply fixed_notification_create | intros n].
  apply fixed_keeps_db; auto with keeps.
Qed.

(* ------------------------------------------------------------------ *)
(** ** Marking attendance: acceptance *)

Lemma attendance_create_accepted env data w :
  existsb (Prisma.sameDay (Prisma.t_employeeId data) (Prisma.t_date data))
          (attendances (db w)) = false ->
  Prisma.hasUser (db w) (Prisma.t_employeeId data) = true ->
  exists a w1, Prisma.attendance_create env data w = (Returned a, w1).
Proof.
  intros Hfree Hu.
  unfold Prisma.attendance_create, bind, freshId, now, getDB, putDB, ret.
  simpl. rewrite Hfree, Hu. eexists; eexists. reflexivity.
Qed.

(** X17.  Once a mark has passed the connector and the argument checks, and
    its principal is a stored user, it is accepted exactly when no
    Attendance row exists yet for that principal and that date value: the
    unique index is the only thing that can still refuse it. *)
Theorem mark_accepted_iff_key_free rt env user body w z wz data wd :
  truthy (fields_of body "date") = true ->
  ZenHR.markAttendance rt env
    (AttendanceRoute.attendanceData user (fields_of body)) w
  = (Returned z, wz) ->
  AttendanceRoute.create_data rt env user (fields_of body) wz
  = (Returned data, wd) ->
  Prisma.hasUser (db w) (SessionUser.id user) = true ->
  exists resp w',
    AttendanceRoute.POST rt env (Some user) body w = (Returned resp, w')
    /\ (status resp = 200
        <-> existsb (Prisma.sameDay (SessionUser.id user) (Prisma.t_date data))
                    (attendances (db w)) = false).
Proof.
  intros Htruthy Ez Ed Hu.
  assert (Hdbz : db wz = db w).
  { eapply keeps_db_returned; [apply keeps_db_markAttendance | exact Ez]. }
  pose proof (create_data_returned _ _ _ _ _ Ed) as (Hemp & _ & Hdbd & _).
  assert (Hprefix : forall o w',
             Prisma.attendance_create env data wd = (o, w') ->
             AttendanceRoute.POST_try rt env (Some user) body w
             = (match o with
                | Returned a =>
                    Returned {| status := 200;
                                payload_of :=
                                  Success (Some "Attendance marked successfully")
                                          (a, z) |}
                | Threw e => Threw e
                end, w')).
  { intros o w' Ea. unfold AttendanceRoute.POST_try.
    rewrite (@destructure_object body "date")
      by (intros K; rewrite K in Htruthy; discriminate).
    rewrite bind_ret, Htruthy. cbn [negb].
    erewrite bind_step by exact Ez.
    erewrite bind_step by exact Ed.
    destruct o as [e | a].
    - erewrite bind_threw by exact Ea. reflexivity.
    - erewrite bind_step by exact Ea. reflexivity. }
  destruct (existsb (Prisma.sameDay (SessionUser.id user) (Prisma.t_date data))
                    (attendances (db w))) eqn:Hkey.
  - destruct (@attendance_create_conflict env data wd) as (w2 & Ec & _).
    { rewrite Hemp, Hdbd, Hdbz. exact Hkey. }
    eexists; exists w2. split.
    + unfold AttendanceRoute.POST, try_catch. rewrite (Hprefix _ _ Ec).
      reflexivity.
    + simpl. split; discriminate.
  - destruct (@attendance_create_accepted env data wd) as (a & w2 & Ea).
    { rewrite Hemp, Hdbd, Hdbz. exact Hkey. }
    { rewrite Hemp, Hdbd, Hdbz. exact Hu. }
    eexists; exists w2. split.
    + unfold AttendanceRoute.POST, try_catch. rewrite (Hprefix _ _ Ea).
      reflexivity.
    + simpl. split; reflexivity.
Qed.

Lemma mark_accepted_iff_key_free_example :
  exists resp w',
    AttendanceRoute.POST Samples.runtime Samples.offline
      (Some (principal_of Samples.E)) Samples.mark Samples.start
    = (Returned resp, w')
    /\ (status resp = 200
        <-> existsb (Prisma.sameDay (SessionUser.id (principal_of Samples.E))
                                    1707955200000%Z)
                    (attendances (db Samples.start)) = false).
Proof.
  eapply (@mark_accepted_iff_key_free Samples.runtime Samples.offline
            (principal_of Samples.E) Samples.mark Samples.start _ _
            {| Prisma.t_employeeId := "E";
               Prisma.t_date := 1707955200000%Z;
               Prisma.t_checkIn := Some 1707990000002%Z;
               Prisma.t_checkOut := None;
               Prisma.t_status := "PRESENT";
               Prisma.t_notes := None;
               Prisma.t_location := None |}).
  - reflexivity.
  - vm_compute. reflexivity.
  - vm_compute. reflexivity.
  - reflexivity.
Defined.

(** X18.  A mark is all-or-nothing on the local side: unless the handler
    answers 200 the database is the one it started from, whether the call
    was refused for a missing date, by the connector, by an argument check
    or by a constraint of the store. *)
Theorem mark_refused_writes_nothing rt env user body w resp w' :
  AttendanceRoute.POST rt env (Some user) body w = (Returned resp, w') ->
  status resp <> 200 ->
  db w' = db w.
Proof. apply attendance_POST_refused. Qed.

(** E marks attendance while the provider is unreachable. *)
Lemma mark_refused_writes_nothing_example :
  db (snd (AttendanceRoute.POST Samples.runtime Samples.unreachable
             (Some (principal_of Samples.E)) Samples.mark Samples.start))
  = db Samples.start.
Proof.
  eapply (@mark_refused_writes_nothing Samples.runtime Samples.unreachable
            (principal_of Samples.E) Samples.mark Samples.start).
  - vm_compute. reflexivity.
  - vm_compute. discriminate.
Defined.

(** E marks 2024-02-15 and then marks it again with a check-in time, while
    the provider has become unreachable. *)
Lemma second_mark_never_accepted_example :
  exists r2 w2,
    AttendanceRoute.POST Samples.runtime Samples.flaky
      (Some (principal_of Samples.E)) Samples.mark Samples.marked_once_flaky
    = (Returned r2, w2)
    /\ status r2 <> 200
    /\ db w2 = db Samples.marked_once_flaky.
Proof.
  eapply (@second_mark_never_accepted Samples.runtime Samples.flaky
            (principal_of Samples.E) Samples.mark Samples.mark Samples.start).
  - vm_compute. reflexivity.
  - reflexivity.
  - reflexivity.
Defined.

(* ------------------------------------------------------------------ *)
(** ** Listing attendance *)

Lemma insert_date_desc_perm a l :
  Permutation (Prisma.insert_date_desc a l) (a :: l).
Proof.
  induction l as [| x rest IH]; simpl.
  - apply Permutation_refl.
  - destruct (Z.leb (Attendance.date x) (Attendance.date a)).
    + apply Permutation_refl.
    + eapply Permutation_trans; [apply perm_skip; exact IH | apply perm_swap].
Qed.

Lemma orderBy_date_perm l : Permutation (Prisma.orderBy_date_desc l) l.
Proof.
  unfold Prisma.orderBy_date_desc.
  induction l as [| x rest IH]; simpl.
  - apply Permutation_refl.
  - eapply Permutation_trans;
      [apply insert_date_desc_perm | apply perm_skip; exact IH].
Qed.

Lemma insert_date_desc_sorted a l :
  Sorted (fun x y => (Attendance.date y <= Attendance.date x)%Z) l ->
  Sorted (fun x y => (Attendance.date y <= Attendance.date x)%Z)
         (Prisma.insert_date_desc a l).
Proof.
  induction l as [| x rest IH]; simpl; intros S.
  - constructor; constructor.
  - destruct (Z.leb (Attendance.date x) (Attendance.date a)) eqn:C.
    + constructor; [exact S|]. constructor. apply Z.leb_le. exact C.
    + apply Z.leb_gt in C. inversion S as [| ? ? S' Hd]; subst.
      constructor; [apply IH; exact S'|].
      destruct rest as [| y rest']; simpl.
      * constructor. lia.
      * destruct (Z.leb (Attendance.date y) (Attendance.date a)).
        -- constructor. lia.
        -- inversion Hd; subst. constructor. assumption.
Qed.

Lemma orderBy_date_sorted l :
  Sorted (fun x y => (Attendance.date y <= Attendance.date x)%Z)
         (Prisma.orderBy_date_desc l).
Proof.
  unfold Prisma.orderBy_date_desc.
  induction l as [| x rest IH]; simpl.
  - constructor.
  - apply insert_date_desc_sorted. exact IH.
Qed.

Lemma map_record_views d l :
  map Prisma.record
      (map (fun a => {| Prisma.record := a;
                        Prisma.record_employee :=
                          Prisma.findUser d (Attendance.employeeId a) |}) l)
  = l.
Proof.
  induction l as [| x rest IH]; simpl; [reflexivity | rewrite IH; reflexivity].
Qed.

(** What a listing of attendance answers once its date filter is
    settled. *)
Lemma attendance_GET_answer rt user startDate endDate employeeId w range :
  AttendanceRoute.date_filter rt startDate endDate = ret range ->
  exists views,
    AttendanceRoute.GET rt (Some user) startDate endDate employeeId w
    = (Returned {| status := 200; payload_of := Success None views |}, w)
    /\ map Prisma.record views
       = Prisma.orderBy_date_desc
           (filter (Prisma.attendance_matches
                      (AttendanceRoute.targetEmployeeId user employeeId) range)
                   (attendances (db w))).
Proof.
  intros Hrange. eexists. split.
  - unfold AttendanceRoute.GET, try_catch, AttendanceRoute.GET_try.
    rewrite Hrange, bind_ret.
    unfold Prisma.attendance_findMany, bind, getDB, respond, ret.
    reflexivity.
  - apply map_record_views.
Qed.

Lemma date_filter_both rt s e gte lte :
  s <> "" -> e <> "" ->
  newDate rt (JStr s) = Some gte -> newDate rt (JStr e) = Some lte ->
  AttendanceRoute.date_filter rt (Some s) (Some e) = ret (Some (gte, lte)).
Proof.
  intros Hs He Hg Hl. unfold AttendanceRoute.date_filter, given.
  apply String.eqb_neq in Hs. apply String.eqb_neq in He.
  rewrite Hs, He, Hg, Hl. reflexivity.
Qed.

Lemma date_filter_partial rt startDate endDate :
  given startDate = None \/ given endDate = None ->
  AttendanceRoute.date_filter rt startDate endDate = ret None.
Proof.
  unfold AttendanceRoute.date_filter.
  intros [-> | ->]; [reflexivity|]. destruct (given startDate); reflexivity.
Qed.

(** X19.  With both bounds given and valid, the listing returns exactly the
    target employee's records whose date lies between them, both ends
    included, latest date first. *)
Theorem attendance_list_range_inclusive
        rt user s e employeeId w gte lte :
  s <> "" -> e <> "" ->
  newDate rt (JStr s) = Some gte ->
  newDate rt (JStr e) = Some lte ->
  exists views,
    AttendanceRoute.GET rt (Some user) (Some s) (Some e) employeeId w
    = (Returned {| status := 200; payload_of := Success None views |}, w)
    /\ Permutation (map Prisma.record views)
         (filter (fun a =>
                    String.eqb (Attendance.employeeId a)
                      (AttendanceRoute.targetEmployeeId user employeeId)
                    && (Z.leb gte (Attendance.date a)
                        && Z.leb (Attendance.date a) lte))
                 (attendances (db w)))
    /\ Sorted (fun x y => (Attendance.date y <= Attendance.date x)%Z)
              (map Prisma.record views)
    /\ Forall (fun a => (gte <= Attendance.date a <= lte)%Z)
              (map Prisma.record views).
Proof.
  intros Hs He Hg Hl.
  destruct (@attendance_GET_answer rt user (Some s) (Some e) employeeId w
              (Some (gte, lte)) (@date_filter_both _ _ _ _ _ Hs He Hg Hl))
    as (views & E & Hrows).
  exists views. split; [exact E|]. rewrite Hrows.
  split; [apply orderBy_date_perm|].
  split; [apply orderBy_date_sorted|].
  apply Forall_forall. intros a Hin.
  eapply Permutation_in in Hin; [| apply orderBy_date_perm].
  apply filter_In in Hin. destruct Hin as [_ Hm].
  unfold Prisma.attendance_matches in Hm.
  apply andb_true_iff in Hm. destruct Hm as [_ Hm].
  apply andb_true_iff in Hm. destruct Hm as [H1 H2].
  apply Z.leb_le in H1. apply Z.leb_le in H2. lia.
Qed.

(** X20.  The date filter needs both bounds: when [startDate] or [endDate]
    is absent or empty the other one is ignored, and the listing returns
    every record of the target employee. *)
Theorem attendance_list_half_range_ignored
        rt user startDate endDate employeeId w :
  given startDate = None \/ given endDate = None ->
  exists views,
    AttendanceRoute.GET rt (Some user) startDate endDate employeeId w
    = (Returned {| status := 200; payload_of := Success None views |}, w)
    /\ Permutation (map Prisma.record views)
         (filter (fun a =>
                    String.eqb (Attendance.employeeId a)
                      (AttendanceRoute.targetEmployeeId user employeeId))
                 (attendances (db w))).
Proof.
  intros Hpartial.
  destruct (@attendance_GET_answer rt user startDate endDate employeeId w
              None (@date_filter_partial rt _ _ Hpartial))
    as (views & E & Hrows).
  exists views. split; [exact E|]. rewrite Hrows.
  eapply Permutation_trans; [apply orderBy_date_perm|].
  erewrite filter_ext; [apply Permutation_refl|].
  intros a. unfold Prisma.attendance_matches. apply andb_true_r.
Qed.

(** X21.  A bound that does not parse as a date makes the listing fail:
    when both bounds are given and one of them is an Invalid Date the
    handler answers 500 and returns no records. *)
Theorem attendance_list_invalid_bound rt user s e employeeId w :
  s <> "" -> e <> "" ->
  newDate rt (JStr s) = None \/ newDate rt (JStr e) = None ->
  AttendanceRoute.GET rt (Some user) (Some s) (Some e) employeeId w
  = (Returned {| status := 500;
                 payload_of := Failure "Failed to fetch attendance records" |},
     w).
Proof.
  intros Hs He Hbad.
  unfold AttendanceRoute.GET, try_catch, AttendanceRoute.GET_try,
    AttendanceRoute.date_filter, given.
  apply String.eqb_neq in Hs. apply String.eqb_neq in He.
  rewrite Hs, He.
  destruct Hbad as [Hbad | Hbad].
  - rewrite Hbad. reflexivity.
  - rewrite Hbad. destruct (newDate rt (JStr s)); reflexivity.
Qed.

(** X22.  Whose records are listed: a principal who is neither MANAGER nor
    ADMIN always gets their own, whatever [employeeId] they pass; a MANAGER
    or ADMIN who names an employee gets that employee's, with no check of
    the employee's company. *)
Theorem attendance_list_target
        rt user startDate endDate employeeId w msg views w' :
  AttendanceRoute.GET rt (Some user) startDate endDate employeeId w
  = (Returned {| status := 200; payload_of := Success msg views |}, w') ->
  (SessionUser.role user <> "MANAGER" ->
   SessionUser.role user <> "ADMIN" ->
   Forall (fun a => Attendance.employeeId a = SessionUser.id user)
          (map Prisma.record views))
  /\ (forall e,
         SessionUser.role user = "MANAGER"
         \/ SessionUser.role user = "ADMIN" ->
         employeeId = Some e -> e <> "" ->
         Forall (fun a => Attendance.employeeId a = e)
                (map Prisma.record views)).
Proof.
  intros H.
  assert (Hown : Forall (fun a => Attendance.employeeId a
                                  = AttendanceRoute.targetEmployeeId
                                      user employeeId)
                        (map Prisma.record views)).
  { unfold AttendanceRoute.GET, try_catch, AttendanceRoute.GET_try in H.
    destruct (AttendanceRoute.date_filter rt startDate endDate w)
      as [[ex | range] wr] eqn:Er.
    - erewrite bind_threw in H by exact Er.
      unfold respond, ret in H. inversion H.
    - erewrite bind_step in H by exact Er.
      unfold Prisma.attendance_findMany, bind, getDB, respond, ret in H.
      inversion H.
      rewrite map_record_views. apply Forall_forall. intros a Hin.
      eapply Permutation_in in Hin; [| apply orderBy_date_perm].
      apply filter_In in Hin. destruct Hin as [_ Hm].
      unfold Prisma.attendance_matches in Hm.
      apply andb_true_iff in Hm. destruct Hm as [Hm _].
      apply String.eqb_eq in Hm. exact Hm. }
  split.
  - intros Hm Ha. unfold AttendanceRoute.targetEmployeeId in Hown.
    apply String.eqb_neq in Hm. apply String.eqb_neq in Ha.
    rewrite Hm, Ha in Hown. simpl in Hown.
    destruct (given employeeId); exact Hown.
  - intros e Hrole -> Hne. unfold AttendanceRoute.targetEmployeeId in Hown.
    unfold given in Hown. apply String.eqb_neq in Hne. rewrite Hne in Hown.
    destruct Hrole as [Hr | Hr]; rewrite Hr in Hown; exact Hown.
Qed.

Lemma attendance_list_range_inclusive_example :
  exists views,
    AttendanceRoute.GET Samples.runtime (Some (principal_of Samples.E))
      (Some "2024-02-15") (Some "2024-02-15T09:00:00") None
      Samples.two_tenants
    = (Returned {| status := 200; payload_of := Success None views |},
       Samples.two_tenants)
    /\ Permutation (map Prisma.record views)
         (filter (fun a =>
                    String.eqb (Attendance.employeeId a)
                      (AttendanceRoute.targetEmployeeId
                         (principal_of Samples.E) None)
                    && (Z.leb 1707955200000 (Attendance.date a)
                        && Z.leb (Attendance.date a) 1707987600000))
                 (attendances (db Samples.two_tenants)))
    /\ Sorted (fun x y => (Attendance.date y <= Attendance.date x)%Z)
              (map Prisma.record views)
    /\ Forall (fun a => (1707955200000 <= Attendance.date a
                         <= 1707987600000)%Z)
              (map Prisma.record views).
Proof.
  apply (@attendance_list_range_inclusive Samples.runtime
           (principal_of Samples.E) "2024-02-15" "2024-02-15T09:00:00" None
           Samples.two_tenants 1707955200000%Z 1707987600000%Z).
  - discriminate.
  - discriminate.
  - reflexivity.
  - reflexivity.
Defined.

Lemma attendance_list_half_range_ignored_example :
  exists views,
    AttendanceRoute.GET Samples.runtime (Some (principal_of Samples.E))
      (Some "2024-02-15T09:00:00") None None Samples.two_tenants
    = (Returned {| status := 200; payload_of := Success None views |},
       Samples.two_tenants)
    /\ Permutation (map Prisma.record views)
         (filter (fun a =>
                    String.eqb (Attendance.employeeId a)
                      (AttendanceRoute.targetEmployeeId
                         (principal_of Samples.E) None))
                 (attendances (db Samples.two_tenants))).
Proof.
  apply (@attendance_list_half_range_ignored Samples.runtime
           (principal_of Samples.E) (Some "2024-02-15T09:00:00") None None
           Samples.two_tenants).
  right. reflexivity.
Defined.

Lemma attendance_list_invalid_bound_example :
  AttendanceRoute.GET Samples.runtime (Some (principal_of Samples.E))
    (Some "2024-02-15") (Some "tomorrow") None Samples.two_tenants
  = (Returned {| status := 500;
                 payload_of := Failure "Failed to fetch attendance records" |},
     Samples.two_tenants).
Proof.
  apply (@attendance_list_invalid_bound Samples.runtime
           (principal_of Samples.E) "2024-02-15" "tomorrow" None
           Samples.two_tenants).
  - discriminate.
  - discriminate.
  - right. reflexivity.
Defined.

(** E asks for M's records and gets their own. *)
Lemma attendance_list_target_example :
  (SessionUser.role (principal_of Samples.E) <> "MANAGER" ->
   SessionUser.role (principal_of Samples.E) <> "ADMIN" ->
   Forall (fun a => Attendance.employeeId a
                    = SessionUser.id (principal_of Samples.E))
          (map Prisma.record
             (map (fun a => {| Prisma.record := a;
                               Prisma.record_employee := Some Samples.E |})
                  [Samples.attended "a4" "E" 1707987600001;
                   Samples.attended "a2" "E" 1707987600000;
                   Samples.attended "a1" "E" 1707955200000])))
  /\ (forall e,
         SessionUser.role (principal_of Samples.E) = "MANAGER"
         \/ SessionUser.role (principal_of Samples.E) = "ADMIN" ->
         Some "M" = Some e -> e <> "" ->
         Forall (fun a => Attendance.employeeId a = e)
                (map Prisma.record
                   (map (fun a => {| Prisma.record := a;
                                     Prisma.record_employee :=
                                       Some Samples.E |})
                        [Samples.attended "a4" "E" 1707987600001;
                         Samples.attended "a2" "E" 1707987600000;
                         Samples.attended "a1" "E" 1707955200000]))).
Proof.
  apply (@attendance_list_target Samples.runtime (principal_of Samples.E)
           None None (Some "M") Samples.two_tenants None _
           Samples.two_tenants).
  vm_compute. reflexivity.
Defined.

Example attendance_listing_scenario :
  let ids session startDate endDate employeeId :=
    match fst (AttendanceRoute.GET Samples.runtime (Some session)
                 startDate endDate employeeId Samples.two_tenants) with
    | Returned {| status := 200; payload_of := Success None views |} =>
        map (fun v => Attendance.id (Prisma.record v)) views
    | _ => []
    end in
  ids (principal_of Samples.E) (Some "2024-02-15")
      (Some "2024-02-15T09:00:00") None = ["a2"; "a1"]
  /\ ids (principal_of Samples.E) (Some "2024-02-15") None None
     = ["a4"; "a2"; "a1"]
  /\ ids (principal_of Samples.E) None None (Some "M") = ["a4"; "a2"; "a1"]
  /\ ids (principal_of Samples.M2) None None (Some "E") = ["a4"; "a2"; "a1"]
  /\ ids (principal_of Samples.M1) None None None = ["a3"].
Proof. vm_compute. repeat split. Qed.

(* ------------------------------------------------------------------ *)
(** ** The placeholders of the connector *)

Lemma lookup_obj_set_same k v fs : lookup k (obj_set k v fs) = v.
Proof.
  induction fs as [| [k' v'] rest IH]; simpl.
  - rewrite String.eqb_refl. reflexivity.
  - destruct (String.eqb k k') eqn:E; simpl.
    + rewrite String.eqb_refl. reflexivity.
    + rewrite E. exact IH.
Qed.

Lemma lookup_obj_set_other k k' v fs :
  k <> k' -> lookup k (obj_set k' v fs) = lookup k fs.
Proof.
  intros Hne. apply String.eqb_neq in Hne.
  induction fs as [| [k0 v0] rest IH]; simpl.
  - rewrite Hne. reflexivity.
  - destruct (String.eqb k' k0) eqn:E; simpl.
    + apply String.eqb_eq in E. subst k0. rewrite Hne. reflexivity.
    + destruct (String.eqb k k0); [reflexivity | exact IH].
Qed.

(** X23.  Without a credential, what [submitHRRequest] and
    [markAttendance] return echoes the caller's record: every field of the
    argument is found unchanged under [data], except that a fresh [id]
    (made from the time of the call) and a timestamp are set, and that a
    request comes back with [status] "pending" whatever status the
    argument carried.  An attendance record keeps its own [status]. *)
Theorem offline_placeholders_echo_input rt env w fs :
  apiKey (zenhrAPI env) = "" ->
  (exists data,
      fst (ZenHR.submitHRRequest rt env (JObj fs) w)
      = Returned (JObj [("success", JBool true);
                        ("message", JStr "HR request submitted successfully");
                        ("data", JObj data)])
      /\ lookup "id" data = JStr ("req_" ++ decimal (clock env (ticks w)))
      /\ lookup "status" data = JStr "pending"
      /\ lookup "createdAt" data
         = JStr (toISOString rt (clock env (S (ticks w))))
      /\ forall k, k <> "id" -> k <> "status" -> k <> "createdAt" ->
                   lookup k data = lookup k fs)
  /\ (exists data,
         fst (ZenHR.markAttendance rt env (JObj fs) w)
         = Returned (JObj [("success", JBool true);
                           ("message", JStr "Attendance marked successfully");
                           ("data", JObj data)])
         /\ lookup "id" data = JStr ("att_" ++ decimal (clock env (ticks w)))
         /\ lookup "timestamp" data
            = JStr (toISOString rt (clock env (S (ticks w))))
         /\ forall k, k <> "id" -> k <> "timestamp" ->
                      lookup k data = lookup k fs).
Proof.
  intros Hkey. apply noApiKey_true in Hkey.
  unfold ZenHR.submitHRRequest, ZenHR.markAttendance. rewrite Hkey.
  unfold ZenHR.mockHRRequestResponse, ZenHR.mockAttendanceResponse,
    try_catch, bind, now, ret.
  cbn [fst snd ticks spread].
  split.
  - eexists. split; [reflexivity|].
    split.
    { rewrite lookup_obj_set_other by discriminate.
      rewrite lookup_obj_set_other by discriminate.
      apply lookup_obj_set_same. }
    split.
    { rewrite lookup_obj_set_other by discriminate.
      apply lookup_obj_set_same. }
    split; [apply lookup_obj_set_same|].
    intros k H1 H2 H3. rewrite !lookup_obj_set_other by assumption.
    reflexivity.
  - eexists. split; [reflexivity|].
    split.
    { rewrite lookup_obj_set_other by discriminate.
      apply lookup_obj_set_same. }
    split; [apply lookup_obj_set_same|].
    intros k H1 H2. rewrite !lookup_obj_set_other by assumption.
    reflexivity.
Qed.

Lemma offline_placeholders_echo_input_example :
  (exists data,
      fst (ZenHR.submitHRRequest Samples.runtime Samples.offline
             (JObj [("title", JStr "Annual Leave");
                    ("status", JStr "approved")])
             Samples.start)
      = Returned (JObj [("success", JBool true);
                        ("message", JStr "HR request submitted successfully");
                        ("data", JObj data)])
      /\ lookup "id" data
         = JStr ("req_" ++ decimal (clock Samples.offline
                                           (ticks Samples.start)))
      /\ lookup "status" data = JStr "pending"
      /\ lookup "createdAt" data
         = JStr (toISOString Samples.runtime
                   (clock Samples.offline (S (ticks Samples.start))))
      /\ forall k, k <> "id" -> k <> "status" -> k <> "createdAt" ->
                   lookup k data
                   = lookup k [("title", JStr "Annual Leave");
                               ("status", JStr "approved")])
  /\ (exists data,
         fst (ZenHR.markAttendance Samples.runtime Samples.offline
                (JObj [("title", JStr "Annual Leave");
                       ("status", JStr "approved")])
                Samples.start)
         = Returned (JObj [("success", JBool true);
                           ("message", JStr "Attendance marked successfully");
                           ("data", JObj data)])
         /\ lookup "id" data
            = JStr ("att_" ++ decimal (clock Samples.offline
                                              (ticks Samples.start)))
         /\ lookup "timestamp" data
            = JStr (toISOString Samples.runtime
                      (clock Samples.offline (S (ticks Samples.start))))
         /\ forall k, k <> "id" -> k <> "timestamp" ->
                      lookup k data
                      = lookup k [("title", JStr "Annual Leave");
                                  ("status", JStr "approved")]).
Proof.
  apply (@offline_placeholders_echo_input Samples.runtime Samples.offline
           Samples.start
           [("title", JStr "Annual Leave"); ("status", JStr "approved")]).
  reflexivity.
Defined.

(* ------------------------------------------------------------------ *)
(** ** Signing in *)

Lemma given_some o s : given o = Some s -> o = Some s /\ s <> "".
Proof.
  unfold given. destruct o as [t|]; [|discriminate].
  destruct (String.eqb t "") eqn:E; [discriminate|].
  intros H. inversion H. subst. split; [reflexivity|].
  apply String.eqb_neq. exact E.
Qed.

(** X24.  [authorize] yields a principal only for a stored user whose email
    is the one given, who has a password, and whose password hash the
    comparison accepts for the password given; it reads the database and
    leaves the world as it found it.  The session that the [jwt] and
    [session] callbacks then build carries that user's role, and the user's
    company and employee identifiers with the empty string in place of
    null: the fields of [principal_of]. *)
Theorem login_session_matches_stored_user
        password compare credentials w au w' token :
  AuthRoute.authorize password compare credentials w
  = (Returned (Some au), w') ->
  w' = w
  /\ exists c mail pass u hash,
      credentials = Some c
      /\ AuthRoute.cred_email c = Some mail
      /\ AuthRoute.cred_password c = Some pass
      /\ In u (users (db w))
      /\ User.email u = mail
      /\ password u = Some hash
      /\ compare pass hash = true
      /\ AuthRoute.id au = User.id u
      /\ AuthRoute.s_role (AuthRoute.session (AuthRoute.jwt token (Some au)))
         = Some (SessionUser.role (principal_of u))
      /\ AuthRoute.s_companyId
           (AuthRoute.session (AuthRoute.jwt token (Some au)))
         = Some (SessionUser.companyId (principal_of u))
      /\ AuthRoute.s_employeeId
           (AuthRoute.session (AuthRoute.jwt token (Some au)))
         = Some (SessionUser.employeeId (principal_of u))
      /\ AuthRoute.s_id (AuthRoute.session (AuthRoute.jwt token (Some au)))
         = AuthRoute.sub token.
Proof.
  unfold AuthRoute.authorize. intros H.
  destruct credentials as [c|]; [| unfold ret in H; inversion H].
  destruct (given (AuthRoute.cred_email c)) as [mail|] eqn:Gm;
    [| unfold ret in H; inversion H].
  destruct (given (AuthRoute.cred_password c)) as [pass|] eqn:Gp;
    [| unfold ret in H; inversion H].
  apply given_some in Gm. destruct Gm as [Gm _].
  apply given_some in Gp. destruct Gp as [Gp _].
  unfold try_catch, bind, getDB, ret in H.
  destruct (find (fun u => String.eqb (User.email u) mail) (users (db w)))
    as [u|] eqn:F; [| inversion H].
  destruct (given (password u)) as [hash|] eqn:Gh; [| inversion H].
  apply given_some in Gh. destruct Gh as [Gh _].
  destruct (compare pass hash) eqn:C; [| inversion H].
  inversion H; subst au w'; clear H.
  apply find_some in F. destruct F as [Hin He]. apply String.eqb_eq in He.
  split; [reflexivity|].
  exists c, mail, pass, u, hash. simpl.
  repeat (split; [first [reflexivity | assumption]|]).
  reflexivity.
Qed.

(** E signs in with the right password. *)
Lemma login_session_matches_stored_user_example :
  snd (AuthRoute.authorize Samples.hashes Samples.bracketed
         (Some {| AuthRoute.cred_email := Some "E@company.com";
                  AuthRoute.cred_password := Some "secret" |})
         Samples.start)
  = Samples.start
  /\ exists c mail pass u hash,
      Some {| AuthRoute.cred_email := Some "E@company.com";
              AuthRoute.cred_password := Some "secret" |} = Some c
      /\ AuthRoute.cred_email c = Some mail
      /\ AuthRoute.cred_password c = Some pass
      /\ In u (users (db Samples.start))
      /\ User.email u = mail
      /\ Samples.hashes u = Some hash
      /\ Samples.bracketed pass hash = true
      /\ AuthRoute.id
           {| AuthRoute.id := "E"; AuthRoute.email := "E@company.com";
              AuthRoute.name := Some "E"; AuthRoute.role := "EMPLOYEE";
              AuthRoute.companyId := "T"; AuthRoute.employeeId := "emp-E";
              AuthRoute.department := ""; AuthRoute.position := "";
              AuthRoute.company := "Tenant T" |}
         = User.id u
      /\ AuthRoute.s_role
           (AuthRoute.session
              (AuthRoute.jwt
                 {| AuthRoute.sub := Some "E"; AuthRoute.t_role := None;
                    AuthRoute.t_companyId := None;
                    AuthRoute.t_employeeId := None;
                    AuthRoute.t_department := None;
                    AuthRoute.t_position := None;
                    AuthRoute.t_company := None |}
                 (Some {| AuthRoute.id := "E";
                          AuthRoute.email := "E@company.com";
                          AuthRoute.name := Some "E";
                          AuthRoute.role := "EMPLOYEE";
                          AuthRoute.companyId := "T";
                          AuthRoute.employeeId := "emp-E";
                          AuthRoute.department := "";
                          AuthRoute.position := "";
                          AuthRoute.company := "Tenant T" |})))
         = Some (SessionUser.role (principal_of u))
      /\ AuthRoute.s_companyId
           (AuthRoute.session
              (AuthRoute.jwt
                 {| AuthRoute.sub := Some "E"; AuthRoute.t_role := None;
                    AuthRoute.t_companyId := None;
                    AuthRoute.t_employeeId := None;
                    AuthRoute.t_department := None;
                    AuthRoute.t_position := None;
                    AuthRoute.t_company := None |}
                 (Some {| AuthRoute.id := "E";
                          AuthRoute.email := "E@company.com";
                          AuthRoute.name := Some "E";
                          AuthRoute.role := "EMPLOYEE";
                          AuthRoute.companyId := "T";
                          AuthRoute.employeeId := "emp-E";
                          AuthRoute.department := "";
                          AuthRoute.position := "";
                          AuthRoute.company := "Tenant T" |})))
         = Some (SessionUser.companyId (principal_of u))
      /\ AuthRoute.s_employeeId
           (AuthRoute.session
              (AuthRoute.jwt
                 {| AuthRoute.sub := Some "E"; AuthRoute.t_role := None;
                    AuthRoute.t_companyId := None;
                    AuthRoute.t_employeeId := None;
                    AuthRoute.t_department := None;
                    AuthRoute.t_position := None;
                    AuthRoute.t_company := None |}
                 (Some {| AuthRoute.id := "E";
                          AuthRoute.email := "E@company.com";
                          AuthRoute.name := Some "E";
                          AuthRoute.role := "EMPLOYEE";
                          AuthRoute.companyId := "T";
                          AuthRoute.employeeId := "emp-E";
                          AuthRoute.department := "";
                          AuthRoute.position := "";
                          AuthRoute.company := "Tenant T" |})))
         = Some (SessionUser.employeeId (principal_of u))
      /\ AuthRoute.s_id
           (AuthRoute.session
              (AuthRoute.jwt
                 {| AuthRoute.sub := Some "E"; AuthRoute.t_role := None;
                    AuthRoute.t_companyId := None;
                    AuthRoute.t_employeeId := None;
                    AuthRoute.t_department := None;
                    AuthRoute.t_position := None;
                    AuthRoute.t_company := None |}
                 (Some {| AuthRoute.id := "E";
                          AuthRoute.email := "E@company.com";
                          AuthRoute.name := Some "E";
                          AuthRoute.role := "EMPLOYEE";
                          AuthRoute.companyId := "T";
                          AuthRoute.employeeId := "emp-E";
                          AuthRoute.department := "";
                          AuthRoute.position := "";
                          AuthRoute.company := "Tenant T" |})))
         = AuthRoute.sub
             {| AuthRoute.sub := Some "E"; AuthRoute.t_role := None;
                AuthRoute.t_companyId := None;
                AuthRoute.t_employeeId := None;
                AuthRoute.t_department := None;
                AuthRoute.t_position := None;
                AuthRoute.t_company := None |}.
Proof.
  apply (@login_session_matches_stored_user Samples.hashes Samples.bracketed
           (Some {| AuthRoute.cred_email := Some "E@company.com";
                    AuthRoute.cred_password := Some "secret" |})
           Samples.start).
  vm_compute. reflexivity.
Defined.

(** X25.  [authorize] turns away, without throwing and without changing
    anything, every attempt in which the email or the password is missing
    or empty, no stored user has the email, the user has no password, or
    the comparison rejects the password. *)
Theorem authorize_rejects password compare credentials w :
  (credentials = None
   \/ (exists c, credentials = Some c
                 /\ (given (AuthRoute.cred_email c) = None
                     \/ given (AuthRoute.cred_password c) = None))
   \/ (exists c mail pass,
          credentials = Some c
          /\ given (AuthRoute.cred_email c) = Some mail
          /\ given (AuthRoute.cred_password c) = Some pass
          /\ forall u hash,
               In u (users (db w)) -> User.email u = mail ->
               password u = Some hash -> hash <> "" ->
               compare pass hash = false)) ->
  AuthRoute.authorize password compare credentials w = (Returned None, w).
Proof.
  unfold AuthRoute.authorize.
  intros [-> | [(c & -> & Hmiss) | (c & mail & pass & -> & Gm & Gp & Hno)]].
  - reflexivity.
  - destruct Hmiss as [-> | Hp]; [reflexivity|].
    rewrite Hp. destruct (given (AuthRoute.cred_email c)); reflexivity.
  - rewrite Gm, Gp. unfold try_catch, bind, getDB, ret.
    destruct (find (fun u => String.eqb (User.email u) mail) (users (db w)))
      as [u|] eqn:F; [| reflexivity].
    apply find_some in F. destruct F as [Hin He]. apply String.eqb_eq in He.
    destruct (given (password u)) as [hash|] eqn:Gh; [| reflexivity].
    apply given_some in Gh. destruct Gh as [Gh Hne].
    rewrite (Hno u hash Hin He Gh Hne). reflexivity.
Qed.

(** E signs in with a wrong password. *)
Lemma authorize_rejects_example :
  AuthRoute.authorize Samples.hashes Samples.bracketed
    (Some {| AuthRoute.cred_email := Some "E@company.com";
             AuthRoute.cred_password := Some "guess" |})
    Samples.start
  = (Returned None, Samples.start).
Proof.
  apply (@authorize_rejects Samples.hashes Samples.bracketed).
  right. right.
  exists {| AuthRoute.cred_email := Some "E@company.com";
            AuthRoute.cred_password := Some "guess" |},
         "E@company.com", "guess".
  split; [reflexivity|]. split; [reflexivity|]. split; [reflexivity|].
  intros u hash Hin He Hh _.
  destruct Hin as [<- | [<- | [<- | []]]]; try discriminate He.
  vm_compute in Hh. inversion Hh. reflexivity.
Defined.

(* ------------------------------------------------------------------ *)
(** ** Marking attendance: what an accepted mark stores *)

Lemma create_data_details rt env user f w data w1 :
  AttendanceRoute.create_data rt env user f w = (Returned data, w1) ->
  js_or (f "status") (JStr "PRESENT") = JStr (Prisma.t_status data)
  /\ (truthy (f "checkIn") = true ->
      AttendanceRoute.at_time rt (f "date") (f "checkIn")
      = Prisma.t_checkIn data)
  /\ (truthy (f "checkOut") = true ->
      AttendanceRoute.at_time rt (f "date") (f "checkOut")
      = Prisma.t_checkOut data
      /\ Prisma.t_checkOut data <> None).
Proof.
  unfold AttendanceRoute.create_data. intros H.
  invert_bind H checkIn wc Ec.
  assert (Hc : truthy (f "checkIn") = true ->
               checkIn = AttendanceRoute.at_time rt (f "date") (f "checkIn")).
  { intros T. rewrite T in Ec. unfold ret in Ec. inversion Ec. reflexivity. }
  clear Ec.
  invert_bind H date w2 E. apply validDate_returned in E.
  destruct E as [Hdate ->].
  invert_bind H checkIn' w2 E. apply validDate_returned in E.
  destruct E as [Hci ->].
  invert_bind H checkOut' w2 E.
  assert (Hco : truthy (f "checkOut") = true ->
                AttendanceRoute.at_time rt (f "date") (f "checkOut")
                = checkOut' /\ checkOut' <> None).
  { intros T. rewrite T in E. simpl in E.
    destruct (AttendanceRoute.at_time rt (f "date") (f "checkOut")) as [t|];
      unfold bind, ret, throw, Prisma.validDate in E; inversion E.
    split; [reflexivity | discriminate]. }
  clear E.
  invert_bind H status_ w3 E. apply requiredString_returned in E.
  destruct E as [Hst _].
  invert_bind H notes w4 E. clear E.
  invert_bind H location w5 E. clear E.
  unfold ret in H. inversion H; subst data. clear H. simpl.
  split; [exact Hst|]. split.
  - intros T. rewrite <- (Hc T). exact Hci.
  - exact Hco.
Qed.

Lemma attendance_create_texts env data w a w1 :
  Prisma.attendance_create env data w = (Returned a, w1) ->
  Attendance.status a = Prisma.t_status data
  /\ Attendance.notes a = Prisma.t_notes data
  /\ Attendance.location a = Prisma.t_location data.
Proof.
  unfold Prisma.attendance_create, bind, freshId, now, getDB, putDB, ret,
    throw. simpl.
  destruct (existsb _ (attendances (db w))); [intros H; inversion H|].
  destruct (Prisma.hasUser (db w) (Prisma.t_employeeId data));
    intros H; inversion H; subst; simpl; repeat split.
Qed.

(** X26.  An accepted mark stores exactly one new Attendance row: under the
    principal's user id, for the date value of [date], with status
    PRESENT unless a status was given, with the check-in and check-out
    times read on that date when they were given.  The connector was
    called first, with the principal's employee identifier and the status
    (lower-case "present" by default). *)
Theorem mark_accepted_row rt env user body w resp w' :
  AttendanceRoute.POST rt env (Some user) body w = (Returned resp, w') ->
  status resp = 200 ->
  exists a z,
    payload_of resp = Success (Some "Attendance marked successfully") (a, z)
    /\ attendances (db w') = (attendances (db w) ++ [a])%list
    /\ hRRequests (db w') = hRRequests (db w)
    /\ notifications (db w') = notifications (db w)
    /\ Attendance.employeeId a = SessionUser.id user
    /\ newDate rt (fields_of body "date") = Some (Attendance.date a)
    /\ (truthy (fields_of body "status") = false ->
        Attendance.status a = "PRESENT")
    /\ (forall s, fields_of body "status" = JStr s -> s <> "" ->
                  Attendance.status a = s)
    /\ (truthy (fields_of body "checkIn") = true ->
        AttendanceRoute.at_time rt (fields_of body "date")
                                (fields_of body "checkIn")
        = Attendance.checkIn a)
    /\ (truthy (fields_of body "checkOut") = true ->
        AttendanceRoute.at_time rt (fields_of body "date")
                                (fields_of body "checkOut")
        = Attendance.checkOut a
        /\ Attendance.checkOut a <> None)
    /\ (exists wz,
          ZenHR.markAttendance rt env
            (JObj [("employeeId", JStr (SessionUser.employeeId user));
                   ("date", fields_of body "date");
                   ("checkIn", fields_of body "checkIn");
                   ("checkOut", fields_of body "checkOut");
                   ("status", js_or (fields_of body "status")
                                    (JStr "present"))]) w
          = (Returned z, wz)).
Proof.
  intros H Hs.
  destruct (attendance_POST_accepted _ _ _ _ _ H Hs)
    as (z & wz & data & wd & a & _ & Ez & Ed & Ea & Hp).
  assert (Hdbz : db wz = db w).
  { eapply keeps_db_returned; [apply keeps_db_markAttendance | exact Ez]. }
  pose proof (create_data_returned _ _ _ _ _ Ed) as (Hemp & Hdate & Hdbd & _).
  pose proof (create_data_details _ _ _ _ _ Ed) as (Hst & Hci & Hco).
  pose proof (attendance_create_texts _ _ _ Ea) as (As & _).
  apply attendance_create_returned in Ea.
  destruct Ea as (Hdb & _ & _ & Ae & Ad & Ai & Ao & _).
  exists a, z. rewrite Hdb, Hdbd, Hdbz. simpl.
  split; [exact Hp|]. split; [reflexivity|]. split; [reflexivity|].
  split; [reflexivity|]. split; [congruence|]. split; [congruence|].
  split.
  { intros F. unfold js_or in Hst. rewrite F in Hst. congruence. }
  split.
  { intros s Hv Hne. unfold js_or in Hst. rewrite Hv in Hst.
    rewrite (truthy_nonempty Hne) in Hst. congruence. }
  split; [intros T; rewrite Ai; apply Hci; exact T|].
  split; [intros T; rewrite Ao; apply Hco; exact T|].
  exists wz. exact Ez.
Qed.

Lemma mark_accepted_row_example :
  exists a z,
    payload_of
      (match fst (AttendanceRoute.POST Samples.runtime Samples.offline
                    (Some (principal_of Samples.E)) Samples.mark
                    Samples.start) with
       | Returned resp => resp
       | Threw _ => {| status := 0; payload_of := Failure "" |}
       end)
    = Success (Some "Attendance marked successfully") (a, z)
    /\ attendances (db Samples.marked_once)
       = (attendances (db Samples.start) ++ [a])%list
    /\ hRRequests (db Samples.marked_once) = hRRequests (db Samples.start)
    /\ notifications (db Samples.marked_once)
       = notifications (db Samples.start)
    /\ Attendance.employeeId a = SessionUser.id (principal_of Samples.E)
    /\ newDate Samples.runtime (fields_of Samples.mark "date")
       = Some (Attendance.date a)
    /\ (truthy (fields_of Samples.mark "status") = false ->
        Attendance.status a = "PRESENT")
    /\ (forall s, fields_of Samples.mark "status" = JStr s -> s <> "" ->
                  Attendance.status a = s)
    /\ (truthy (fields_of Samples.mark "checkIn") = true ->
        AttendanceRoute.at_time Samples.runtime
          (fields_of Samples.mark "date") (fields_of Samples.mark "checkIn")
        = Attendance.checkIn a)
    /\ (truthy (fields_of Samples.mark "checkOut") = true ->
        AttendanceRoute.at_time Samples.runtime
          (fields_of Samples.mark "date") (fields_of Samples.mark "checkOut")
        = Attendance.checkOut a
        /\ Attendance.checkOut a <> None)
    /\ (exists wz,
          ZenHR.markAttendance Samples.runtime Samples.offline
            (JObj [("employeeId",
                    JStr (SessionUser.employeeId (principal_of Samples.E)));
                   ("date", fields_of Samples.mark "date");
                   ("checkIn", fields_of Samples.mark "checkIn");
                   ("checkOut", fields_of Samples.mark "checkOut");
                   ("status", js_or (fields_of Samples.mark "status")
                                    (JStr "present"))]) Samples.start
          = (Returned z, wz)).
Proof.
  apply (@mark_accepted_row Samples.runtime Samples.offline
           (principal_of Samples.E) Samples.mark Samples.start).
  - vm_compute. reflexivity.
  - reflexivity.
Defined.

(* ------------------------------------------------------------------ *)
(** ** The tenant of a submitted request *)




(* ------------------------------------------------------------------ *)
(** ** A submission whose body is null *)

(** C7, where the code departs from it.  In a body that is JSON [null]
    all of [type], [title] and [description] are absent, yet the call is
    not answered with the validation failure: destructuring [null] throws
    before the test on the three fields is reached, and the handler's
    [catch] answers 500 'Failed to submit HR request'.  Nothing is written
    and the connector is not called.  The empty object, in which the three
    fields are absent as well, is answered 400 with the validation
    message. *)
Theorem submit_null_body_answers_500 rt env user w :
  fields_of JNull "type" = JUndefined
  /\ fields_of JNull "title" = JUndefined
  /\ fields_of JNull "description" = JUndefined
  /\ HRRequestRoute.POST_try rt env (Some user) JNull w = (Threw TypeError, w)
  /\ HRRequestRoute.POST rt env (Some user) JNull w
     = (Returned {| status := 500;
                    payload_of := Failure "Failed to submit HR request" |},
        w)
  /\ HRRequestRoute.POST rt env (Some user) (JObj []) w
     = (Returned {| status := 400;
                    payload_of :=
                      Failure "Type, title, and description are required" |},
        w).
Proof. repeat split. Qed.

(* ------------------------------------------------------------------ *)
(** ** A second mark for the same day *)

(** C6, as the code has it.  After an accepted mark, a second mark by the
    same principal whose date evaluates to the same value is never
    accepted: the call answers with a status other than 200, the database
    is the one the first mark left, and the only Attendance row for that
    principal and date is the one the first mark created: nothing is
    overwritten.  The unique index on (employeeId, date) is what refuses it
    when the second mark reaches the insert (a date is given, the provider
    acknowledges and the arguments are accepted by the client): the [try]
    block then throws the uniqueness violation, which the handler's [catch]
    answers with the 500 it gives to every failure.  When the provider
    fails the second mark, the [try] block throws the provider's failure
    instead and the index is never consulted. *)
Theorem second_mark_is_refused rt env user body1 body2 w r1 w1 :
  AttendanceRoute.POST rt env (Some user) body1 w = (Returned r1, w1) ->
  status r1 = 200 ->
  newDate rt (fields_of body2 "date") = newDate rt (fields_of body1 "date") ->
  exists d a1 r2 w2,
    newDate rt (fields_of body1 "date") = Some d
    /\ AttendanceRoute.POST rt env (Some user) body2 w1 = (Returned r2, w2)
    /\ status r2 <> 200
    /\ db w2 = db w1
    /\ attendances (db w2) = (attendances (db w) ++ [a1])%list
    /\ filter (Prisma.sameDay (SessionUser.id user) d) (attendances (db w2))
       = [a1]
    /\ (forall z wz data wd,
           truthy (fields_of body2 "date") = true ->
           ZenHR.markAttendance rt env
             (AttendanceRoute.attendanceData user (fields_of body2)) w1
           = (Returned z, wz) ->
           AttendanceRoute.create_data rt env user (fields_of body2) wz
           = (Returned data, wd) ->
           AttendanceRoute.POST_try rt env (Some user) body2 w1
           = (Threw UniqueConstraintViolation, w2)
           /\ r2 = {| status := 500;
                      payload_of := Failure "Failed to mark attendance" |})
    /\ (forall e wz,
           truthy (fields_of body2 "date") = true ->
           ZenHR.markAttendance rt env
             (AttendanceRoute.attendanceData user (fields_of body2)) w1
           = (Threw e, wz) ->
           AttendanceRoute.POST_try rt env (Some user) body2 w1
           = (Threw e, w2)
           /\ r2 = {| status := 500;
                      payload_of := Failure "Failed to mark attendance" |}).
Proof.
  intros H1 Hs1 Hsame.
  destruct (attendance_POST_accepted _ _ _ _ _ H1 Hs1)
    as (z1 & wz1 & data1 & wd1 & a1 & _ & Ez1 & Ed1 & Ea1 & _).
  assert (Hdbz1 : db wz1 = db w).
  { eapply keeps_db_returned; [apply keeps_db_markAttendance | exact Ez1]. }
  apply create_data_returned in Ed1.
  destruct Ed1 as (Hemp1 & Hdate1 & Hdbd1 & _ & _).
  apply attendance_create_returned in Ea1.
  destruct Ea1 as (Hdb1 & Hfree & _ & Ha1e & Ha1d & _).
  assert (Hrows1 : attendances (db w1) = (attendances (db w) ++ [a1])%list).
  { rewrite Hdb1, Hdbd1, Hdbz1. reflexivity. }
  assert (Hkey : Prisma.sameDay (SessionUser.id user) (Prisma.t_date data1) a1
                 = true).
  { rewrite <- Hemp1, <- Ha1e, <- Ha1d. apply sameDay_refl. }
  destruct (@try_catch_returns _
              (AttendanceRoute.POST_try rt env (Some user) body2)
              (fun _ => respond 500 (Failure "Failed to mark attendance")) w1)
    as (r2 & w2 & E2).
  { intros e w0. apply respond_returns. }
  fold (AttendanceRoute.POST rt env (Some user) body2) in E2.
  assert (Hs2 : status r2 <> 200).
  { intros Hs2.
    destruct (attendance_POST_accepted _ _ _ _ _ E2 Hs2)
      as (z & wz & data & wd & a & _ & Ez & Ed & Ea & _).
    pose proof (create_data_returned _ _ _ _ _ Ed) as (Hemp & Hdate & Hdbd & _).
    assert (Hdbz : db wz = db w1).
    { eapply keeps_db_returned; [apply keeps_db_markAttendance | exact Ez]. }
    apply attendance_create_returned in Ea.
    destruct Ea as (_ & Hfree2 & _).
    rewrite Hdbd, Hdbz, Hrows1, existsb_app in Hfree2.
    apply orb_false_iff in Hfree2.
    destruct Hfree2 as [_ Hfree2]. simpl in Hfree2.
    assert (Hd : Prisma.t_date data = Prisma.t_date data1) by congruence.
    rewrite Hemp, Hd, Hkey in Hfree2. discriminate. }
  assert (Hdb2 : db w2 = db w1).
  { eapply attendance_POST_refused; eauto. }
  exists (Prisma.t_date data1), a1, r2, w2.
  split; [exact Hdate1|]. split; [exact E2|]. split; [exact Hs2|].
  split; [exact Hdb2|]. split; [rewrite Hdb2; exact Hrows1|].
  split.
  { rewrite Hdb2, Hrows1, filter_app. simpl. rewrite Hkey.
    rewrite filter_none; [reflexivity|].
    rewrite <- Hemp1, <- Hdbz1, <- Hdbd1. exact Hfree. }
  split.
  - intros z wz data wd Ht Ez Ed.
    destruct (@second_mark_conflicts rt env user body1 body2 w r1 w1 z wz data wd
                H1 Hs1 Ht Hsame Ez Ed)
      as (d' & a1' & w3 & _ & Htry & Hpost & _).
    rewrite Hpost in E2. inversion E2; subst. split; [exact Htry | reflexivity].
  - intros e wz Ht Ez.
    assert (Htry : AttendanceRoute.POST_try rt env (Some user) body2 w1
                   = (Threw e, wz)).
    { unfold AttendanceRoute.POST_try.
      rewrite (@destructure_object body2 "date")
        by (intros K; rewrite K in Ht; discriminate).
      rewrite bind_ret, Ht. cbn [negb].
      erewrite bind_threw by exact Ez. reflexivity. }
    unfold AttendanceRoute.POST, try_catch in E2. rewrite Htry in E2.
    unfold respond, ret in E2. inversion E2; subst.
    split; [exact Htry | reflexivity].
Qed.

(** Scenario 3: E marks attendance for 2024-02-15 twice. *)
Lemma second_mark_is_refused_example :
  exists d a1 r2 w2,
    newDate Samples.runtime (fields_of Samples.mark "date") = Some d
    /\ AttendanceRoute.POST Samples.runtime Samples.offline
         (Some (principal_of Samples.E)) Samples.mark Samples.marked_once
       = (Returned r2, w2)
    /\ status r2 <> 200
    /\ db w2 = db Samples.marked_once
    /\ attendances (db w2) = (attendances (db Samples.start) ++ [a1])%list
    /\ filter (Prisma.sameDay (SessionUser.id (principal_of Samples.E)) d)
              (attendances (db w2))
       = [a1]
    /\ (forall z wz data wd,
           truthy (fields_of Samples.mark "date") = true ->
           ZenHR.markAttendance Samples.runtime Samples.offline
             (AttendanceRoute.attendanceData (principal_of Samples.E)
                (fields_of Samples.mark)) Samples.marked_once
           = (Returned z, wz) ->
           AttendanceRoute.create_data Samples.runtime Samples.offline
             (principal_of Samples.E) (fields_of Samples.mark) wz
           = (Returned data, wd) ->
           AttendanceRoute.POST_try Samples.runtime Samples.offline
             (Some (principal_of Samples.E)) Samples.mark Samples.marked_once
           = (Threw UniqueConstraintViolation, w2)
           /\ r2 = {| status := 500;
                      payload_of := Failure "Failed to mark attendance" |})
    /\ (forall e wz,
           truthy (fields_of Samples.mark "date") = true ->
           ZenHR.markAttendance Samples.runtime Samples.offline
             (AttendanceRoute.attendanceData (principal_of Samples.E)
                (fields_of Samples.mark)) Samples.marked_once
           = (Threw e, wz) ->
           AttendanceRoute.POST_try Samples.runtime Samples.offline
             (Some (principal_of Samples.E)) Samples.mark Samples.marked_once
           = (Threw e, w2)
           /\ r2 = {| status := 500;
                      payload_of := Failure "Failed to mark attendance" |}).
Proof.
  eapply (@second_mark_is_refused
            Samples.runtime Samples.offline (principal_of Samples.E)
            Samples.mark Samples.mark Samples.start).
  - vm_compute. reflexivity.
  - reflexivity.
  - reflexivity.
Defined.

(** C6, as stated, fails: the second mark of a day can fail for a reason
    other than the unique index, and its answer does not tell which.  With
    a provider that answers the first call only, the first mark is accepted
    and the second fails on the provider, before the insert; without a
    credential the second mark fails on the index.  Both are answered with
    the same 500 'Failed to mark attendance'. *)
Lemma second_mark_fails_on_provider :
  fst (AttendanceRoute.POST Samples.runtime Samples.flaky
         (Some (principal_of Samples.E)) Samples.mark Samples.start)
  = Returned
      {| status := 200;
         payload_of :=
           match fst (AttendanceRoute.POST Samples.runtime Samples.flaky
                        (Some (principal_of Samples.E)) Samples.mark
                        Samples.start) with
           | Returned resp => payload_of resp
           | Threw _ => Failure ""
           end |}
  /\ Samples.marked_once_flaky
     = snd (AttendanceRoute.POST Samples.runtime Samples.flaky
              (Some (principal_of Samples.E)) Samples.mark Samples.start)
  /\ fst (AttendanceRoute.POST_try Samples.runtime Samples.flaky
            (Some (principal_of Samples.E)) Samples.mark
            Samples.marked_once_flaky)
     = Threw (Error "Unable to mark attendance in ZenHR")
  /\ Error "Unable to mark attendance in ZenHR" <> UniqueConstraintViolation
  /\ fst (AttendanceRoute.POST Samples.runtime Samples.flaky
            (Some (principal_of Samples.E)) Samples.mark
            Samples.marked_once_flaky)
     = Returned {| status := 500;
                   payload_of := Failure "Failed to mark attendance" |}
  /\ fst (AttendanceRoute.POST_try Samples.runtime Samples.offline
            (Some (principal_of Samples.E)) Samples.mark
            Samples.marked_once)
     = Threw UniqueConstraintViolation
  /\ fst (AttendanceRoute.POST Samples.runtime Samples.offline
            (Some (principal_of Samples.E)) Samples.mark
            Samples.marked_once)
     = Returned {| status := 500;
                   payload_of := Failure "Failed to mark attendance" |}.
Proof.
  split; [vm_compute; reflexivity|].
  split; [reflexivity|].
  split; [vm_compute; reflexivity|].
  split; [discriminate|].
  split; [vm_compute; reflexivity|].
  split; vm_compute; reflexivity.
Qed.

(* ------------------------------------------------------------------ *)
(** ** A status update across tenants *)







